(** * Skill helper utilities: validator and catalog

    A shallow embedding of [scripts/helper.py] (classes [SkillValidator]
    and [SkillCatalog], functions [validate_skill_file] and
    [create_skill_template]) and the properties of its validation results,
    frontmatter extraction, catalog construction, reports and templates.

    Conventions of the embedding.
    - Python [str] is [string]; a character is a code point below 256.
      The character functions ([\s], [\d], [str.title]) agree with Python on
      ASCII text.
    - Python objects that come out of [yaml.safe_load] are values of
      [Py.pyval]; a [dict] is an association list in insertion order.
    - A Python exception is the [Raise] outcome of [Py.result].
    - [yaml.safe_load], the formatting of non-string values in f-strings and
      [datetime.now()] are library behaviour: they are variables of the
      sections that embed the code.
    - [re] patterns are syntax trees of [Re.regex], run by a backtracking
      matcher that tries alternatives in the order Python's engine does.
    - What a function prints is the list of its lines; what
      [create_skill_template] asks of the file system is a list of actions,
      each of which happens when the ones before it have succeeded. *)

From Stdlib Require Import String Ascii List ZArith QArith Bool Arith Lia.
From Stdlib Require Import DecimalString Sorting.Permutation Sorting.Sorted.
From Stdlib Require Import OrderedTypeEx.
Import ListNotations.
Close Scope Q_scope.
Open Scope string_scope.

(* ===================================================================== *)
(** ** Python values and exceptions *)
(* ===================================================================== *)

Module Py.

(** The exception classes that the embedded code can meet. *)
Inductive exn : Type :=
| TypeError
| AttributeError
| KeyError
| OSError
| YAMLError
| ValueError.

Inductive result (A : Type) : Type :=
| Ok (a : A)
| Raise (e : exn).
Arguments Ok {A} a.
Arguments Raise {A} e.

Definition bind {A B : Type} (m : result A) (f : A -> result B) : result B :=
  match m with
  | Ok a => f a
  | Raise e => Raise e
  end.

(** Scalars: the hashable values, usable as dictionary keys. *)
Inductive scalar : Type :=
| SNone
| SBool (b : bool)
| SInt (z : Z)
| SFloat (q : Q)
| SStr (s : string)
| SDate (y m d : Z).

#[warnings="-register-all"]
Inductive pyval : Type :=
| PyAtom (a : scalar)
| PyList (l : list pyval)
| PyDict (d : list (scalar * pyval)).

Definition PyNone : pyval := PyAtom SNone.
Definition PyBool (b : bool) : pyval := PyAtom (SBool b).
Definition PyInt (z : Z) : pyval := PyAtom (SInt z).
Definition PyFloat (q : Q) : pyval := PyAtom (SFloat q).
Definition PyStr (s : string) : pyval := PyAtom (SStr s).

Definition dict : Type := list (scalar * pyval).

(** [bool(x)]: the truth value of an object. *)
Definition scalar_truthy (a : scalar) : bool :=
  match a with
  | SNone => false
  | SBool b => b
  | SInt z => negb (z =? 0)%Z
  | SFloat q => negb (Qnum q =? 0)%Z
  | SStr s => negb (s =? "")
  | SDate _ _ _ => true
  end.

Definition truthy (v : pyval) : bool :=
  match v with
  | PyAtom a => scalar_truthy a
  | PyList l => negb (Nat.eqb (List.length l) 0)
  | PyDict d => negb (Nat.eqb (List.length d) 0)
  end.

(** Numbers: [bool] is a subclass of [int], and [int] compares with
    [float] by value. *)
Definition as_number (a : scalar) : option Q :=
  match a with
  | SBool b => Some (inject_Z (if b then 1 else 0))
  | SInt z => Some (inject_Z z)
  | SFloat q => Some q
  | _ => None
  end.

(** [a == b] on scalars. *)
Definition scalar_eq (a b : scalar) : bool :=
  match as_number a, as_number b with
  | Some x, Some y => Qeq_bool x y
  | _, _ =>
      match a, b with
      | SNone, SNone => true
      | SStr s, SStr t => (s =? t)
      | SDate y m d, SDate y' m' d' => ((y =? y') && (m =? m') && (d =? d'))%Z
      | _, _ => false
      end
  end.

(** [a < b] on scalars; unordered pairs raise [TypeError]. *)
Definition scalar_lt (a b : scalar) : result bool :=
  match as_number a, as_number b with
  | Some x, Some y => Ok (negb (Qle_bool y x))
  | _, _ =>
      match a, b with
      | SStr s, SStr t => Ok (s <? t)
      | SDate y m d, SDate y' m' d' =>
          Ok ((y <? y') || ((y =? y') && ((m <? m') || ((m =? m') && (d <? d')))))%Z
      | _, _ => Raise TypeError
      end
  end.

(** Dictionary access by key. *)
Fixpoint dict_get (k : scalar) (d : dict) : option pyval :=
  match d with
  | [] => None
  | (k', v) :: d' => if scalar_eq k k' then Some v else dict_get k d'
  end.

Definition dict_mem (k : scalar) (d : dict) : bool :=
  match dict_get k d with
  | Some _ => true
  | None => false
  end.

(** [d[k] = v]: an existing key keeps its position, a new key goes last. *)
Fixpoint dict_set (k : scalar) (v : pyval) (d : dict) : dict :=
  match d with
  | [] => [(k, v)]
  | (k', v') :: d' =>
      if scalar_eq k k' then (k', v) :: d' else (k', v') :: dict_set k v d'
  end.

(** [a == b] on objects.  Two dictionaries are equal when they have the
    same number of items and every item of the first is in the second. *)
Fixpoint py_eq (a b : pyval) {struct a} : bool :=
  match a, b with
  | PyAtom x, PyAtom y => scalar_eq x y
  | PyList l1, PyList l2 =>
      (fix all2 (l1 l2 : list pyval) {struct l1} : bool :=
         match l1, l2 with
         | [], [] => true
         | x :: l1', y :: l2' => py_eq x y && all2 l1' l2'
         | _, _ => false
         end) l1 l2
  | PyDict d1, PyDict d2 =>
      Nat.eqb (List.length d1) (List.length d2) &&
      (fix items (d : dict) {struct d} : bool :=
         match d with
         | [] => true
         | (k, v) :: d' =>
             match dict_get k d2 with
             | Some v' => py_eq v v'
             | None => false
             end && items d'
         end) d1
  | _, _ => false
  end.

(** [a < b] on objects: scalars as above, lists lexicographically. *)
Fixpoint py_lt (a b : pyval) {struct a} : result bool :=
  match a, b with
  | PyAtom x, PyAtom y => scalar_lt x y
  | PyList l1, PyList l2 =>
      (fix lex (l1 l2 : list pyval) {struct l1} : result bool :=
         match l1, l2 with
         | [], [] => Ok false
         | [], _ :: _ => Ok true
         | _ :: _, [] => Ok false
         | x :: l1', y :: l2' =>
             if py_eq x y then lex l1' l2' else py_lt x y
         end) l1 l2
  | _, _ => Raise TypeError
  end.

(** [needle in hay] for two strings: substring test. *)
Fixpoint str_contains (needle hay : string) : bool :=
  String.prefix needle hay ||
  match hay with
  | EmptyString => false
  | String _ hay' => str_contains needle hay'
  end.

(** [s in x] for a string [s]: key of a dictionary, element of a list,
    substring of a string; other objects are not containers. *)
Definition contains (s : string) (x : pyval) : result bool :=
  match x with
  | PyDict d => Ok (dict_mem (SStr s) d)
  | PyList l => Ok (existsb (py_eq (PyStr s)) l)
  | PyAtom (SStr t) => Ok (str_contains s t)
  | PyAtom _ => Raise TypeError
  end.

(** [x[s]] for a string subscript [s]. *)
Definition getitem (x : pyval) (s : string) : result pyval :=
  match x with
  | PyDict d =>
      match dict_get (SStr s) d with
      | Some v => Ok v
      | None => Raise KeyError
      end
  | _ => Raise TypeError
  end.

(** [x.get(s, default)] on a dictionary. *)
Definition get (d : dict) (s : string) (default : pyval) : pyval :=
  match dict_get (SStr s) d with
  | Some v => v
  | None => default
  end.

(** [sorted(l, key=key)]: a stable sort that compares keys with [<]. *)
Section Sorted.
Context {A : Type} (key : A -> pyval).

Fixpoint insert (x : A) (l : list A) : result (list A) :=
    match l with
    | [] => Ok [x]
    | y :: l' =>
        bind (py_lt (key x) (key y)) (fun lt =>
        if lt then Ok (x :: y :: l')
        else bind (insert x l') (fun r => Ok (y :: r)))
    end.

Definition sorted (l : list A) : result (list A) :=
  fold_left (fun acc x => bind acc (insert x)) l (Ok []).
End Sorted.

(** Character classes and case mapping on ASCII letters. *)
Definition is_upper (c : ascii) : bool :=
  let n := nat_of_ascii c in ((65 <=? n) && (n <=? 90))%nat.
Definition is_lower (c : ascii) : bool :=
  let n := nat_of_ascii c in ((97 <=? n) && (n <=? 122))%nat.
Definition is_cased (c : ascii) : bool := is_upper c || is_lower c.
Definition to_upper (c : ascii) : ascii :=
  if is_lower c then ascii_of_nat (nat_of_ascii c - 32) else c.
Definition to_lower (c : ascii) : ascii :=
  if is_upper c then ascii_of_nat (nat_of_ascii c + 32) else c.

(** [s.title()]: a letter that follows a letter is lowered, every other
    letter is raised.  The letters are the ASCII letters: [str.title] also
    maps the letters above ASCII, some of them to characters above 255 or to
    two characters, which [string] cannot follow; the properties that fix a
    title are stated for ASCII text. *)
Fixpoint title_from (prev_cased : bool) (s : string) : string :=
  match s with
  | EmptyString => EmptyString
  | String c s' =>
      String (if prev_cased then to_lower c else to_upper c)
             (title_from (is_cased c) s')
  end.
Definition title (s : string) : string := title_from false s.

(** [s.lower()]. *)
Fixpoint lower (s : string) : string :=
  match s with
  | EmptyString => EmptyString
  | String c s' => String (to_lower c) (lower s')
  end.

End Py.

Notation "x <- m ;; k" := (Py.bind m (fun x => k))
(at level 61, m at next level, right associativity).

(* ===================================================================== *)
(** ** Regular expressions ([re]) *)
(* ===================================================================== *)

Module Re.

(** The pattern syntax that the program's patterns are written in.
    [Bol] and [Eol] carry the [re.MULTILINE] flag; [re.DOTALL] shows in the
    class chosen for [.]. *)
Inductive regex : Type :=
| Empty
| Chr (p : ascii -> bool)
| Bol (multiline : bool)
| Eol (multiline : bool)
| Seq (r1 r2 : regex)
| Alt (r1 r2 : regex)
| Star (greedy : bool) (r : regex)
| Group (n : nat) (r : regex).

Definition Plus (r : regex) : regex := Seq r (Star true r).

(** A literal string. *)
Fixpoint Lit (s : string) : regex :=
  match s with
  | EmptyString => Empty
  | String c s' => Seq (Chr (Ascii.eqb c)) (Lit s')
  end.

Definition newline : ascii := "010"%char.

(** [\s]: tab, line feed, vertical tab, form feed, carriage return, the
    separators 28 to 31, space, and NEL and NBSP above ASCII. *)
Definition is_space (c : ascii) : bool :=
  let n := nat_of_ascii c in
  (((9 <=? n) && (n <=? 13)) || ((28 <=? n) && (n <=? 32))
   || (n =? 133) || (n =? 160))%nat.

(** [\d]. *)
Definition is_digit (c : ascii) : bool :=
  let n := nat_of_ascii c in ((48 <=? n) && (n <=? 57))%nat.

(** [[a-z0-9]]. *)
Definition is_lower_alnum (c : ascii) : bool :=
  let n := nat_of_ascii c in
  (((97 <=? n) && (n <=? 122)) || ((48 <=? n) && (n <=? 57)))%nat.

(** [.] under [re.DOTALL]. *)
Definition any_char (c : ascii) : bool := true.

(** The matcher's position: the character before it (none at the start of
    the text), the text after it, and the groups closed so far. *)
Record mstate : Type := MState {
  prev : option ascii;
  after : string;
  caps : list (nat * string)
}.

Definition cont : Type := mstate -> option mstate.

Definition step (st : mstate) : mstate :=
  match after st with
  | EmptyString => st
  | String c s' => MState (Some c) s' (caps st)
  end.

Definition at_bol (multiline : bool) (st : mstate) : bool :=
  match prev st with
  | None => true
  | Some c => multiline && Ascii.eqb c newline
  end.

Definition at_eol (multiline : bool) (st : mstate) : bool :=
  match after st with
  | EmptyString => true
  | String c EmptyString => Ascii.eqb c newline
  | String c _ => multiline && Ascii.eqb c newline
  end.

(** The text consumed between two positions. *)
Definition taken (st st' : mstate) : string :=
  substring 0 (String.length (after st) - String.length (after st')) (after st).

(** Repetition.  A greedy loop tries one more round before it tries what
    follows, a lazy loop the other way round; a round that consumes nothing
    ends the loop. *)
Fixpoint star_loop (body : mstate -> cont -> option mstate) (greedy : bool)
    (fuel : nat) (st : mstate) (k : cont) : option mstate :=
  match fuel with
  | O => k st
  | S fuel' =>
      let more (st' : mstate) :=
        if (String.length (after st') <? String.length (after st))%nat
        then star_loop body greedy fuel' st' k
        else None in
      if greedy then
        match body st more with
        | Some m => Some m
        | None => k st
        end
      else
        match k st with
        | Some m => Some m
        | None => body st more
        end
  end.

(** [run r st k]: match [r] at [st], then continue with [k]; the first
    success in backtracking order. *)
Fixpoint run (r : regex) (st : mstate) (k : cont) {struct r} : option mstate :=
  match r with
  | Empty => k st
  | Chr p =>
      match after st with
      | EmptyString => None
      | String c _ => if p c then k (step st) else None
      end
  | Bol ml => if at_bol ml st then k st else None
  | Eol ml => if at_eol ml st then k st else None
  | Seq r1 r2 => run r1 st (fun st' => run r2 st' k)
  | Alt r1 r2 =>
      match run r1 st k with
      | Some m => Some m
      | None => run r2 st k
      end
  | Star greedy r' => star_loop (run r') greedy (String.length (after st)) st k
  | Group n r' =>
      run r' st (fun st' => k (MState (prev st') (after st') ((n, taken st st') :: caps st')))
  end.

(** [re.match(r, s)]: a match that starts at the beginning of [s]. *)
Definition re_match (r : regex) (s : string) : option mstate :=
  run r (MState None s []) Some.

(** [re.search(r, s)]: the first position of [s] where [r] matches. *)
Fixpoint search_from (r : regex) (before : option ascii) (s : string) : option mstate :=
  match run r (MState before s []) Some with
  | Some m => Some m
  | None =>
      match s with
      | EmptyString => None
      | String c s' => search_from r (Some c) s'
      end
  end.

Definition re_search (r : regex) (s : string) : option mstate :=
  search_from r None s.

(** [m.group(n)]; a group that took no part in the match has no text. *)
Fixpoint assoc (n : nat) (l : list (nat * string)) : option string :=
  match l with
  | [] => None
  | (i, s) :: l' => if Nat.eqb i n then Some s else assoc n l'
  end.

Definition group (n : nat) (m : mstate) : option string := assoc n (caps m).

(** A pattern as the program holds it: the text, which error messages
    quote, and the expression [re] compiles it to. *)
Record pattern : Type := Pattern {
  pattern_text : string;
  pattern_re : regex
}.

(** A loop over one character class, as [run] starts it. *)
Definition star (p : ascii -> bool) (greedy : bool) (st : mstate) (k : cont) :=
  star_loop (run (Chr p)) greedy (String.length (after st)) st k.

(** The character before the position, after the text [s] was consumed. *)
Fixpoint last_of (s : string) (b : option ascii) : option ascii :=
  match s with
  | EmptyString => b
  | String c s' => last_of s' (Some c)
  end.

(** The text begins with a line feed. *)
Definition starts_with_newline (s : string) : bool :=
  match s with
  | EmptyString => false
  | String c _ => Ascii.eqb newline c
  end.

(** A continuation that needs a line feed first. *)
Definition wants_newline (k : cont) : Prop :=
  forall st, starts_with_newline (after st) = false -> k st = None.

(** White space other than the line feed. *)
Definition horizontal (c : ascii) : bool := is_space c && negb (Ascii.eqb newline c).

End Re.

(* ===================================================================== *)
(** ** The file system, as the program reads it *)
(* ===================================================================== *)

Definition nl : string := String Re.newline EmptyString.

(** Text given line by line, every line ended by a line feed. *)
Definition unlines (ls : list string) : string :=
  String.concat "" (map (fun l => l ++ nl) ls).

Inductive fs_entry : Type :=
| NoEntry
| Directory
| File (content : string).

Definition filesystem : Type := string -> fs_entry.

(** [os.path.exists(path)]. *)
Definition path_exists (fs : filesystem) (path : string) : bool :=
  match fs path with
  | NoEntry => false
  | _ => true
  end.

(** [open(path, 'r', encoding='utf-8')] followed by [f.read()]. *)
Definition read_text (fs : filesystem) (path : string) : Py.result string :=
  match fs path with
  | File content => Py.Ok content
  | _ => Py.Raise Py.OSError
  end.

(* ===================================================================== *)
(** ** class SkillValidator *)
(* ===================================================================== *)

Module SkillValidator.
Import Py Re.

Definition cat (rs : list regex) : regex := fold_right Seq Empty rs.

Definition REQUIRED_FIELDS : list string := ["name"; "version"; "description"].

(** [r'^[a-z0-9]+(-[a-z0-9]+)*$'] *)
Definition NAME_PATTERN : pattern :=
  Pattern "^[a-z0-9]+(-[a-z0-9]+)*$"
    (cat [Bol false; Plus (Chr is_lower_alnum);
          Star true (Group 1 (Seq (Chr (Ascii.eqb "-")) (Plus (Chr is_lower_alnum))));
          Eol false]).

(** [r'^\d+\.\d+\.\d+$'] *)
Definition VERSION_PATTERN : pattern :=
  Pattern "^\d+\.\d+\.\d+$"
    (cat [Bol false; Plus (Chr is_digit); Chr (Ascii.eqb ".");
          Plus (Chr is_digit); Chr (Ascii.eqb "."); Plus (Chr is_digit);
          Eol false]).

(** [r'^---\s*\n(.*?)\n---\s*\n'] with [re.DOTALL] *)
Definition FRONTMATTER_RE : regex :=
  cat [Bol false; Lit "---"; Star true (Chr is_space); Lit nl;
       Group 1 (Star false (Chr any_char));
       Lit (nl ++ "---"); Star true (Chr is_space); Lit nl].

(** [rf'^##\s+{section}'] with [re.MULTILINE]; the sections that the
    program interpolates are plain words. *)
Definition section_re (section : string) : regex :=
  cat [Bol true; Lit "##"; Plus (Chr is_space); Lit section].

(** [self.config['validation']] for a configuration that holds the four
    options, with a list of field names and two patterns that compile: the
    default configuration, or a configuration file that gives all of them.
    The code merges no defaults into what [json.load] returns; a file that
    lacks an option makes [validate_skill] raise [KeyError] at the lookup of
    that option, and such files are not values of this record. *)
Record validation_config : Type := ValidationConfig {
  require_frontmatter : bool;
  required_fields : list string;
  naming_pattern : pattern;
  version_pattern : pattern
}.

Record config : Type := Config {
  validation : validation_config
}.

(** [_load_config]: the configuration read from the file when there is
    one, the defaults otherwise. *)
Definition _load_config (loaded : option config) : config :=
  match loaded with
  | Some c => c
  | None =>
      Config (ValidationConfig true REQUIRED_FIELDS NAME_PATTERN VERSION_PATTERN)
  end.

(** The dictionary that [validate_skill] returns; [metadata] is [None]
    when the dictionary has no such key. *)
Record validation_result : Type := ValidationResult {
  valid : bool;
  errors : list string;
  metadata : option pyval
}.

(** [errors.append(e)] and [errors.extend(es)] on the list of messages. *)
Definition errors_append (errors : list string) (e : string) : list string :=
  (errors ++ [e])%list.
Definition errors_extend (errors es : list string) : list string :=
  (errors ++ es)%list.

(** [re.match(pattern, value)]: the subject must be a string. *)
Definition match_value (p : pattern) (value : pyval) : result (option mstate) :=
  match value with
  | PyAtom (SStr s) => Ok (re_match (pattern_re p) s)
  | _ => Raise TypeError
  end.

(** [_validate_content] *)
Definition _validate_content (content : string) : list string :=
  let errors : list string := [] in
  let required_sections := ["Overview"; "Instructions"; "Examples"] in
  fold_left
    (fun errors section =>
       match re_search (section_re section) content with
       | None => errors_append errors ("Missing required section: " ++ section)
       | Some _ => errors
       end)
    required_sections errors.

Section WithYaml.

(** [yaml.safe_load]: the object that the text denotes, or an exception. *)
Variable safe_load : string -> result pyval.

(** [extract_frontmatter].  Group 1 takes part in every match of the
    pattern, so [match.group(1)] is a string; [except yaml.YAMLError] catches
    that exception and no other. *)
Definition extract_frontmatter (content : string) : result pyval :=
  match re_match FRONTMATTER_RE content with
  | None => Ok PyNone
  | Some m =>
      match group 1 m with
      | None => Raise AttributeError
      | Some body =>
          match safe_load body with
          | Ok v => Ok v
          | Raise YAMLError => Ok PyNone
          | Raise e => Raise e
          end
      end
  end.

(** The loop over the required fields of [validate_skill]. *)
Fixpoint required_fields_loop (fields : list string) (frontmatter : pyval)
    (errors : list string) : result (list string) :=
  match fields with
  | [] => Ok errors
  | field :: fields' =>
      present <- contains field frontmatter ;;
      let errors :=
        if negb present then errors_append errors ("Missing required field: " ++ field)
        else errors in
      required_fields_loop fields' frontmatter errors
  end.

(** [validate_skill] *)
Definition validate_skill (cfg : config) (fs : filesystem) (skill_path : string)
    : result validation_result :=
  let errors : list string := [] in
  if negb (path_exists fs skill_path) then
    Ok (ValidationResult false ["File does not exist"] None)
  else
    content <- read_text fs skill_path ;;
    frontmatter <- extract_frontmatter content ;;
    if negb (truthy frontmatter) then
      let errors :=
        if require_frontmatter (validation cfg)
        then errors_append errors "Missing YAML frontmatter" else errors in
      Ok (ValidationResult false errors None)
    else
      errors <- required_fields_loop (required_fields (validation cfg)) frontmatter errors ;;
      has_name <- contains "name" frontmatter ;;
      errors <-
        (if has_name then
           let pattern := naming_pattern (validation cfg) in
           name <- getitem frontmatter "name" ;;
           m <- match_value pattern name ;;
           match m with
           | None => Ok (errors_append errors ("Invalid name format. Must match: " ++ pattern_text pattern))
           | Some _ => Ok errors
           end
         else Ok errors) ;;
      has_version <- contains "version" frontmatter ;;
      errors <-
        (if has_version then
           let pattern := version_pattern (validation cfg) in
           version <- getitem frontmatter "version" ;;
           m <- match_value pattern version ;;
           match m with
           | None => Ok (errors_append errors ("Invalid version format. Must match: " ++ pattern_text pattern))
           | Some _ => Ok errors
           end
         else Ok errors) ;;
      let content_errors := _validate_content content in
      let errors := errors_extend errors content_errors in
      Ok (ValidationResult (Nat.eqb (List.length errors) 0) errors (Some frontmatter)).

End WithYaml.
End SkillValidator.

(* ===================================================================== *)
(** ** class SkillCatalog *)
(* ===================================================================== *)

Module SkillCatalog.
Import Py Re.

(** The files that [self.skills_dir.rglob('SKILL.md')] yields, in the order
    it yields them: each with its path relative to the scanned directory
    and its text. *)
Definition skill_files : Type := list (string * string).

(** A dictionary keyed by hashable objects, with values of any type. *)
Fixpoint table_get {A : Type} (k : scalar) (t : list (scalar * A)) : option A :=
  match t with
  | [] => None
  | (k', v) :: t' => if scalar_eq k k' then Some v else table_get k t'
  end.

Fixpoint table_set {A : Type} (k : scalar) (v : A) (t : list (scalar * A))
    : list (scalar * A) :=
  match t with
  | [] => [(k, v)]
  | (k', v') :: t' =>
      if scalar_eq k k' then (k', v) :: t' else (k', v') :: table_set k v t'
  end.

(** [hash(x)]: lists and dictionaries are not hashable. *)
Definition hashable (x : pyval) : result scalar :=
  match x with
  | PyAtom a => Ok a
  | _ => Raise TypeError
  end.

(** [len(skills)] inside an f-string. *)
Definition decimal (n : nat) : string :=
  DecimalString.NilZero.string_of_uint (Nat.to_uint n).

(** [', '.join(x)]: the items of [x] must all be strings. *)
Fixpoint all_strings (l : list pyval) : result (list string) :=
  match l with
  | [] => Ok []
  | PyAtom (SStr s) :: l' => r <- all_strings l' ;; Ok (s :: r)
  | _ :: _ => Raise TypeError
  end.

Fixpoint characters (s : string) : list string :=
  match s with
  | EmptyString => []
  | String c s' => String c EmptyString :: characters s'
  end.

Definition join (sep : string) (x : pyval) : result string :=
  match x with
  | PyList l => r <- all_strings l ;; Ok (String.concat sep r)
  | PyDict d => r <- all_strings (map (fun kv => PyAtom (fst kv)) d) ;; Ok (String.concat sep r)
  | PyAtom (SStr s) => Ok (String.concat sep (characters s))
  | PyAtom _ => Raise TypeError
  end.

(** [lines.append(line)] *)
Definition lines_append (lines : list string) (line : string) : list string :=
  (lines ++ [line])%list.

(** [category.title()] *)
Definition title_method (category : scalar) : result string :=
  match category with
  | SStr s => Ok (title s)
  | _ => Raise AttributeError
  end.

Section WithLibraries.

Variable safe_load : string -> result pyval.

(** [str(x)] of an object that is not a string, as f-strings insert it. *)
Variable format_other : pyval -> string.

(** [datetime.now().isoformat()] *)
Variable now_isoformat : string.

(** [json.dumps(skills, indent=2)] and
    [yaml.dump(skills, default_flow_style=False)] *)
Variable json_dumps : list dict -> result string.
Variable yaml_dump : list dict -> result string.

Definition format (x : pyval) : string :=
  match x with
  | PyAtom (SStr s) => s
  | _ => format_other x
  end.

(** The loop of [_discover_skills].  The assignment [metadata['path'] = ...]
    needs a dictionary: a list or a string raises [TypeError]. *)
Fixpoint discover_loop (files : skill_files) (skills : list dict)
    : result (list dict) :=
  match files with
  | [] => Ok skills
  | (relative, content) :: files' =>
      metadata <- SkillValidator.extract_frontmatter safe_load content ;;
      if truthy metadata then
        match metadata with
        | PyDict d =>
            let d := dict_set (SStr "path") (PyStr relative) d in
            discover_loop files' (skills ++ [d])%list
        | _ => Raise TypeError
        end
      else discover_loop files' skills
  end.

(** [_discover_skills] *)
Definition _discover_skills (files : skill_files) : result (list dict) :=
  skills <- discover_loop files [] ;;
  sorted (fun x => get x "name" (PyStr "")) skills.

(** The first loop of [_format_markdown_catalog]: group by category. *)
Fixpoint group_loop (skills : list dict) (by_category : list (scalar * list dict))
    : result (list (scalar * list dict)) :=
  match skills with
  | [] => Ok by_category
  | skill :: skills' =>
      category <- hashable (get skill "category" (PyStr "uncategorized")) ;;
      let by_category :=
        match table_get category by_category with
        | None => table_set category [] by_category
        | Some _ => by_category
        end in
      let by_category :=
        match table_get category by_category with
        | Some members => table_set category (members ++ [skill])%list by_category
        | None => by_category
        end in
      group_loop skills' by_category
  end.

(** The lines of one catalog entry. *)
Definition entry_lines (skill : dict) : result (list string) :=
  let name := get skill "name" (PyStr "Unknown") in
  let version := get skill "version" (PyStr "0.0.0") in
  let description := get skill "description" (PyStr "No description") in
  let path := get skill "path" (PyStr "") in
  tags <- join ", " (get skill "tags" (PyList [])) ;;
  Ok ["### " ++ format name ++ " (v" ++ format version ++ ")" ++ nl;
      format description ++ nl;
      "**Tags:** " ++ tags ++ "  " ++ nl;
      "**Path:** `" ++ format path ++ "`" ++ nl].

Fixpoint entries_loop (members : list dict) (lines : list string)
    : result (list string) :=
  match members with
  | [] => Ok lines
  | skill :: members' =>
      block <- entry_lines skill ;;
      entries_loop members' (lines ++ block)%list
  end.

(** The second loop: one section per category, in sorted order. *)
Fixpoint sections_loop (categories : list scalar)
    (by_category : list (scalar * list dict)) (lines : list string)
    : result (list string) :=
  match categories with
  | [] => Ok lines
  | category :: categories' =>
      heading <- title_method category ;;
      let lines := lines_append lines (nl ++ "## " ++ heading ++ nl) in
      members <- match table_get category by_category with
                 | Some members => Ok members
                 | None => Raise KeyError
                 end ;;
      lines <- entries_loop members lines ;;
      sections_loop categories' by_category lines
  end.

(** The list [lines] that [_format_markdown_catalog] builds. *)
Definition catalog_lines (skills : list dict) : result (list string) :=
  let lines := ["# Skills Catalog" ++ nl] in
  let lines := lines_append lines ("Generated: " ++ now_isoformat ++ nl) in
  let lines := lines_append lines ("Total Skills: " ++ decimal (List.length skills) ++ nl) in
  by_category <- group_loop skills [] ;;
  categories <- sorted PyAtom (map fst by_category) ;;
  sections_loop categories by_category lines.

(** [_format_markdown_catalog] *)
Definition _format_markdown_catalog (skills : list dict) : result string :=
  lines <- catalog_lines skills ;;
  Ok (String.concat nl lines).

(** [generate_catalog] *)
Definition generate_catalog (files : skill_files) (output_format : string)
    : result string :=
  skills <- _discover_skills files ;;
  if output_format =? "json" then json_dumps skills
  else if output_format =? "yaml" then yaml_dump skills
  else _format_markdown_catalog skills.

End WithLibraries.
End SkillCatalog.

(* ===================================================================== *)
(** ** The module-level functions *)
(* ===================================================================== *)

Module Cli.
Import Py Re SkillValidator.

(** The marks U+2713 and U+2717 that the messages begin with, held as
    their UTF-8 bytes. *)
Definition check_mark : string := String "226" (String "156" (String "147" "")).
Definition cross_mark : string := String "226" (String "156" (String "151" "")).

(** What a function that prints leaves behind: the lines it printed, and
    the exception that ended it, if one did. *)
Record printed : Type := Printed {
  output : list string;
  ended : option exn
}.

(** [print(line)] after the lines printed so far. *)
Definition print (out : list string) (line : string) : list string :=
  (out ++ [line])%list.

(** [x.get(key)] as a method call; only a dictionary has the method. *)
Definition get_method (x : pyval) (key : string) : result pyval :=
  match x with
  | PyDict d => Ok (get d key PyNone)
  | _ => Raise AttributeError
  end.

(** [s.replace(old, new)] for strings of one character. *)
Fixpoint replace (old new : ascii) (s : string) : string :=
  match s with
  | EmptyString => EmptyString
  | String c s' => String (if Ascii.eqb c old then new else c) (replace old new s')
  end.

(** What [create_skill_template] asks of the system, in order. *)
Inductive action : Type :=
| Print (line : string)
| MakeDirs (path : string)
| WriteText (path text : string).

Section WithLibraries.

Variable safe_load : string -> result pyval.
Variable format_other : pyval -> string.
(** [Path(a) / b], as text. *)
Variable path_join : string -> string -> string.
(** The two results of [datetime.now().strftime('%Y-%m-%d')]. *)
Variable created_on : string.
Variable updated_on : string.

(** [validate_skill_file]; [loaded] is the configuration file, if one is
    given and exists. *)
Definition validate_skill_file (fs : filesystem) (skill_path : string)
    (loaded : option config) : printed :=
  let validator := _load_config loaded in
  match validate_skill safe_load validator fs skill_path with
  | Raise e => Printed [] (Some e)
  | Ok result =>
      if valid result then
        let out := print [] (check_mark ++ " " ++ skill_path ++ " is valid") in
        match metadata result with
        | None => Printed out None
        | Some md =>
            match get_method md "name" with
            | Raise e => Printed out (Some e)
            | Ok name =>
                let out := print out ("  Name: " ++ SkillCatalog.format format_other name) in
                match get_method md "version" with
                | Raise e => Printed out (Some e)
                | Ok version =>
                    Printed (print out ("  Version: " ++ SkillCatalog.format format_other version))
                            None
                end
            end
        end
      else
        let out := print [] (cross_mark ++ " " ++ skill_path ++ " has errors:") in
        Printed (fold_left (fun out error => print out ("  - " ++ error)) (errors result) out)
                None
  end.

(** The text that [create_skill_template] writes, line by line. *)
Definition template (name author category : string) : string :=
  unlines
    [ "---";
      "name: " ++ name;
      "version: 1.0.0";
      "description: Brief description of " ++ name;
      "author: " ++ author;
      "tags: [tag1, tag2, tag3]";
      "category: " ++ category;
      "license: MIT";
      "created: " ++ created_on;
      "updated: " ++ updated_on;
      "---";
      "";
      "# " ++ title (replace "-" " " name);
      "";
      "## Overview";
      "";
      "Brief overview of what this skill does.";
      "";
      "## When to Use";
      "";
      "- Condition 1";
      "- Condition 2";
      "- Condition 3";
      "";
      "## Instructions";
      "";
      "### Step 1: [Action Name]";
      "";
      "Description of step 1.";
      "";
      "### Step 2: [Action Name]";
      "";
      "Description of step 2.";
      "";
      "### Step 3: [Action Name]";
      "";
      "Description of step 3.";
      "";
      "## Examples";
      "";
      "### Example 1: Basic Usage";
      "";
      "**Input:**";
      "```";
      "Example input";
      "```";
      "";
      "**Output:**";
      "```";
      "Example output";
      "```";
      "";
      "## Best Practices";
      "";
      "1. Practice 1";
      "2. Practice 2";
      "3. Practice 3";
      "";
      "## Error Handling";
      "";
      "- Error Type 1: How to handle";
      "- Error Type 2: How to handle";
      "";
      "## Notes";
      "";
      "Additional notes and considerations." ].

(** [create_skill_template]; the pattern of its check is the text of
    [NAME_PATTERN]. *)
Definition create_skill_template (name output_dir author category : string)
    : list action :=
  match re_match (pattern_re NAME_PATTERN) name with
  | None => [Print "Error: Invalid skill name. Use lowercase with hyphens."]
  | Some _ =>
      let skill_dir := path_join output_dir name in
      let skill_file := path_join skill_dir "SKILL.md" in
      [ MakeDirs skill_dir;
        WriteText skill_file (template name author category);
        Print (check_mark ++ " Created skill: " ++ skill_file);
        Print "  Edit the file to customize your skill." ]
  end.

End WithLibraries.
End Cli.

(* ===================================================================== *)
(** ** Sample documents *)
(* ===================================================================== *)

Module Samples.
Import Py Re SkillValidator.

(** [yaml.safe_load] on the header bodies of the sample documents; every
    other text is taken as malformed. *)
Definition sample_table : list (string * pyval) :=
  [ ("name: demo", PyDict [(SStr "name", PyStr "demo")]);
    ("name: test-skill" ++ nl ++ "version: 1.0" ++ nl ++ "description: Test skill",
     PyDict [(SStr "name", PyStr "test-skill");
             (SStr "version", PyFloat (1 # 1));
             (SStr "description", PyStr "Test skill")]);
    ("name: Test_Skill" ++ nl ++ "version: 1.0.0",
     PyDict [(SStr "name", PyStr "Test_Skill");
             (SStr "version", PyStr "1.0.0")]);
    ("{}", PyDict []);
    ("- tag", PyList [PyStr "tag"]);
    ("note", PyStr "note");
    ("name: b-skill", PyDict [(SStr "name", PyStr "b-skill")]);
    ("name: a-skill" ++ nl ++ "path: elsewhere",
     PyDict [(SStr "name", PyStr "a-skill"); (SStr "path", PyStr "elsewhere")]) ].

Fixpoint lookup (s : string) (t : list (string * pyval)) : result pyval :=
  match t with
  | [] => Raise YAMLError
  | (k, v) :: t' => if s =? k then Ok v else lookup s t'
  end.

Definition sample_load (s : string) : result pyval := lookup s sample_table.

(** The document of the test [test_extract_frontmatter_missing]. *)
Definition no_frontmatter_doc : string :=
  "# Test Skill" ++ nl ++ nl ++ "No frontmatter here.".

(** The document of the test [test_validate_skill_invalid_version]. *)
Definition invalid_version_doc : string :=
  unlines ["---"; "name: test-skill"; "version: 1.0"; "description: Test skill";
           "---"; ""; "# Test Skill"].

Definition demo_doc : string := unlines ["---"; "name: demo"; "---"; "# Demo"].
Definition late_header_doc : string := nl ++ demo_doc.
Definition empty_mapping_doc : string := unlines ["---"; "{}"; "---"; "# Empty"].
Definition malformed_doc : string := unlines ["---"; "name: ["; "---"].
Definition sequence_doc : string := unlines ["---"; "- tag"; "---"].
Definition scalar_doc : string := unlines ["---"; "note"; "---"].
Definition bad_name_doc : string :=
  unlines ["---"; "name: Test_Skill"; "version: 1.0.0"; "---"; "## Overview"].

(** What [validate_skill] returns for [bad_name_doc]. *)
Definition bad_name_result : validation_result :=
  ValidationResult false
    ["Missing required field: description";
     "Invalid name format. Must match: ^[a-z0-9]+(-[a-z0-9]+)*$";
     "Missing required section: Instructions";
     "Missing required section: Examples"]
    (Some (PyDict [(SStr "name", PyStr "Test_Skill");
                   (SStr "version", PyStr "1.0.0")])).

(** One file at the path [SKILL.md] and nothing else. *)
Definition one_file (content : string) : filesystem :=
  fun path => if path =? "SKILL.md" then File content else NoEntry.

(** A configuration file that switches [require_frontmatter] off. *)
Definition lenient_config : config :=
  Config (ValidationConfig false REQUIRED_FIELDS NAME_PATTERN VERSION_PATTERN).

Definition default_config : config := _load_config None.

(** Two skill files, found in the order [b], [a]; the second declares a
    [path] of its own. *)
Definition b_doc : string := unlines ["---"; "name: b-skill"; "---"].
Definition a_doc : string := unlines ["---"; "name: a-skill"; "path: elsewhere"; "---"].
Definition sample_files : list (string * string) :=
  [("b/SKILL.md", b_doc); ("a/SKILL.md", a_doc)].
Definition a_entry : dict :=
  [(SStr "name", PyStr "a-skill"); (SStr "path", PyStr "a/SKILL.md")].
Definition b_entry : dict :=
  [(SStr "name", PyStr "b-skill"); (SStr "path", PyStr "b/SKILL.md")].

(** Two catalog entries whose categories differ in case. *)
Definition zeta_skill : dict :=
  [(SStr "name", PyStr "a-skill"); (SStr "category", PyStr "Zeta");
   (SStr "path", PyStr "a/SKILL.md")].
Definition alpha_skill : dict :=
  [(SStr "name", PyStr "b-skill"); (SStr "category", PyStr "alpha");
   (SStr "path", PyStr "b/SKILL.md")].
Definition zeta_block : list string :=
  ["### a-skill (v0.0.0)" ++ nl; "No description" ++ nl;
   "**Tags:**   " ++ nl; "**Path:** `a/SKILL.md`" ++ nl].
Definition alpha_block : list string :=
  ["### b-skill (v0.0.0)" ++ nl; "No description" ++ nl;
   "**Tags:**   " ++ nl; "**Path:** `b/SKILL.md`" ++ nl].
Definition sample_format (x : pyval) : string := "".
Definition sample_now : string := "2024-01-01T00:00:00".

End Samples.

(* ===================================================================== *)
(** ** Statements of the specification *)
(* ===================================================================== *)

Module Spec.
Import Py Re SkillValidator SkillCatalog.

(** The text has no delimited header block at its start. *)
Definition block_absent (content : string) : Prop :=
  re_match FRONTMATTER_RE content = None.

(** The text has a header block whose body the YAML parser rejects. *)
Definition block_malformed (safe_load : string -> result pyval) (content : string) : Prop :=
  exists m body,
    re_match FRONTMATTER_RE content = Some m /\
    group 1 m = Some body /\
    safe_load body = Raise YAMLError.

(** The text has a header block whose body parses to [v]. *)
Definition block_parses_to (safe_load : string -> result pyval) (content : string)
    (v : pyval) : Prop :=
  exists m body,
    re_match FRONTMATTER_RE content = Some m /\
    group 1 m = Some body /\
    safe_load body = Ok v.

(** [field in frontmatter], false when the test itself is an error. *)
Definition has_field (frontmatter : pyval) (field : string) : bool :=
  match contains field frontmatter with
  | Ok b => b
  | Raise _ => false
  end.

(** The text has a heading line for the section. *)
Definition has_section (content section : string) : bool :=
  match re_search (section_re section) content with
  | Some _ => true
  | None => false
  end.

(** The messages of each kind, as the specification lists them. *)
Definition missing_field_errors (fields : list string) (frontmatter : pyval) : list string :=
  map (fun field => "Missing required field: " ++ field)
      (filter (fun field => negb (has_field frontmatter field)) fields).

Definition format_error (label key : string) (p : pattern) (frontmatter : pyval)
    : list string :=
  match getitem frontmatter key with
  | Ok (PyAtom (SStr s)) =>
      match re_match (pattern_re p) s with
      | Some _ => []
      | None => ["Invalid " ++ label ++ " format. Must match: " ++ pattern_text p]
      end
  | _ => []
  end.

Definition missing_section_errors (content : string) : list string :=
  map (fun section => "Missing required section: " ++ section)
      (filter (fun section => negb (has_section content section))
              ["Overview"; "Instructions"; "Examples"]).

(** The messages in the order of the specification: the frontmatter message
    alone when there is no metadata, otherwise fields, name, version,
    sections. *)
Definition ordered_errors (cfg : config) (content : string) (md : option pyval)
    : list string :=
  match md with
  | None =>
      if require_frontmatter (validation cfg) then ["Missing YAML frontmatter"] else []
  | Some frontmatter =>
      (missing_field_errors (required_fields (validation cfg)) frontmatter
       ++ format_error "name" "name" (naming_pattern (validation cfg)) frontmatter
       ++ format_error "version" "version" (version_pattern (validation cfg)) frontmatter
       ++ missing_section_errors content)%list
  end.

(** A mapping whose name and version, when it has them, are text. *)
Definition text_or_absent (d : dict) (key : string) : Prop :=
  match dict_get (SStr key) d with
  | Some v => exists s, v = PyStr s
  | None => True
  end.

(** White space only. *)
Fixpoint all_space (s : string) : bool :=
  match s with
  | EmptyString => true
  | String c s' => is_space c && all_space s'
  end.

(** The last character is a line feed. *)
Fixpoint ends_with_newline (s : string) : bool :=
  match s with
  | EmptyString => false
  | String c EmptyString => Ascii.eqb newline c
  | String _ s' => ends_with_newline s'
  end.

(** Blank lines: white space only and, unless empty, ended by a line feed. *)
Definition blank_lines (s : string) : bool :=
  all_space s && ((s =? "") || ends_with_newline s).

(** The first line has a character that is not white space. *)
Fixpoint first_line_has_text (s : string) : bool :=
  match s with
  | EmptyString => false
  | String c s' =>
      if is_space c then negb (Ascii.eqb newline c) && first_line_has_text s'
      else true
  end.

(** No later line begins with three hyphens. *)
Definition no_delimiter_line (text : string) : bool :=
  negb (str_contains (nl ++ "---") text).

(** A document with a header block: a line of three hyphens, blank lines,
    the body, a line of three hyphens, the rest. *)
Definition framed (blank text rest : string) : string :=
  "---" ++ nl ++ blank ++ text ++ nl ++ "---" ++ nl ++ rest.

(** The order of Python on text: by code point, character by character. *)
Definition le_text (a b : string) : Prop := (a <=? b) = true.
Definition lt_text (a b : string) : Prop := (a <? b) = true.

(** Insertion into a list ordered by a text key.  An item goes before the
    first item with a greater key. *)
Section Arrange.
Context {A : Type} (name : A -> string).

Fixpoint place (x : A) (l : list A) : list A :=
  match l with
  | [] => [x]
  | y :: l' => if name x <? name y then x :: y :: l' else y :: place x l'
  end.

Definition arrange (l : list A) : list A :=
  fold_left (fun acc x => place x acc) l [].

Definition by_name (a b : A) : Prop := le_text (name a) (name b).
End Arrange.

(** The key that [_discover_skills] sorts by, and the text it holds. *)
Definition name_key (d : dict) : pyval := get d "name" (PyStr "").
Definition name_of (d : dict) : string :=
  match name_key d with
  | PyAtom (SStr s) => s
  | _ => ""
  end.
Definition name_is_text (d : dict) : Prop := exists s, name_key d = PyStr s.

(** The entries that the files give, in the order of the files: a file
    without metadata gives none, a file with a mapping gives the mapping
    with its [path] set. *)
Inductive Discovered (load : string -> result pyval) : skill_files -> list dict -> Prop :=
| Discovered_nil : Discovered load [] []
| Discovered_skip (relative content : string) (fm : pyval) files entries :
    extract_frontmatter load content = Ok fm ->
    truthy fm = false ->
    Discovered load files entries ->
    Discovered load ((relative, content) :: files) entries
| Discovered_take (relative content : string) (d : dict) files entries :
    extract_frontmatter load content = Ok (PyDict d) ->
    truthy (PyDict d) = true ->
    Discovered load files entries ->
    Discovered load ((relative, content) :: files)
      (dict_set (SStr "path") (PyStr relative) d :: entries).

(** The category that the catalog files a skill under. *)
Definition category_of (d : dict) : pyval := get d "category" (PyStr "uncategorized").
Definition category_is_text (d : dict) : Prop := exists c, category_of d = PyStr c.
Definition in_category (c : string) (d : dict) : bool :=
  match category_of d with
  | PyAtom (SStr c') => c =? c'
  | _ => false
  end.
Definition category_label (d : dict) : string :=
  match category_of d with
  | PyAtom (SStr c) => c
  | _ => ""
  end.

(** Text within ASCII, where [Py.title] is [str.title]. *)
Fixpoint ascii_text (s : string) : bool :=
  match s with
  | EmptyString => true
  | String c s' => (nat_of_ascii c <? 128)%nat && ascii_text s'
  end.
Definition category_is_ascii (d : dict) : Prop :=
  ascii_text (category_label d) = true.

(** The text of a key. *)
Definition label_of (k : scalar) : string :=
  match k with
  | SStr s => s
  | _ => ""
  end.

(** The parts of the markdown catalog: the heading of a section, the
    three lines before the first section, and the sections with their
    entries. *)
Definition section_heading (c : string) : string := nl ++ "## " ++ title c ++ nl.
Definition preamble (now : string) (n : nat) : list string :=
  ["# Skills Catalog" ++ nl; "Generated: " ++ now ++ nl;
   "Total Skills: " ++ decimal n ++ nl].
Definition sections (labels : list string) (bodies : list (list string)) : list string :=
  concat (map (fun cb => section_heading (fst cb) :: snd cb) (combine labels bodies)).

(** One round of the grouping loop, for a category that is text. *)
Fixpoint add_member (c : string) (skill : dict) (t : list (scalar * list dict))
    : list (scalar * list dict) :=
  match t with
  | [] => [(SStr c, [skill])]
  | (k, members) :: t' =>
      if scalar_eq (SStr c) k then (k, (members ++ [skill])%list) :: t'
      else (k, members) :: add_member c skill t'
  end.

(** The table of the grouping loop after the skills [done]. *)
Definition grouped (done : list dict) (t : list (scalar * list dict)) : Prop :=
  Forall (fun kv => exists c, fst kv = SStr c /\
                              snd kv = filter (in_category c) done) t /\
  NoDup (map fst t) /\
  (forall c, In (SStr c) (map fst t) <->
             exists skill, In skill done /\ category_of skill = PyStr c).

(** The same round on one item of a table that has the category. *)
Definition append_member (c : string) (skill : dict) (kv : scalar * list dict)
    : scalar * list dict :=
  if scalar_eq (SStr c) (fst kv) then (fst kv, (snd kv ++ [skill])%list) else kv.

End Spec.

(* ===================================================================== *)
(** ** Notions of the further properties *)
(* ===================================================================== *)

Module Notions.
Import Py Re SkillValidator SkillCatalog Spec.

(** [Matches r b u t]: the expression [r] matches the text [u] when the
    character [b] comes before it and the text [t] after it. *)
Inductive Matches : regex -> option ascii -> string -> string -> Prop :=
| M_Empty b t : Matches Empty b "" t
| M_Chr (p : ascii -> bool) c b t :
    p c = true -> Matches (Chr p) b (String c "") t
| M_Bol ml b t :
    at_bol ml (MState b t []) = true -> Matches (Bol ml) b "" t
| M_Eol ml b t :
    at_eol ml (MState b t []) = true -> Matches (Eol ml) b "" t
| M_Seq r1 r2 b u1 u2 t :
    Matches r1 b u1 (u2 ++ t) ->
    Matches r2 (last_of u1 b) u2 t ->
    Matches (Seq r1 r2) b (u1 ++ u2) t
| M_AltL r1 r2 b u t : Matches r1 b u t -> Matches (Alt r1 r2) b u t
| M_AltR r1 r2 b u t : Matches r2 b u t -> Matches (Alt r1 r2) b u t
| M_Star0 g r b t : Matches (Star g r) b "" t
| M_StarS g r b u1 u2 t :
    u1 <> "" ->
    Matches r b u1 (u2 ++ t) ->
    Matches (Star g r) (last_of u1 b) u2 t ->
    Matches (Star g r) b (u1 ++ u2) t
| M_Group n r b u t : Matches r b u t -> Matches (Group n r) b u t.

(** A success of the matcher on [r] is a match of [r], after which the
    continuation succeeded. *)
Definition sound_at (r : regex) : Prop :=
  forall st k m,
    run r st k = Some m ->
    exists u t cs,
      after st = u ++ t /\
      Matches r (prev st) u t /\
      k (MState (last_of u (prev st)) t cs) = Some m.

(** Every character of [s] is in the class [p]. *)
Fixpoint every (p : ascii -> bool) (s : string) : bool :=
  match s with
  | EmptyString => true
  | String c s' => p c && every p s'
  end.

(** No line feed in the text. *)
Fixpoint single_line (s : string) : bool :=
  match s with
  | EmptyString => true
  | String c s' => negb (Ascii.eqb newline c) && single_line s'
  end.

(** The text without the line feed at its end, if it has one. *)
Fixpoint chomp (s : string) : string :=
  match s with
  | EmptyString => EmptyString
  | String c s' =>
      match s' with
      | EmptyString => if Ascii.eqb c newline then EmptyString else s
      | String _ _ => String c (chomp s')
      end
  end.

(** What may follow a match of [$] without [re.MULTILINE]. *)
Definition at_end (t : string) : Prop := t = "" \/ t = nl.

(** Runs of lower-case letters and digits joined by single hyphens;
    [inside] tells whether a run has begun. *)
Fixpoint kebab_from (inside : bool) (s : string) : bool :=
  match s with
  | EmptyString => inside
  | String c s' =>
      if is_lower_alnum c then kebab_from true s'
      else Ascii.eqb c "-" && inside && kebab_from false s'
  end.
Definition kebab (s : string) : bool := kebab_from false s.

(** Runs of digits joined by single dots, with [dots] dots still to come. *)
Fixpoint dotted_from (inside : bool) (dots : nat) (s : string) : bool :=
  match s with
  | EmptyString => inside && (dots =? 0)%nat
  | String c s' =>
      if is_digit c then dotted_from true dots s'
      else Ascii.eqb c "." && inside &&
           match dots with
           | O => false
           | S d => dotted_from false d s'
           end
  end.
Definition three_numbers (s : string) : bool := dotted_from false 2 s.

(** The parts of the two patterns: [(-[a-z0-9]+)], what follows the first
    run of a name, and [\d+] followed by [dots] times [\.\d+] and [$]. *)
Definition hyphen_run : regex :=
  Group 1 (Seq (Chr (Ascii.eqb "-")) (Plus (Chr is_lower_alnum))).
Definition name_tail : regex := Seq (Star true hyphen_run) (Seq (Eol false) Empty).
Fixpoint runs (dots : nat) : regex :=
  Seq (Plus (Chr is_digit))
      (match dots with
       | O => Seq (Eol false) Empty
       | S d => Seq (Chr (Ascii.eqb ".")) (runs d)
       end).
Definition after_run (dots : nat) : regex :=
  match dots with
  | O => Seq (Eol false) Empty
  | S d => Seq (Chr (Ascii.eqb ".")) (runs d)
  end.

(** The sections that [_validate_content] asks for. *)
Definition REQUIRED_SECTIONS : list string := ["Overview"; "Instructions"; "Examples"].

(** The value under [key] is text that the pattern accepts, or the key is
    absent. *)
Definition accepted_or_absent (p : pattern) (d : dict) (key : string) : Prop :=
  match dict_get (SStr key) d with
  | Some v => exists s, v = PyStr s /\ re_match (pattern_re p) s <> None
  | None => True
  end.

(** A value that is not text. *)
Definition not_text (v : pyval) : Prop := forall s, v <> PyStr s.

(** The text before a position at which a line starts. *)
Definition line_start (pre : string) : Prop := pre = "" \/ exists p, pre = p ++ nl.

(** What [extract_frontmatter] makes of the parser's outcome. *)
Definition swallow (r : result pyval) : result pyval :=
  match r with
  | Ok v => Ok v
  | Raise YAMLError => Ok PyNone
  | Raise e => Raise e
  end.

(** The ends of a header that is not closed: nothing, or a last line of
    three hyphens without a line feed after it. *)
Definition open_end (tail : string) : Prop :=
  tail = "" \/ exists trail, tail = nl ++ "---" ++ trail /\ single_line trail = true.

(** The entry that one file gives to the catalog, if any. *)
Definition entry_for (load : string -> result pyval) (file : string * string) : list dict :=
  match extract_frontmatter load (snd file) with
  | Ok (PyDict d) =>
      if truthy (PyDict d) then [dict_set (SStr "path") (PyStr (fst file)) d] else []
  | _ => []
  end.

(** A header that is something, and not a mapping. *)
Definition not_mapping (v : pyval) : Prop :=
  truthy v = true /\ forall d, v <> PyDict d.

(** The entries filed under the categories, section by section. *)
Definition filed (skills : list dict) (labels : list string) : list dict :=
  flat_map (fun c => filter (in_category c) skills) labels.

(** A category that cannot be a dictionary key. *)
Definition unhashable_category (skill : dict) : Prop :=
  forall a, category_of skill <> PyAtom a.

(** The header block of the template: the lines between the two lines of
    three hyphens. *)
Definition template_header (created_on updated_on name author category : string) : string :=
  String.concat nl
    [ "name: " ++ name;
      "version: 1.0.0";
      "description: Brief description of " ++ name;
      "author: " ++ author;
      "tags: [tag1, tag2, tag3]";
      "category: " ++ category;
      "license: MIT";
      "created: " ++ created_on;
      "updated: " ++ updated_on ].

End Notions.

(* ===================================================================== *)
(** ** Further sample documents *)
(* ===================================================================== *)

Module Cases.
Import Py Re SkillValidator Samples Notions.

(** The document of the test [test_validate_skill_valid], and what its
    header parses to. *)
Definition valid_header : string :=
  String.concat nl
    [ "name: test-skill"; "version: 1.0.0";
      "description: Test skill for validation";
      "author: Test Author"; "tags: [test, example]" ].
Definition valid_metadata : dict :=
  [ (SStr "name", PyStr "test-skill");
    (SStr "version", PyStr "1.0.0");
    (SStr "description", PyStr "Test skill for validation");
    (SStr "author", PyStr "Test Author");
    (SStr "tags", PyList [PyStr "test"; PyStr "example"]) ].
Definition valid_doc : string :=
  unlines
    [ "---"; "name: test-skill"; "version: 1.0.0";
      "description: Test skill for validation";
      "author: Test Author"; "tags: [test, example]"; "---"; "";
      "# Test Skill"; "";
      "## Overview"; ""; "This is a test skill."; "";
      "## Instructions"; ""; "### Step 1: Do something"; ""; "Do the thing."; "";
      "## Examples"; ""; "### Example 1: Basic"; "";
      "Input: test"; "Output: result" ].

(** A header that is a number; a header that is a list, above the three
    sections; a configuration without required fields. *)
Definition number_doc : string := unlines ["---"; "42"; "---"].
Definition list_doc : string :=
  unlines ["---"; "- tag"; "---"; "## Overview"; "## Instructions"; "## Examples"].
Definition bare_config : config :=
  Config (ValidationConfig true [] NAME_PATTERN VERSION_PATTERN).

(** A skill file whose name YAML reads as a number, and its entry. *)
Definition number_name_doc : string := unlines ["---"; "name: 2048"; "---"].
Definition number_entry : dict :=
  [(SStr "name", PyInt 2048); (SStr "path", PyStr "n/SKILL.md")].

(** The day of the sample runs of [create_skill_template], and a rendering
    of paths. *)
Definition today : string := "2024-01-01".
Definition join_path (a b : string) : string := a ++ "/" ++ b.

(** What the header of the template parses to for the name [demo-skill],
    and for the name [2048], which YAML reads as a number. *)
Definition scaffold_metadata (name : pyval) (description : string) : dict :=
  [ (SStr "name", name);
    (SStr "version", PyStr "1.0.0");
    (SStr "description", PyStr description);
    (SStr "author", PyNone);
    (SStr "tags", PyList [PyStr "tag1"; PyStr "tag2"; PyStr "tag3"]);
    (SStr "category", PyStr "utility");
    (SStr "license", PyStr "MIT");
    (SStr "created", PyAtom (SDate 2024 1 1));
    (SStr "updated", PyAtom (SDate 2024 1 1)) ].
Definition demo_metadata : dict :=
  scaffold_metadata (PyStr "demo-skill") "Brief description of demo-skill".
Definition number_metadata : dict :=
  scaffold_metadata (PyInt 2048) "Brief description of 2048".

(** Two skill files whose names YAML reads as the numbers 10 and 9, and
    their entries. *)
Definition ten_doc : string := unlines ["---"; "name: 10"; "---"].
Definition nine_doc : string := unlines ["---"; "name: 9"; "---"].
Definition ten_entry : dict :=
  [(SStr "name", PyInt 10); (SStr "path", PyStr "ten/SKILL.md")].
Definition nine_entry : dict :=
  [(SStr "name", PyInt 9); (SStr "path", PyStr "nine/SKILL.md")].

(** Three skill files, two of them with the same name, and the entries of
    these two. *)
Definition twin_files : list (string * string) :=
  [("x/SKILL.md", b_doc); ("a/SKILL.md", a_doc); ("y/SKILL.md", b_doc)].
Definition first_twin : dict :=
  [(SStr "name", PyStr "b-skill"); (SStr "path", PyStr "x/SKILL.md")].
Definition second_twin : dict :=
  [(SStr "name", PyStr "b-skill"); (SStr "path", PyStr "y/SKILL.md")].

Definition case_table : list (string * pyval) :=
  [ (valid_header, PyDict valid_metadata);
    ("42", PyInt 42);
    ("name: 2048", PyDict [(SStr "name", PyInt 2048)]);
    ("name: 10", PyDict [(SStr "name", PyInt 10)]);
    ("name: 9", PyDict [(SStr "name", PyInt 9)]);
    (template_header today today "demo-skill" "" "utility", PyDict demo_metadata);
    (template_header today today "2048" "" "utility", PyDict number_metadata) ].

(** [yaml.safe_load] on the header bodies of these documents and of the
    earlier samples. *)
Definition case_load (s : string) : result pyval :=
  lookup s (case_table ++ sample_table)%list.

(** A header with a date that does not exist: the parser takes the text for
    a date and raises [ValueError] when it builds the date. *)
Definition impossible_date_doc : string :=
  unlines ["---"; "created: 2024-13-45"; "---"].
Definition strict_load (s : string) : result pyval :=
  if s =? "created: 2024-13-45" then Raise ValueError else case_load s.

(** Catalog entries: tags that are numbers, a category that is a list. *)
Definition numbered_skill : dict :=
  [ (SStr "name", PyStr "a-skill");
    (SStr "tags", PyList [PyInt 1; PyInt 2]);
    (SStr "path", PyStr "a/SKILL.md") ].
Definition listed_skill : dict :=
  [ (SStr "name", PyStr "b-skill");
    (SStr "category", PyList [PyStr "a"; PyStr "b"]);
    (SStr "path", PyStr "b/SKILL.md") ].

End Cases.

(* ===================================================================== *)
(** ** The matcher on the frontmatter pattern *)
(* ===================================================================== *)

Section MatcherFacts.
Import Py Re SkillValidator Spec.

Lemma length_app (s t : string) :
  String.length (s ++ t) = String.length s + String.length t.
Proof. induction s; simpl; congruence. Qed.

Lemma substring_app (s t : string) :
  substring 0 (String.length (s ++ t) - String.length t) (s ++ t) = s.
Proof.
  rewrite length_app, Nat.add_sub.
  induction s; simpl.
  - now destruct t.
  - now rewrite IHs.
Qed.

Lemma app_assoc_s (a b c : string) : (a ++ b) ++ c = a ++ b ++ c.
Proof. induction a; simpl; congruence. Qed.

Lemma star_cons (p : ascii -> bool) (greedy : bool) c s b cs k :
  star p greedy (MState b (String c s) cs) k =
  let more := if p c then star p greedy (MState (Some c) s cs) k else None in
  if greedy then match more with Some m => Some m | None => k (MState b (String c s) cs) end
  else match k (MState b (String c s) cs) with Some m => Some m | None => more end.
Proof.
  unfold star. cbn [after String.length star_loop run step].
  destruct (p c); cbn [after prev caps String.length].
  - replace (String.length s <? S (String.length s))%nat with true
      by (symmetry; apply Nat.ltb_lt; lia).
    reflexivity.
  - reflexivity.
Qed.

Lemma star_nil (p : ascii -> bool) (greedy : bool) b cs k :
  star p greedy (MState b "" cs) k = k (MState b "" cs).
Proof. unfold star. simpl. now destruct greedy. Qed.

Lemma run_star (p : ascii -> bool) (greedy : bool) st k :
  run (Star greedy (Chr p)) st k = star p greedy st k.
Proof. reflexivity. Qed.

Lemma run_Lit_app (s t : string) : forall b cs k,
  run (Lit s) (MState b (s ++ t) cs) k = k (MState (last_of s b) t cs).
Proof.
  induction s as [|c s IH]; intros b cs k; simpl.
  - reflexivity.
  - rewrite Ascii.eqb_refl. unfold step. simpl. apply IH.
Qed.

Lemma run_Lit_fail (s : string) : forall st k,
  String.prefix s (after st) = false -> run (Lit s) st k = None.
Proof.
  induction s as [|c s IH]; intros [b t cs] k; simpl.
  - destruct t; discriminate.
  - destruct t as [|c' t]; [reflexivity|]. simpl.
    destruct (ascii_dec c c') as [->|Hne].
    + rewrite Ascii.eqb_refl. intros H. unfold step. simpl. now apply IH.
    + intros _. apply Ascii.eqb_neq in Hne. now rewrite Hne.
Qed.

(** Greedy loop: a run of class characters is passed when the loop
    succeeds behind it. *)
Lemma star_greedy_skip (p : ascii -> bool) (k : cont) (t : string) (cs : list (nat * string)) (m : mstate) :
  forall pre b,
    forallb p (list_ascii_of_string pre) = true ->
    star p true (MState (last_of pre b) t cs) k = Some m ->
    star p true (MState b (pre ++ t) cs) k = Some m.
Proof.
  induction pre as [|c pre IH]; simpl; intros b Hall H.
  - exact H.
  - apply andb_true_iff in Hall as [Hc Hall].
    rewrite star_cons, Hc. cbn zeta. now rewrite (IH (Some c) Hall H).
Qed.

Lemma star_greedy_blocked (k : cont) (cs : list (nat * string)) (c : ascii) (t : string) :
  wants_newline k -> is_space c = false ->
  forall hws b,
    forallb horizontal (list_ascii_of_string hws) = true ->
    star is_space true (MState b (hws ++ String c t) cs) k = None.
Proof.
  intros Hk Hc. induction hws as [|h hws IH]; cbn [append list_ascii_of_string forallb]; intros b Hall.
  - rewrite star_cons, Hc. cbn zeta. apply Hk. cbn [after starts_with_newline].
    destruct (Ascii.eqb_spec newline c) as [<-|]; [discriminate Hc|reflexivity].
  - apply andb_true_iff in Hall as [Hh Hall].
    unfold horizontal in Hh. apply andb_true_iff in Hh as [Hs Hn].
    rewrite star_cons, Hs. cbn zeta. rewrite (IH (Some h) Hall).
    apply Hk. cbn [after starts_with_newline]. now apply negb_true_iff in Hn.
Qed.

(** Lazy loop over any character: the first split of the text at which
    what follows succeeds. *)
Lemma star_lazy_first (k : cont) (v : string) (cs : list (nat * string)) (m : mstate) :
  forall u b,
    (forall u1 u2 b', u = u1 ++ u2 -> u2 <> "" -> k (MState b' (u2 ++ v) cs) = None) ->
    k (MState (last_of u b) v cs) = Some m ->
    star any_char false (MState b (u ++ v) cs) k = Some m.
Proof.
  induction u as [|c u IH]; simpl; intros b Hnone Hk.
  - destruct v as [|c v].
    + rewrite star_nil. exact Hk.
    + rewrite star_cons. cbn zeta. cbv beta iota. now rewrite Hk.
  - rewrite star_cons. cbn zeta. cbv beta iota.
    assert (Hn : k (MState b (String c (u ++ v)) cs) = None)
      by (apply (Hnone "" (String c u) b); [reflexivity|discriminate]).
    rewrite Hn.
    unfold any_char at 1. apply IH; [|exact Hk].
    intros u1 u2 b' -> Hne. apply (Hnone (String c u1) u2 b'); [reflexivity|exact Hne].
Qed.

(** A loop over a character class leaves the groups as they are, and
    succeeds when what follows succeeds on the spot. *)
Lemma star_caps (p : ascii -> bool) (g : bool) (k : cont) :
  (forall st m, k st = Some m -> caps m = caps st) ->
  forall s b cs m, star p g (MState b s cs) k = Some m -> caps m = cs.
Proof.
  intros Hk. induction s as [|c s IH]; intros b cs m.
  - rewrite star_nil. intros H. now apply Hk in H.
  - rewrite star_cons. cbn zeta.
    destruct g.
    + destruct (p c).
      * destruct (star p true (MState (Some c) s cs) k) as [m'|] eqn:E.
        -- intros H; inversion H; subst. now apply IH in E.
        -- intros H. now apply Hk in H.
      * intros H. now apply Hk in H.
    + destruct (k (MState b (String c s) cs)) as [m'|] eqn:E.
      * intros H; inversion H; subst. now apply Hk in E.
      * destruct (p c); [|discriminate]. apply IH.
Qed.

Lemma star_greedy_some (p : ascii -> bool) (k : cont) (st : mstate) (m0 : mstate) :
  k st = Some m0 -> exists m, star p true st k = Some m.
Proof.
  destruct st as [b s cs]. intros H. destruct s as [|c s].
  - rewrite star_nil. eauto.
  - rewrite star_cons. cbn zeta. cbv beta iota.
    destruct (if p c then _ else _); eauto.
Qed.

Lemma all_space_forallb (s : string) :
  all_space s = true -> forallb is_space (list_ascii_of_string s) = true.
Proof. induction s; simpl; [reflexivity|]. intros H. apply andb_true_iff in H as [-> H]. auto. Qed.

Lemma first_line_split (text : string) :
  first_line_has_text text = true ->
  exists hws c t,
    text = hws ++ String c t /\
    forallb horizontal (list_ascii_of_string hws) = true /\
    is_space c = false.
Proof.
  induction text as [|c text IH]; cbn [first_line_has_text]; [discriminate|].
  destruct (is_space c) eqn:Hc.
  - intros H. apply andb_true_iff in H as [Hn H].
    destruct (IH H) as (hws & c' & t & -> & Hh & Hc').
    exists (String c hws), c', t. repeat split; [|exact Hc'].
    cbn [list_ascii_of_string forallb]. rewrite Hh. unfold horizontal.
    now rewrite Hc, Hn.
  - intros _. exists "", c, text. repeat split. exact Hc.
Qed.

Lemma newline_last (s : string) : forall c,
  all_space (String c s) = true ->
  ends_with_newline (String c s) = true ->
  exists pre, String c s = pre ++ nl /\ all_space pre = true.
Proof.
  induction s as [|c' s IH]; intros c Hall Hend.
  - cbn [ends_with_newline] in Hend. apply Ascii.eqb_eq in Hend. subst c. now exists "".
  - cbn [all_space] in Hall. apply andb_true_iff in Hall as [Hc Hall].
    destruct (IH c' Hall Hend) as (pre & Heq & Hpre).
    exists (String c pre). split.
    + cbn [append]. now rewrite <- Heq.
    + cbn [all_space]. now rewrite Hc.
Qed.

Lemma blank_then_newline (blank : string) :
  blank_lines blank = true ->
  exists pre, nl ++ blank = pre ++ nl /\ all_space pre = true.
Proof.
  unfold blank_lines. intros H. apply andb_true_iff in H as [Hall Hend].
  destruct blank as [|c blank].
  - now exists "".
  - cbn [String.eqb orb] in Hend.
    destruct (newline_last blank c Hall Hend) as (pre & Heq & Hpre).
    exists (String newline pre). split.
    + rewrite Heq. reflexivity.
    + cbn [all_space]. now rewrite Hpre.
Qed.

Lemma contains_suffix (d u1 u2 : string) :
  str_contains d (u1 ++ u2) = false -> str_contains d u2 = false.
Proof.
  induction u1 as [|c u1 IH]; cbn [append]; [trivial|].
  cbn [str_contains]. intros H. apply orb_false_iff in H as [_ H]. auto.
Qed.

Lemma contains_prefix (d u : string) :
  str_contains d u = false -> String.prefix d u = false.
Proof.
  destruct u; cbn [str_contains]; intros H; now apply orb_false_iff in H as [H _].
Qed.

Lemma prefix_cons (c c' : ascii) (s t : string) :
  String.prefix (String c s) (String c' t) = (Ascii.eqb c c' && String.prefix s t).
Proof.
  cbn [String.prefix]. destruct (ascii_dec c c') as [->|Hne].
  - now rewrite Ascii.eqb_refl.
  - apply Ascii.eqb_neq in Hne. now rewrite Hne.
Qed.

Lemma prefix_nil_r (c : ascii) (s : string) : String.prefix (String c s) "" = false.
Proof. reflexivity. Qed.

Lemma prefix_nil_l (t : string) : String.prefix "" t = true.
Proof. now destruct t. Qed.

(** The closing delimiter is not met before the end of a body that has no
    line of three hyphens. *)
Lemma no_early_delimiter (u2 rest : string) :
  String.prefix (nl ++ "---") u2 = false ->
  u2 <> "" ->
  String.prefix (nl ++ "---") (u2 ++ nl ++ "---" ++ nl ++ rest) = false.
Proof.
  intros H Hne. unfold nl in *. cbn [append] in *.
  destruct u2 as [|c1 u2]; [congruence|]. cbn [append].
  rewrite prefix_cons in *.
  destruct (Ascii.eqb newline c1); [|reflexivity]. cbn [andb] in *.
  destruct u2 as [|c2 u2]; cbn [append]; [reflexivity|].
  rewrite prefix_cons in *.
  destruct (Ascii.eqb "-" c2); [|reflexivity]. cbn [andb] in *.
  destruct u2 as [|c3 u2]; cbn [append]; [reflexivity|].
  rewrite prefix_cons in *.
  destruct (Ascii.eqb "-" c3); [|reflexivity]. cbn [andb] in *.
  destruct u2 as [|c4 u2]; cbn [append]; [reflexivity|].
  rewrite prefix_cons in *.
  destruct (Ascii.eqb "-" c4); [|reflexivity]. cbn [andb] in *.
  now rewrite prefix_nil_l in H.
Qed.

(** The pattern on a framed document: it matches, and group 1 is the body
    without its leading blank lines. *)
Lemma frontmatter_match (blank text rest : string) :
  blank_lines blank = true ->
  first_line_has_text text = true ->
  no_delimiter_line text = true ->
  exists m, re_match FRONTMATTER_RE (framed blank text rest) = Some m /\
            group 1 m = Some text.
Proof.
  intros Hblank Htext Hdelim.
  destruct (blank_then_newline blank Hblank) as (pre & Hpre & Hspace).
  destruct (first_line_split text Htext) as (hws & c & t & Heq & Hh & Hc).
  apply negb_true_iff in Hdelim.
  set (tail := nl ++ "---" ++ nl ++ rest).
  set (S1 := MState (Some newline) (text ++ tail) []).
  set (K3 := fun st : mstate => run (Lit nl) st (fun st' => run Empty st' Some)).
  set (K2 := fun st : mstate =>
               run (Lit (nl ++ "---")) st (fun st' => run (Star true (Chr is_space)) st' K3)).
  set (Kg := fun st' : mstate =>
               K2 (MState (prev st') (after st') ((1, taken S1 st') :: caps st'))).
  set (K1 := fun st : mstate =>
               run (Lit nl) st (fun st' => run (Group 1 (Star false (Chr any_char))) st' K2)).
  (* the closing delimiter *)
  assert (Hend : exists m, Kg (MState (last_of text (Some newline)) tail []) = Some m /\
                           caps m = [(1, text)]).
  { unfold Kg, K2. cbn [prev after caps]. unfold tail at 1 2.
    rewrite <- (app_assoc_s nl "---" (nl ++ rest)).
    rewrite run_Lit_app. rewrite run_star.
    assert (Htaken : taken S1 (MState (last_of text (Some newline)) ((nl ++ "---") ++ nl ++ rest) []) = text).
    { unfold taken, S1. cbn [after]. rewrite app_assoc_s. apply substring_app. }
    rewrite Htaken.
    destruct (star_greedy_some is_space K3
                (MState (last_of (nl ++ "---") (last_of text (Some newline))) (nl ++ rest) [(1, text)])
                (MState (Some newline) rest [(1, text)])) as [m Hm].
    { unfold K3. now rewrite run_Lit_app. }
    exists m. split; [exact Hm|].
    apply (star_caps is_space true K3) in Hm; [exact Hm|].
    intros [b s cs] m'. unfold K3. unfold nl. cbn [Lit run after].
    destruct s as [|c0 s]; [discriminate|].
    destruct (Ascii.eqb newline c0); [|discriminate].
    unfold step. cbn. intros H; inversion H; reflexivity. }
  destruct Hend as (m & Hm & Hcaps).
  exists m. split; [|unfold group; rewrite Hcaps; reflexivity].
  (* the body *)
  assert (Hbody : star any_char false S1 Kg = Some m).
  { unfold S1. apply star_lazy_first; [|exact Hm].
    intros u1 u2 b' Hsplit Hne. unfold Kg, K2. cbn [prev after caps].
    apply run_Lit_fail. cbn [after]. unfold tail.
    apply no_early_delimiter; [|exact Hne].
    apply contains_prefix. apply (contains_suffix _ u1). now rewrite <- Hsplit. }
  (* the opening delimiter *)
  unfold re_match, FRONTMATTER_RE, cat. cbn [fold_right].
  change (run (Seq (Bol false) ?r) ?st ?k) with (if at_bol false st then run r st k else None).
  cbn [at_bol prev].
  change (run (Seq (Lit "---") ?r) ?st ?k) with (run (Lit "---") st (fun st' => run r st' k)).
  unfold framed. rewrite run_Lit_app.
  change (run (Seq (Star true (Chr is_space)) ?r) ?st ?k)
    with (star is_space true st (fun st' => run r st' k)).
  change (star is_space true ?st _) with (star is_space true st K1).
  replace (nl ++ blank ++ text ++ nl ++ "---" ++ nl ++ rest)
    with (pre ++ nl ++ text ++ tail)
    by (rewrite <- (app_assoc_s pre nl), <- Hpre, app_assoc_s; reflexivity).
  apply star_greedy_skip; [now apply all_space_forallb|].
  unfold nl at 1. cbn [append]. rewrite star_cons.
  replace (is_space newline) with true by reflexivity. cbn zeta.
  rewrite Heq at 1. rewrite app_assoc_s. cbn [append].
  rewrite (star_greedy_blocked K1 [] c (t ++ tail)); [|..|exact Hh]; [| |exact Hc].
  - unfold K1 at 1. unfold nl at 1. cbn [Lit run after].
    rewrite Ascii.eqb_refl. unfold step. cbn [after caps].
    change (run Empty ?st ?k) with (k st). cbv beta.
    change (run (Group 1 (Star false (Chr any_char))) ?st K2) with (star any_char false st Kg).
    exact Hbody.
  - intros [b s cs]. unfold K1, nl. destruct s as [|c0 s]; [reflexivity|].
    cbn [Lit run after starts_with_newline]. now intros ->.
Qed.

End MatcherFacts.

(* ===================================================================== *)
(** ** The validator *)
(* ===================================================================== *)

Section ValidatorFacts.
Import Py Re SkillValidator Spec Samples.

Variable safe_load : string -> result pyval.

Lemma required_fields_loop_spec (fields : list string) (fm : pyval) :
  forall errs r,
    required_fields_loop fields fm errs = Ok r ->
    r = (errs ++ missing_field_errors fields fm)%list.
Proof.
  induction fields as [|field fields IH]; simpl; intros errs r H.
  - inversion H. unfold missing_field_errors. simpl. now rewrite app_nil_r.
  - destruct (contains field fm) as [present|e] eqn:E; simpl in H; [|discriminate].
    apply IH in H. subst r.
    unfold missing_field_errors, has_field. simpl. rewrite E.
    destruct present; simpl; [reflexivity|].
    unfold errors_append. now rewrite <- app_assoc.
Qed.

Lemma required_fields_loop_dict (fields : list string) (d : dict) :
  forall errs, exists r, required_fields_loop fields (PyDict d) errs = Ok r.
Proof.
  induction fields as [|field fields IH]; simpl; intros errs.
  - now exists errs.
  - apply IH.
Qed.

Lemma contains_getitem_none (fm : pyval) (key : string) :
  contains key fm = Ok false ->
  forall v, getitem fm key <> Ok v.
Proof.
  destruct fm as [a|l|d]; simpl; intros H v.
  - discriminate.
  - discriminate.
  - unfold dict_mem in H.
    destruct (dict_get (SStr key) d); [inversion H|discriminate].
Qed.

(** One format check of [validate_skill], on its own. *)
Lemma format_check_spec (label key : string) (p : pattern) (fm : pyval)
    (errs r : list string) :
  (has <- contains key fm ;;
   if has then
     value <- getitem fm key ;;
     m <- match_value p value ;;
     match m with
     | None => Ok (errors_append errs ("Invalid " ++ label ++ " format. Must match: " ++ pattern_text p))
     | Some _ => Ok errs
     end
   else Ok errs) = Ok r ->
  r = (errs ++ format_error label key p fm)%list.
Proof.
  unfold format_error.
  destruct (contains key fm) as [[|]|e] eqn:E; simpl; intros H.
  - destruct (getitem fm key) as [value|e]; simpl in H; [|discriminate].
    destruct value as [[| | | |s|]|l|d]; simpl in H; try discriminate.
    destruct (re_match (pattern_re p) s); inversion H;
      [now rewrite app_nil_r|reflexivity].
  - inversion H; subst r.
    destruct (getitem fm key) as [value|e] eqn:G; [|now rewrite app_nil_r].
    exfalso. exact (contains_getitem_none fm key E value G).
  - discriminate.
Qed.

Lemma format_check_dict (label key : string) (p : pattern) (d : dict)
    (errs : list string) :
  text_or_absent d key ->
  exists r,
    (has <- contains key (PyDict d) ;;
     if has then
       value <- getitem (PyDict d) key ;;
       m <- match_value p value ;;
       match m with
       | None => Ok (errors_append errs ("Invalid " ++ label ++ " format. Must match: " ++ pattern_text p))
       | Some _ => Ok errs
       end
     else Ok errs) = Ok r.
Proof.
  unfold text_or_absent. simpl. unfold dict_mem.
  destruct (dict_get (SStr key) d) as [v|]; intros H.
  - destruct H as [s ->]. simpl.
    destruct (re_match (pattern_re p) s); eexists; reflexivity.
  - eexists; reflexivity.
Qed.

Lemma validate_content_spec (content : string) :
  _validate_content content = missing_section_errors content.
Proof.
  unfold _validate_content, missing_section_errors, has_section. simpl.
  destruct (re_search (section_re "Overview") content);
  destruct (re_search (section_re "Instructions") content);
  destruct (re_search (section_re "Examples") content); reflexivity.
Qed.

Lemma extract_frontmatter_parses (content : string) (v : pyval) :
  block_parses_to safe_load content v ->
  extract_frontmatter safe_load content = Ok v.
Proof.
  intros (m & body & Hm & Hg & Hl).
  unfold extract_frontmatter. now rewrite Hm, Hg, Hl.
Qed.

(** A path at which nothing exists gives the one error of step 1. *)
Lemma validate_skill_missing_file (cfg : config) (fs : filesystem) (path : string) :
  fs path = NoEntry ->
  validate_skill safe_load cfg fs path =
  Ok (ValidationResult false ["File does not exist"] None).
Proof.
  intros Hfs. unfold validate_skill, path_exists. now rewrite Hfs.
Qed.

(** A path that exists and cannot be opened as a file raises. *)
Lemma validate_skill_directory (cfg : config) (fs : filesystem) (path : string) :
  fs path = Directory ->
  validate_skill safe_load cfg fs path = Raise OSError.
Proof.
  intros Hfs. unfold validate_skill, path_exists, read_text. now rewrite Hfs.
Qed.

(** What [validate_skill] returns when extraction gives nothing. *)
Lemma validate_skill_no_metadata (cfg : config) (fs : filesystem)
    (path content : string) (fm : pyval) :
  fs path = File content ->
  extract_frontmatter safe_load content = Ok fm ->
  truthy fm = false ->
  validate_skill safe_load cfg fs path =
  Ok (ValidationResult false
        (if require_frontmatter (validation cfg)
         then ["Missing YAML frontmatter"] else [])
        None).
Proof.
  intros Hfs Hex Ht. unfold validate_skill, path_exists, read_text.
  rewrite Hfs. cbn [negb bind]. rewrite Hex. cbn [bind]. rewrite Ht.
  cbn [negb]. now destruct (require_frontmatter (validation cfg)).
Qed.

(** Extraction gives [None] for a text without header block, and for a
    header block that the parser rejects. *)
Lemma extract_frontmatter_no_block (content : string) :
  block_absent content ->
  extract_frontmatter safe_load content = Ok PyNone.
Proof.
  unfold block_absent, extract_frontmatter. now intros ->.
Qed.

Lemma extract_frontmatter_rejected (content : string) :
  block_malformed safe_load content ->
  extract_frontmatter safe_load content = Ok PyNone.
Proof.
  intros (m & body & Hm & Hg & Hl).
  unfold extract_frontmatter. now rewrite Hm, Hg, Hl.
Qed.

(** The two cases in which nothing is extracted: the text has no delimited
    header block at its start, or it has one on whose body
    [yaml.safe_load] raises [YAMLError], the one class that the code
    catches. *)
Lemma extract_frontmatter_absent (content : string) :
  block_absent content \/ block_malformed safe_load content ->
  extract_frontmatter safe_load content = Ok PyNone.
Proof.
  intros [Habs | Hmal].
  - now apply extract_frontmatter_no_block.
  - now apply extract_frontmatter_rejected.
Qed.

(** C4, at the inputs where it fails.  On a document with a header block,
    whatever the parser does with the body, other than raising
    [YAMLError], is what [extract_frontmatter] does.  So a body that does
    not parse as a mapping is not turned into [None]: a body that parses to
    a list or to a scalar is returned as that list or scalar, and an
    exception of another class ([ValueError] for a date that does not
    exist) leaves the function. *)
Theorem extract_frontmatter_lets_through (blank text rest : string) :
  blank_lines blank = true ->
  first_line_has_text text = true ->
  no_delimiter_line text = true ->
  safe_load text <> Raise YAMLError ->
  extract_frontmatter safe_load (framed blank text rest) = safe_load text.
Proof.
  intros Hblank Htext Hdelim Hload.
  destruct (frontmatter_match blank text rest Hblank Htext Hdelim)
    as (m & Hm & Hg).
  unfold extract_frontmatter. rewrite Hm, Hg.
  destruct (safe_load text) as [v|e]; [reflexivity|].
  destruct e; try reflexivity. congruence.
Qed.

(** C2.  With [require_frontmatter] false and a document without a header
    block that parses, [validate_skill] returns [valid = False] and an empty
    list of errors; the result has no metadata and does not depend on the
    required fields, the patterns or the sections of the document, as none
    of these checks runs. *)
Theorem validate_skill_lenient_without_header (cfg : config) (fs : filesystem)
    (path content : string) :
  require_frontmatter (validation cfg) = false ->
  fs path = File content ->
  block_absent content \/ block_malformed safe_load content ->
  validate_skill safe_load cfg fs path = Ok (ValidationResult false [] None).
Proof.
  intros Hreq Hfs Hblock.
  rewrite (validate_skill_no_metadata cfg fs path content PyNone Hfs).
  - now rewrite Hreq.
  - destruct Hblock as [Habs | Hmal];
      [now apply extract_frontmatter_no_block
      |now apply extract_frontmatter_rejected].
  - reflexivity.
Qed.

(** C3.  For every document, the messages of a returned result are in the
    order of [ordered_errors]: the frontmatter message and nothing else when
    there is no metadata; otherwise one message for each missing required
    field in the order of declaration, then the name format message, then
    the version format message, then one message for each missing section
    in the order of declaration.  A result is returned whenever the metadata
    is a mapping whose name and version, if present, are text. *)
Theorem validate_skill_errors_in_order (cfg : config) (fs : filesystem)
    (path content : string) :
  fs path = File content ->
  (forall r, validate_skill safe_load cfg fs path = Ok r ->
             errors r = ordered_errors cfg content (metadata r)) /\
  (forall d, extract_frontmatter safe_load content = Ok (PyDict d) ->
             text_or_absent d "name" -> text_or_absent d "version" ->
             exists r, validate_skill safe_load cfg fs path = Ok r).
Proof.
  intros Hfs. split.
  - intros r. unfold validate_skill, path_exists, read_text. rewrite Hfs.
    cbn [negb bind].
    destruct (extract_frontmatter safe_load content) as [fm|e];
      cbn [bind]; [|discriminate].
    destruct (truthy fm); cbn [negb].
    2:{ intros H; inversion H; simpl.
        now destruct (require_frontmatter (validation cfg)). }
    destruct (required_fields_loop _ fm []) as [e1|] eqn:E1;
      cbn [bind]; [|discriminate].
    apply required_fields_loop_spec in E1. simpl in E1.
    pose proof (format_check_spec "name" "name"
                  (naming_pattern (validation cfg)) fm e1) as F1.
    destruct (contains "name" fm) as [h1|]; cbn [bind] in *; [|discriminate].
    match goal with
    | |- context [bind ?b _] => destruct b as [e2|] eqn:B2
    end; cbn [bind]; [|discriminate].
    apply F1 in B2. clear F1.
    pose proof (format_check_spec "version" "version"
                  (version_pattern (validation cfg)) fm e2) as F2.
    destruct (contains "version" fm) as [h2|]; cbn [bind] in *; [|discriminate].
    match goal with
    | |- context [bind ?b _] => destruct b as [e3|] eqn:B3
    end; cbn [bind]; [|discriminate].
    apply F2 in B3. clear F2.
    intros H; inversion H; subst; cbn [errors metadata ordered_errors].
    unfold errors_extend. rewrite validate_content_spec.
    now rewrite <- !app_assoc.
  - intros d Hex Hname Hversion.
    unfold validate_skill, path_exists, read_text. rewrite Hfs.
    cbn [negb bind]. rewrite Hex. cbn [bind].
    destruct (truthy (PyDict d)); cbn [negb]; [|eexists; reflexivity].
    destruct (required_fields_loop_dict (required_fields (validation cfg)) d [])
      as [e1 ->]. cbn [bind].
    destruct (format_check_dict "name" "name"
                (naming_pattern (validation cfg)) d e1 Hname) as [e2 F1].
    destruct (contains "name" (PyDict d)) as [h1|]; cbn [bind] in *; [|discriminate].
    match goal with
    | |- context [bind ?b _] => change b with
        (if h1 then
           value <- getitem (PyDict d) "name" ;;
           m <- match_value (naming_pattern (validation cfg)) value ;;
           match m with
           | None => Ok (errors_append e1 ("Invalid " ++ "name" ++ " format. Must match: " ++ pattern_text (naming_pattern (validation cfg))))
           | Some _ => Ok e1
           end
         else Ok e1)
    end.
    rewrite F1. cbn [bind].
    destruct (format_check_dict "version" "version"
                (version_pattern (validation cfg)) d e2 Hversion) as [e3 F2].
    destruct (contains "version" (PyDict d)) as [h2|]; cbn [bind] in *; [|discriminate].
    match goal with
    | |- context [bind ?b _] => change b with
        (if h2 then
           value <- getitem (PyDict d) "version" ;;
           m <- match_value (version_pattern (validation cfg)) value ;;
           match m with
           | None => Ok (errors_append e2 ("Invalid " ++ "version" ++ " format. Must match: " ++ pattern_text (version_pattern (validation cfg))))
           | Some _ => Ok e2
           end
         else Ok e2)
    end.
    rewrite F2. cbn [bind]. eexists; reflexivity.
Qed.

(** The invariant of the result under the default setting: when the
    frontmatter is required, [valid] holds exactly when there is no error. *)
Lemma valid_iff_no_errors_when_required (cfg : config) (fs : filesystem)
    (path : string) (r : validation_result) :
  require_frontmatter (validation cfg) = true ->
  validate_skill safe_load cfg fs path = Ok r ->
  (valid r = true <-> errors r = []).
Proof.
  intros Hreq. unfold validate_skill.
  destruct (path_exists fs path); cbn [negb].
  2:{ intros H; inversion H; simpl. split; discriminate. }
  destruct (read_text fs path) as [content|]; cbn [bind]; [|discriminate].
  destruct (extract_frontmatter safe_load content) as [fm|];
    cbn [bind]; [|discriminate].
  destruct (truthy fm); cbn [negb].
  2:{ rewrite Hreq. intros H; inversion H; simpl. split; discriminate. }
  destruct (required_fields_loop _ fm []) as [e1|]; cbn [bind]; [|discriminate].
  destruct (contains "name" fm) as [h1|]; cbn [bind]; [|discriminate].
  match goal with
  | |- context [bind ?b _] => destruct b as [e2|]
  end; cbn [bind]; [|discriminate].
  destruct (contains "version" fm) as [h2|]; cbn [bind]; [|discriminate].
  match goal with
  | |- context [bind ?b _] => destruct b as [e3|]
  end; cbn [bind]; [|discriminate].
  intros H; inversion H; simpl.
  destruct (errors_extend e3 (_validate_content content)); simpl;
    split; congruence.
Qed.

(** C1, at the input where it fails: with [require_frontmatter] switched
    off, a document without frontmatter is reported invalid although the
    list of errors is empty. *)
Theorem validate_skill_invalid_without_errors :
  validate_skill safe_load lenient_config (one_file no_frontmatter_doc) "SKILL.md"
  = Ok (ValidationResult false [] None).
Proof.
  apply (validate_skill_no_metadata lenient_config (one_file no_frontmatter_doc)
           "SKILL.md" no_frontmatter_doc PyNone); reflexivity.
Qed.

(** C6, at the input where it fails: the document of the repository's test
    [test_validate_skill_invalid_version] carries [version: 1.0], which YAML
    reads as a number; [re.match] then raises [TypeError] and no result is
    returned. *)
Theorem validate_skill_raises_on_float_version (fs : filesystem) (path : string)
    (q : Q) :
  fs path = File invalid_version_doc ->
  safe_load ("name: test-skill" ++ nl ++ "version: 1.0" ++ nl ++ "description: Test skill")
  = Ok (PyDict [(SStr "name", PyStr "test-skill");
                (SStr "version", PyFloat q);
                (SStr "description", PyStr "Test skill")]) ->
  validate_skill safe_load default_config fs path = Raise TypeError.
Proof.
  intros Hfs Hload.
  unfold validate_skill, path_exists, read_text. rewrite Hfs. cbn [negb bind].
  rewrite (extract_frontmatter_parses invalid_version_doc
             (PyDict [(SStr "name", PyStr "test-skill");
                      (SStr "version", PyFloat q);
                      (SStr "description", PyStr "Test skill")])).
  - vm_compute. reflexivity.
  - eexists; eexists. split; [vm_compute; reflexivity|].
    split; [reflexivity|exact Hload].
Qed.

(** C5, amended.  When the text begins, at its very first character, with
    a line of exactly three hyphens, followed by body lines (after any blank
    lines, a first line that is not blank, and no later line that begins
    with three hyphens) and a closing line of exactly three hyphens ended by
    a line feed, [extract_frontmatter] finds the block and returns what the
    body, without its leading blank lines, parses to. *)
Theorem extract_frontmatter_framed (blank text rest : string) (v : pyval) :
  blank_lines blank = true ->
  first_line_has_text text = true ->
  no_delimiter_line text = true ->
  safe_load text = Ok v ->
  extract_frontmatter safe_load (framed blank text rest) = Ok v.
Proof.
  intros Hblank Htext Hdelim Hload.
  destruct (frontmatter_match blank text rest Hblank Htext Hdelim)
    as (m & Hm & Hg).
  apply extract_frontmatter_parses. now exists m, text.
Qed.

(** A text that does not begin with a hyphen has no header block. *)
Lemma block_absent_without_hyphen (c : ascii) (s : string) :
  c <> "-"%char -> block_absent (String c s).
Proof.
  intros Hc. unfold block_absent, re_match, FRONTMATTER_RE, cat.
  cbn [fold_right Lit run at_bol prev after].
  destruct (Ascii.eqb_spec "-" c) as [<-|_]; [contradiction|reflexivity].
Qed.

End ValidatorFacts.

(* ===================================================================== *)
(** ** Sorting by a text key *)
(* ===================================================================== *)

Section OrderFacts.
Import Py Spec.


Lemma ltb_leb (a b : string) : (a <? b) = true -> (a <=? b) = true.
Proof. unfold String.ltb, String.leb. now destruct (a ?= b). Qed.

Lemma nltb_leb (a b : string) : (a <? b) = false -> (b <=? a) = true.
Proof.
  unfold String.ltb, String.leb. rewrite (String.compare_antisym b a).
  now destruct (a ?= b).
Qed.

Lemma leb_cases (a b : string) :
  (a <=? b) = true <-> a = b \/ String_as_OT.lt a b.
Proof.
  unfold String.leb. split.
  - destruct (a ?= b) eqn:E; intros H; try discriminate.
    + left. now apply String_as_OT.cmp_eq.
    + right. now apply String_as_OT.cmp_lt.
  - intros [->|H].
    + assert (E : (b ?= b) = Eq) by now apply String_as_OT.cmp_eq.
      now rewrite E.
    + apply String_as_OT.cmp_lt in H. unfold String_as_OT.cmp in H. now rewrite H.
Qed.

Lemma leb_trans (a b c : string) :
  (a <=? b) = true -> (b <=? c) = true -> (a <=? c) = true.
Proof.
  rewrite !leb_cases. intros [->|H1] [->|H2]; auto.
  right. eapply String_as_OT.lt_trans; eauto.
Qed.

Lemma leb_refl (a : string) : (a <=? a) = true.
Proof. apply leb_cases. now left. Qed.

Lemma ltb_irrefl (a : string) : (a <? a) = false.
Proof.
  unfold String.ltb. assert (E : (a ?= a) = Eq) by now apply String_as_OT.cmp_eq.
  now rewrite E.
Qed.

Lemma leb_neq_ltb (a b : string) : (a <=? b) = true -> a <> b -> (a <? b) = true.
Proof.
  unfold String.leb, String.ltb. destruct (a ?= b) eqn:E; intros H Hne; try discriminate; auto.
  apply String_as_OT.cmp_eq in E. contradiction.
Qed.

Lemma sorted_text_unique : forall l1 l2 : list string,
  StronglySorted le_text l1 -> StronglySorted le_text l2 ->
  Permutation l1 l2 -> l1 = l2.
Proof.
  induction l1 as [|a l1 IH]; intros l2 H1 H2 Hp.
  - apply Permutation_nil in Hp. now subst.
  - destruct l2 as [|b l2]; [apply Permutation_sym, Permutation_nil in Hp; discriminate|].
    inversion H1 as [|? ? S1 F1]; subst. inversion H2 as [|? ? S2 F2]; subst.
    assert (a = b) as ->.
    { assert (Ha : In a (b :: l2)) by (eapply Permutation_in; [exact Hp|now left]).
      assert (Hb : In b (a :: l1)) by (eapply Permutation_in; [apply Permutation_sym; exact Hp|now left]).
      destruct Ha as [->|Ha]; [reflexivity|]. destruct Hb as [->|Hb]; [reflexivity|].
      rewrite Forall_forall in F1, F2.
      apply String.leb_antisym; [apply F1, Hb|apply F2, Ha]. }
    f_equal. apply IH; auto. eapply Permutation_cons_inv; eauto.
Qed.

Context {A : Type} (name : A -> string).

Lemma place_perm (x : A) (l : list A) : Permutation (x :: l) (place name x l).
Proof.
  induction l as [|y l IH]; simpl; [reflexivity|].
  destruct (name x <? name y); [reflexivity|].
  rewrite perm_swap. now apply perm_skip.
Qed.

Lemma arrange_from_perm (l : list A) : forall acc,
  Permutation (l ++ acc) (fold_left (fun acc x => place name x acc) l acc).
Proof.
  induction l as [|x l IH]; intros acc; simpl; [reflexivity|].
  rewrite <- IH. rewrite <- place_perm. apply Permutation_middle.
Qed.

Lemma arrange_perm (l : list A) : Permutation l (arrange name l).
Proof.
  unfold arrange. rewrite <- arrange_from_perm. now rewrite app_nil_r.
Qed.

Lemma place_sorted (x : A) (l : list A) :
  StronglySorted (by_name name) l -> StronglySorted (by_name name) (place name x l).
Proof.
  induction 1 as [|y l Hs IH Hy]; simpl.
  - constructor; constructor.
  - destruct (name x <? name y) eqn:E.
    + constructor; [now constructor|].
      constructor; [now apply ltb_leb|].
      eapply Forall_impl; [|exact Hy]. intros z Hz.
      unfold by_name, le_text in *. eapply leb_trans; [apply ltb_leb; exact E|exact Hz].
    + constructor; [exact IH|].
      eapply Permutation_Forall; [apply place_perm|].
      constructor; [now apply nltb_leb|exact Hy].
Qed.

Lemma arrange_sorted (l : list A) : StronglySorted (by_name name) (arrange name l).
Proof.
  unfold arrange.
  assert (G : forall acc, StronglySorted (by_name name) acc ->
                StronglySorted (by_name name) (fold_left (fun acc x => place name x acc) l acc)).
  { induction l as [|x l IH]; simpl; intros acc Hacc; [exact Hacc|].
    apply IH. now apply place_sorted. }
  apply G. constructor.
Qed.

Lemma sorted_map (l : list A) :
  StronglySorted (by_name name) l -> StronglySorted le_text (map name l).
Proof.
  induction 1; simpl; constructor; auto. now apply Forall_map.
Qed.

Lemma arrange_names_unique (l1 l2 : list A) :
  Permutation l1 l2 -> map name (arrange name l1) = map name (arrange name l2).
Proof.
  intros Hp. apply sorted_text_unique.
  - apply sorted_map, arrange_sorted.
  - apply sorted_map, arrange_sorted.
  - apply Permutation_map. rewrite <- !arrange_perm. exact Hp.
Qed.

(** The program's sort, when every key is text. *)
Variable key : A -> pyval.

Definition text_key (x : A) : Prop := key x = PyStr (name x).

Lemma insert_text (x : A) (l : list A) :
  text_key x -> Forall text_key l ->
  insert key x l = Ok (place name x l).
Proof.
  intros Hx. induction 1 as [|y l Hy Hl IH]; simpl; [reflexivity|].
  rewrite Hx, Hy. simpl. destruct (name x <? name y); [reflexivity|].
  rewrite IH. reflexivity.
Qed.

Lemma sorted_text (l : list A) :
  Forall text_key l -> sorted key l = Ok (arrange name l).
Proof.
  unfold sorted, arrange.
  assert (G : forall acc, Forall text_key acc -> Forall text_key l ->
     fold_left (fun acc x => bind acc (insert key x)) l (Ok acc)
     = Ok (fold_left (fun acc x => place name x acc) l acc)).
  { induction l as [|x l IH]; simpl; intros acc Hacc Hl; [reflexivity|].
    inversion Hl; subst. rewrite insert_text by assumption.
    apply IH; [|assumption].
    eapply Permutation_Forall; [apply place_perm|]. now constructor. }
  intros H. apply G; [constructor|exact H].
Qed.

Lemma insert_perm (x : A) : forall l r,
  insert key x l = Ok r -> Permutation (x :: l) r.
Proof.
  induction l as [|y l IH]; simpl; intros r H.
  - inversion H. reflexivity.
  - destruct (py_lt (key x) (key y)) as [[|]|]; simpl in H; try discriminate.
    + inversion H. reflexivity.
    + destruct (insert key x l) as [r'|]; simpl in H; [|discriminate].
      inversion H. rewrite perm_swap. apply perm_skip. now apply IH.
Qed.

Lemma fold_raise (l : list A) (e : exn) :
  fold_left (fun acc x => bind acc (insert key x)) l (Raise e) = Raise e.
Proof. induction l; simpl; auto. Qed.

Lemma sorted_perm (l r : list A) : sorted key l = Ok r -> Permutation l r.
Proof.
  unfold sorted.
  assert (G : forall acc r, fold_left (fun acc x => bind acc (insert key x)) l (Ok acc) = Ok r ->
                            Permutation (l ++ acc) r).
  { induction l as [|x l IH]; simpl; intros acc r0 H.
    - inversion H. reflexivity.
    - destruct (insert key x acc) as [acc'|e] eqn:E.
      + apply IH in H. rewrite <- H. apply insert_perm in E. rewrite <- E.
        apply Permutation_middle.
      + rewrite fold_raise in H. discriminate. }
  intros H. apply G in H. now rewrite app_nil_r in H.
Qed.

End OrderFacts.

(* ===================================================================== *)
(** ** The catalog *)
(* ===================================================================== *)

Section CatalogFacts.
Import Py Re SkillValidator SkillCatalog Spec.

Variable safe_load : string -> result pyval.

Lemma name_text_key (d : dict) : name_is_text d <-> name_key d = PyStr (name_of d).
Proof.
  unfold name_is_text, name_of. split.
  - intros [s ->]. reflexivity.
  - intros H. eauto.
Qed.

Lemma discover_loop_sound : forall files acc r,
  discover_loop safe_load files acc = Ok r ->
  exists entries, Discovered safe_load files entries /\ r = (acc ++ entries)%list.
Proof.
  induction files as [|[rel content] files IH]; simpl; intros acc r H.
  - inversion H. exists []. split; [constructor|now rewrite app_nil_r].
  - destruct (extract_frontmatter safe_load content) as [fm|] eqn:E; simpl in H; [|discriminate].
    destruct (truthy fm) eqn:T.
    + destruct fm as [a|l|d]; try discriminate.
      apply IH in H as (entries & HD & ->).
      eexists. split; [eapply Discovered_take; eauto|].
      now rewrite <- app_assoc.
    + apply IH in H as (entries & HD & ->).
      exists entries. split; [eapply Discovered_skip; eauto|reflexivity].
Qed.

Lemma discover_loop_complete : forall files entries,
  Discovered safe_load files entries ->
  forall acc, discover_loop safe_load files acc = Ok (acc ++ entries)%list.
Proof.
  induction 1 as [|rel content fm files entries E T HD IH
                  |rel content d files entries E T HD IH]; intros acc;
    cbn [discover_loop].
  - now rewrite app_nil_r.
  - rewrite E. cbn [bind]. rewrite T. apply IH.
  - rewrite E. cbn [bind]. rewrite T. rewrite IH. now rewrite <- app_assoc.
Qed.

Lemma discover_loop_app : forall files1 files2 acc,
  discover_loop safe_load (files1 ++ files2)%list acc =
  (skills <- discover_loop safe_load files1 acc ;; discover_loop safe_load files2 skills).
Proof.
  induction files1 as [|[rel content] files1 IH]; simpl; intros files2 acc; [reflexivity|].
  destruct (extract_frontmatter safe_load content) as [fm|]; simpl; [|reflexivity].
  destruct (truthy fm); [|apply IH].
  destruct fm; try reflexivity. apply IH.
Qed.

Lemma discovered_perm : forall files files',
  Permutation files files' ->
  forall entries, Discovered safe_load files entries ->
  exists entries', Discovered safe_load files' entries' /\ Permutation entries entries'.
Proof.
  induction 1 as [|x l l' Hp IH|x y l|l l' l'' Hp1 IH1 Hp2 IH2]; intros entries HD.
  - inversion HD; subst. exists []. split; [constructor|reflexivity].
  - inversion HD as [|r c fm fs es E T HD1|r c d fs es E T HD1]; subst.
    + destruct (IH _ HD1) as (e' & HD' & Hperm).
      exists e'. split; [eapply Discovered_skip; eauto|exact Hperm].
    + destruct (IH _ HD1) as (e' & HD' & Hperm).
      eexists. split; [eapply Discovered_take; eauto|now apply perm_skip].
  - inversion HD as [|r c fm fs es E T HD1|r c d fs es E T HD1]; subst;
      inversion HD1 as [|r2 c2 fm2 fs2 es2 E2 T2 HD2|r2 c2 d2 fs2 es2 E2 T2 HD2]; subst.
    + eexists. split; [eapply Discovered_skip; eauto; eapply Discovered_skip; eauto|reflexivity].
    + eexists. split; [eapply Discovered_take; eauto; eapply Discovered_skip; eauto|reflexivity].
    + eexists. split; [eapply Discovered_skip; eauto; eapply Discovered_take; eauto|reflexivity].
    + eexists. split; [eapply Discovered_take; eauto; eapply Discovered_take; eauto|apply perm_swap].
  - destruct (IH1 _ HD) as (e1 & HD1 & P1). destruct (IH2 _ HD1) as (e2 & HD2 & P2).
    exists e2. split; [exact HD2|now rewrite P1].
Qed.

Lemma discovered_in : forall files entries,
  Discovered safe_load files entries ->
  forall entry, In entry entries ->
  exists relative content d,
    In (relative, content) files /\
    extract_frontmatter safe_load content = Ok (PyDict d) /\
    entry = dict_set (SStr "path") (PyStr relative) d.
Proof.
  induction 1 as [|rel content fm files entries E T HD IH
                  |rel content d files entries E T HD IH]; intros entry Hin.
  - destruct Hin.
  - destruct (IH _ Hin) as (r & c & d & Hf & He & ->).
    exists r, c, d. repeat split; auto. now right.
  - destruct Hin as [<-|Hin].
    + exists rel, content, d. repeat split; auto. now left.
    + destruct (IH _ Hin) as (r & c & d' & Hf & He & ->).
      exists r, c, d'. repeat split; auto. now right.
Qed.

Lemma discovered_all : forall files entries,
  Discovered safe_load files entries ->
  forall relative content d,
    In (relative, content) files ->
    extract_frontmatter safe_load content = Ok (PyDict d) ->
    d <> [] ->
    In (dict_set (SStr "path") (PyStr relative) d) entries.
Proof.
  induction 1 as [|rel content fm files entries E T HD IH
                  |rel content d0 files entries E T HD IH];
    intros relative c d Hin He Hd.
  - destruct Hin.
  - destruct Hin as [Heq|Hin]; [|eauto].
    inversion Heq; subst. rewrite He in E. inversion E; subst.
    destruct d; [congruence|discriminate].
  - destruct Hin as [Heq|Hin]; [|right; eauto].
    inversion Heq; subst. rewrite He in E. inversion E; subst. now left.
Qed.

Lemma scalar_eq_str_l (s : string) (k : scalar) :
  scalar_eq (SStr s) k = true <-> k = SStr s.
Proof.
  destruct k; simpl; split; try discriminate; try congruence.
  - intros H. apply String.eqb_eq in H. now subst.
  - intros H. inversion H. apply String.eqb_refl.
Qed.

Lemma scalar_eq_str_r (s : string) (k : scalar) :
  scalar_eq k (SStr s) = true <-> k = SStr s.
Proof.
  destruct k; simpl; split; try discriminate; try congruence.
  - intros H. apply String.eqb_eq in H. now subst.
  - intros H. inversion H. apply String.eqb_refl.
Qed.

Lemma dict_get_set_same (s : string) (v : pyval) (d : dict) :
  dict_get (SStr s) (dict_set (SStr s) v d) = Some v.
Proof.
  assert (R : scalar_eq (SStr s) (SStr s) = true) by now apply scalar_eq_str_l.
  induction d as [|[k v'] d IH]; cbn [dict_set dict_get].
  - now rewrite R.
  - destruct (scalar_eq (SStr s) k) eqn:E; cbn [dict_get]; rewrite E;
      [reflexivity|exact IH].
Qed.

Lemma dict_get_set_other (s : string) (v : pyval) (d : dict) (k : scalar) :
  k <> SStr s ->
  dict_get k (dict_set (SStr s) v d) = dict_get k d.
Proof.
  intros Hne.
  assert (N : scalar_eq k (SStr s) = false).
  { destruct (scalar_eq k (SStr s)) eqn:E; [|reflexivity].
    apply scalar_eq_str_r in E. contradiction. }
  induction d as [|[k' v'] d IH]; cbn [dict_set dict_get].
  - now rewrite N.
  - destruct (scalar_eq (SStr s) k') eqn:E; cbn [dict_get].
    + apply scalar_eq_str_l in E. subst k'. now rewrite N.
    + now rewrite IH.
Qed.


Lemma discover_skills_inv (files : skill_files) (skills : list dict) :
  _discover_skills safe_load files = Ok skills ->
  exists entries,
    Discovered safe_load files entries /\
    sorted name_key entries = Ok skills /\
    Permutation entries skills.
Proof.
  unfold _discover_skills. intros H.
  destruct (discover_loop safe_load files []) as [entries|] eqn:E; simpl in H; [|discriminate].
  apply discover_loop_sound in E as (es & HD & ->). simpl in *.
  exists es. repeat split; auto. eapply sorted_perm; eauto.
Qed.

Lemma discover_skills_text (files : skill_files) (entries : list dict) :
  Discovered safe_load files entries ->
  Forall name_is_text entries ->
  _discover_skills safe_load files = Ok (arrange name_of entries).
Proof.
  intros HD Ht. unfold _discover_skills.
  rewrite (discover_loop_complete files entries HD []). simpl.
  apply (sorted_text name_of). eapply Forall_impl; [|exact Ht].
  intros d. apply name_text_key.
Qed.

(** C7, amended.  When the names of the entries are text, the list that
    [_discover_skills] returns is in ascending order of the [name] of its
    entries, compared as raw text, where an entry without a name counts as
    the empty text and so comes first; and whatever the order in which the
    files are found, the names come out in the same order.  Without the
    condition the order is not that of the raw text: names that YAML reads
    as numbers are compared by value. *)
Theorem discover_skills_sorted_by_name (files : skill_files) (skills : list dict) :
  _discover_skills safe_load files = Ok skills ->
  Forall name_is_text skills ->
  StronglySorted (by_name name_of) skills /\
  (forall files', Permutation files files' ->
     exists skills',
       _discover_skills safe_load files' = Ok skills' /\
       map name_of skills' = map name_of skills).
Proof.
  intros H Ht.
  destruct (discover_skills_inv files skills H) as (entries & HD & Hs & Hp).
  assert (Hte : Forall name_is_text entries)
    by (eapply Permutation_Forall; [apply Permutation_sym; exact Hp|exact Ht]).
  rewrite (discover_skills_text files entries HD Hte) in H. inversion H; subst skills.
  split; [apply arrange_sorted|].
  intros files' Hperm.
  destruct (discovered_perm files files' Hperm entries HD) as (entries' & HD' & Hp').
  exists (arrange name_of entries'). split.
  - apply discover_skills_text; [exact HD'|].
    eapply Permutation_Forall; [exact Hp'|exact Hte].
  - apply arrange_names_unique. now apply Permutation_sym.
Qed.

(** C10.  Every entry of the catalog comes from a file whose header is a
    mapping; its [path] is the location of that file relative to the
    scanned directory, also when the header declares a [path] of its own,
    and every other key has the value that the header gives it.  Every file
    with a non-empty mapping has such an entry. *)
Theorem discover_skills_path (files : skill_files) (skills : list dict) :
  _discover_skills safe_load files = Ok skills ->
  (forall entry, In entry skills ->
     exists relative content d,
       In (relative, content) files /\
       extract_frontmatter safe_load content = Ok (PyDict d) /\
       dict_get (SStr "path") entry = Some (PyStr relative) /\
       (forall k, k <> SStr "path" -> dict_get k entry = dict_get k d)) /\
  (forall relative content d,
     In (relative, content) files ->
     extract_frontmatter safe_load content = Ok (PyDict d) ->
     d <> [] ->
     exists entry, In entry skills /\
       dict_get (SStr "path") entry = Some (PyStr relative) /\
       (forall k, k <> SStr "path" -> dict_get k entry = dict_get k d)).
Proof.
  intros H.
  destruct (discover_skills_inv files skills H) as (entries & HD & Hs & Hp).
  split.
  - intros entry Hin.
    apply (Permutation_in _ (Permutation_sym Hp)) in Hin.
    destruct (discovered_in files entries HD entry Hin) as (r & c & d & Hf & He & ->).
    exists r, c, d. repeat split; auto.
    + apply dict_get_set_same.
    + intros k Hk. now apply dict_get_set_other.
  - intros r c d Hf He Hd.
    exists (dict_set (SStr "path") (PyStr r) d). repeat split.
    + apply (Permutation_in _ Hp). eapply discovered_all; eauto.
    + apply dict_get_set_same.
    + intros k Hk. now apply dict_get_set_other.
Qed.

(** C9.  A document whose header block parses to the empty mapping or to
    null is treated as a document without header block: under the default
    configuration [validate_skill] returns an invalid result with the
    frontmatter message alone, which is also the result for a document
    with no block at all, and [_discover_skills] leaves the document out. *)
Theorem empty_header_as_no_header (content : string) (v : pyval) :
  block_parses_to safe_load content v ->
  v = PyDict [] \/ v = PyNone ->
  (forall fs path,
     fs path = File content ->
     validate_skill safe_load (_load_config None) fs path
     = Ok (ValidationResult false ["Missing YAML frontmatter"] None)) /\
  (forall fs path plain,
     fs path = File plain -> block_absent plain ->
     validate_skill safe_load (_load_config None) fs path
     = Ok (ValidationResult false ["Missing YAML frontmatter"] None)) /\
  (forall before relative after,
     _discover_skills safe_load (before ++ (relative, content) :: after)%list
     = _discover_skills safe_load (before ++ after)%list).
Proof.
  intros Hparse Hv.
  assert (Hex : extract_frontmatter safe_load content = Ok v)
    by now apply extract_frontmatter_parses.
  assert (Hfalsy : truthy v = false) by (destruct Hv as [->| ->]; reflexivity).
  split; [|split].
  - intros fs path Hfs.
    now rewrite (validate_skill_no_metadata safe_load _ fs path content v Hfs Hex Hfalsy).
  - intros fs path plain Hfs Habs.
    rewrite (validate_skill_no_metadata safe_load _ fs path plain PyNone Hfs); auto.
    now apply extract_frontmatter_no_block.
  - intros before relative after. unfold _discover_skills.
    rewrite !discover_loop_app.
    destruct (discover_loop safe_load before []) as [skills|]; [|reflexivity].
    cbn [bind discover_loop]. rewrite Hex. cbn [bind]. now rewrite Hfalsy.
Qed.

End CatalogFacts.

(* ===================================================================== *)
(** ** The markdown catalog *)
(* ===================================================================== *)

Section MarkdownFacts.
Import Py Re SkillValidator SkillCatalog Spec.

Variable format_other : pyval -> string.
Variable now_isoformat : string.

Lemma table_step (c : string) (skill : dict) : forall t,
  (let t1 := match table_get (SStr c) t with
             | None => table_set (SStr c) [] t
             | Some _ => t
             end in
   match table_get (SStr c) t1 with
   | Some members => table_set (SStr c) (members ++ [skill])%list t1
   | None => t1
   end) = add_member c skill t.
Proof.
  assert (R : scalar_eq (SStr c) (SStr c) = true) by now apply scalar_eq_str_l.
  induction t as [|[k members] t IH]; cbn [table_get table_set add_member].
  - now rewrite R.
  - destruct (scalar_eq (SStr c) k) eqn:E.
    + cbn [table_get table_set]. now rewrite E.
    + cbv zeta in IH.
      destruct (table_get (SStr c) t) as [ms|] eqn:G;
        cbn [table_get table_set]; rewrite ?E, ?G.
      * cbn [table_set]. rewrite ?E. rewrite G in IH. now rewrite IH.
      * destruct (table_get (SStr c) (table_set (SStr c) [] t)) as [ms|] eqn:G';
          cbn [table_set]; rewrite ?E; now rewrite IH.
Qed.

Lemma group_loop_text : forall skills t,
  Forall category_is_text skills ->
  group_loop skills t =
  Ok (fold_left (fun t skill => add_member (category_label skill) skill t) skills t).
Proof.
  induction skills as [|skill skills IH]; intros t H; [reflexivity|].
  inversion H as [|? ? [c Hc] Hrest]; subst.
  cbn [group_loop fold_left]. unfold category_label. fold (category_of skill).
  rewrite Hc. cbn [hashable PyStr bind].
  rewrite table_step. now apply IH.
Qed.

Lemma in_category_iff (c : string) (d : dict) :
  in_category c d = true <-> category_of d = PyStr c.
Proof.
  unfold in_category. destruct (category_of d) as [[| | | |c'|]|l|d']; split;
    try discriminate.
  - intros H. apply String.eqb_eq in H. now subst.
  - intros H. inversion H. apply String.eqb_refl.
Qed.

Lemma category_label_text (c : string) (d : dict) :
  category_of d = PyStr c -> category_label d = c.
Proof. unfold category_label. now intros ->. Qed.

Lemma filter_none {A : Type} (f : A -> bool) (l : list A) :
  (forall x, In x l -> f x = false) -> filter f l = [].
Proof.
  induction l as [|x l IH]; simpl; intros H; [reflexivity|].
  rewrite (H x) by now left. apply IH. intros y Hy. apply H. now right.
Qed.

Lemma add_member_absent (c : string) (skill : dict) : forall t,
  ~ In (SStr c) (map fst t) ->
  add_member c skill t = (t ++ [(SStr c, [skill])])%list.
Proof.
  induction t as [|[k ms] t IH]; cbn [add_member map fst app]; intros H; [reflexivity|].
  destruct (scalar_eq (SStr c) k) eqn:E.
  - apply scalar_eq_str_l in E. subst k. exfalso. apply H. now left.
  - rewrite IH; [reflexivity|]. intros Hin. apply H. now right.
Qed.

Lemma append_member_key (c : string) (skill : dict) (t : list (scalar * list dict)) :
  map fst (map (append_member c skill) t) = map fst t.
Proof.
  rewrite map_map. apply map_ext. intros [k ms]. unfold append_member. simpl.
  now destruct (scalar_eq (SStr c) k).
Qed.

Lemma append_member_other (c : string) (skill : dict) : forall t,
  ~ In (SStr c) (map fst t) -> map (append_member c skill) t = t.
Proof.
  induction t as [|[k ms] t IH]; cbn [map fst]; intros H; [reflexivity|].
  rewrite IH by (intros Hin; apply H; now right).
  unfold append_member. cbn [fst snd].
  destruct (scalar_eq (SStr c) k) eqn:E; [|reflexivity].
  apply scalar_eq_str_l in E. subst k. exfalso. apply H. now left.
Qed.

Lemma add_member_present (c : string) (skill : dict) : forall t,
  NoDup (map fst t) -> In (SStr c) (map fst t) ->
  add_member c skill t = map (append_member c skill) t.
Proof.
  induction t as [|[k ms] t IH]; cbn [add_member map fst]; intros Hnd Hin; [destruct Hin|].
  inversion Hnd as [|? ? Hk Hnd']; subst.
  unfold append_member at 1. cbn [fst snd].
  destruct (scalar_eq (SStr c) k) eqn:E.
  - apply scalar_eq_str_l in E. subst k. now rewrite append_member_other.
  - rewrite IH; [reflexivity|exact Hnd'|].
    destruct Hin as [->|Hin]; [|exact Hin].
    assert (scalar_eq (SStr c) (SStr c) = true) by now apply scalar_eq_str_l.
    congruence.
Qed.

Lemma scalar_eq_dec (a b : scalar) : {a = b} + {a <> b}.
Proof.
  decide equality; try apply Z.eq_dec; try apply string_dec; try apply bool_dec.
  decide equality; [apply Pos.eq_dec|apply Z.eq_dec].
Qed.

Lemma grouped_step (done : list dict) (t : list (scalar * list dict))
    (skill : dict) (c : string) :
  grouped done t ->
  category_of skill = PyStr c ->
  grouped (done ++ [skill]) (add_member c skill t).
Proof.
  intros (Ha & Hb & Hc) Hcat.
  assert (Hs : in_category c skill = true) by now apply in_category_iff.
  destruct (in_dec scalar_eq_dec (SStr c) (map fst t)) as [Hin|Hout].
  - rewrite add_member_present by assumption. split; [|split].
    + rewrite Forall_forall in *. intros kv Hkv.
      apply in_map_iff in Hkv as ([k ms] & <- & Hkv).
      destruct (Ha _ Hkv) as (c' & Hk & Hms). cbn [fst snd] in *. subst k.
      unfold append_member. cbn [fst snd].
      destruct (scalar_eq (SStr c) (SStr c')) eqn:E.
      * apply scalar_eq_str_l in E. inversion E; subst c'.
        exists c. split; [reflexivity|]. cbn [fst snd].
        rewrite filter_app. cbn [filter]. now rewrite Hs, Hms.
      * exists c'. split; [reflexivity|]. cbn [snd].
        rewrite filter_app. cbn [filter].
        destruct (in_category c' skill) eqn:E'.
        -- apply in_category_iff in E'. rewrite Hcat in E'. inversion E'; subst.
           assert (scalar_eq (SStr c') (SStr c') = true) by now apply scalar_eq_str_l.
           congruence.
        -- now rewrite app_nil_r.
    + now rewrite append_member_key.
    + rewrite append_member_key. intros c'. split.
      * intros H. destruct (proj1 (Hc c') H) as (sk & Hsk & Hc'). exists sk. split; [|exact Hc'].
        apply in_or_app. now left.
      * intros (sk & Hsk & Hc'). apply in_app_or in Hsk as [Hsk|[<-|[]]].
        -- apply (proj2 (Hc c')). eauto.
        -- rewrite Hcat in Hc'. inversion Hc'; subst. exact Hin.
  - rewrite add_member_absent by assumption. split; [|split].
    + apply Forall_app. split.
      * rewrite Forall_forall in *. intros [k ms] Hkv.
        destruct (Ha _ Hkv) as (c' & Hk & Hms). cbn [fst snd] in *. subst k.
        exists c'. split; [reflexivity|]. cbn [snd].
        rewrite filter_app. cbn [filter].
        destruct (in_category c' skill) eqn:E'.
        -- apply in_category_iff in E'. rewrite Hcat in E'. inversion E'; subst.
           exfalso. apply Hout. apply in_map_iff. eexists; split; [|exact Hkv]; reflexivity.
        -- now rewrite app_nil_r.
      * constructor; [|constructor]. exists c. split; [reflexivity|]. cbn [snd].
        rewrite filter_app. cbn [filter]. rewrite Hs.
        rewrite filter_none; [reflexivity|].
        intros sk Hsk. destruct (in_category c sk) eqn:E; [|reflexivity].
        exfalso. apply Hout. apply (proj2 (Hc c)). exists sk. split; [exact Hsk|].
        now apply in_category_iff.
    + rewrite map_app. cbn [map fst].
      apply (Permutation_NoDup (l := SStr c :: map fst t)).
      * apply Permutation_cons_append.
      * now constructor.
    + rewrite map_app. cbn [map fst]. intros c'. rewrite in_app_iff. split.
      * intros [H|[H|[]]].
        -- destruct (proj1 (Hc c') H) as (sk & Hsk & Hc'). exists sk. split; [|exact Hc'].
           apply in_or_app. now left.
        -- inversion H; subst c'. exists skill. split; [|exact Hcat].
           apply in_or_app. right. now left.
      * intros (sk & Hsk & Hc'). apply in_app_or in Hsk as [Hsk|[<-|[]]].
        -- left. apply (proj2 (Hc c')). eauto.
        -- right. left. rewrite Hcat in Hc'. now inversion Hc'.
Qed.

Lemma grouped_fold : forall rest done t,
  Forall category_is_text rest ->
  grouped done t ->
  grouped (done ++ rest)
    (fold_left (fun t skill => add_member (category_label skill) skill t) rest t).
Proof.
  induction rest as [|skill rest IH]; intros done t Ht Hg; cbn [fold_left].
  - now rewrite app_nil_r.
  - inversion Ht as [|? ? [c Hc] Hrest]; subst.
    replace (done ++ skill :: rest)%list with ((done ++ [skill]) ++ rest)%list
      by (now rewrite <- app_assoc).
    apply IH; [exact Hrest|].
    rewrite (category_label_text c skill Hc). now apply grouped_step.
Qed.

Lemma grouped_nil : grouped [] [].
Proof.
  split; [constructor|split; [constructor|]].
  intros c. split; [intros []|intros (sk & [] & _)].
Qed.

Lemma table_get_in {A : Type} (c : string) (v : A) : forall t : list (scalar * A),
  NoDup (map fst t) -> In (SStr c, v) t -> table_get (SStr c) t = Some v.
Proof.
  induction t as [|[k v'] t IH]; cbn [map fst table_get]; intros Hnd Hin; [destruct Hin|].
  inversion Hnd as [|? ? Hk Hnd']; subst.
  destruct (scalar_eq (SStr c) k) eqn:E.
  - apply scalar_eq_str_l in E. subst k.
    destruct Hin as [Heq|Hin]; [now inversion Heq|].
    exfalso. apply Hk. apply in_map_iff. now exists (SStr c, v).
  - destruct Hin as [Heq|Hin]; [|now apply IH].
    inversion Heq; subst.
    assert (scalar_eq (SStr c) (SStr c) = true) by now apply scalar_eq_str_l.
    congruence.
Qed.

Lemma entries_loop_shift : forall members acc,
  entries_loop format_other members acc =
  (body <- entries_loop format_other members [] ;; Ok (acc ++ body)%list).
Proof.
  induction members as [|skill members IH]; cbn [entries_loop]; intros acc.
  - cbn [bind]. now rewrite app_nil_r.
  - destruct (entry_lines format_other skill) as [block|]; cbn [bind]; [|reflexivity].
    rewrite (IH (acc ++ block)%list), (IH ([] ++ block)%list).
    destruct (entries_loop format_other members []) as [body|]; cbn [bind app];
      [|reflexivity].
    now rewrite <- app_assoc.
Qed.

(** The sections loop, over categories that are keys of the table. *)
Lemma sections_loop_spec (skills : list dict) (t : list (scalar * list dict)) :
  forall categories lines0 lines,
    (forall k, In k categories ->
       exists c, k = SStr c /\ table_get k t = Some (filter (in_category c) skills)) ->
    sections_loop format_other categories t lines0 = Ok lines ->
    exists bodies,
      Forall2 (fun c body =>
                 entries_loop format_other (filter (in_category c) skills) [] = Ok body)
              (map label_of categories) bodies /\
      lines = (lines0 ++ sections (map label_of categories) bodies)%list.
Proof.
  induction categories as [|k categories IH]; cbn [sections_loop]; intros lines0 lines Hk H.
  - inversion H. exists []. split; [constructor|]. unfold sections. cbn. now rewrite app_nil_r.
  - destruct (Hk k (or_introl eq_refl)) as (c & -> & Hget).
    cbn [title_method bind] in H. rewrite Hget in H. cbn [bind] in H.
    rewrite entries_loop_shift in H.
    destruct (entries_loop format_other (filter (in_category c) skills) []) as [body|] eqn:E;
      cbn [bind] in H; [|discriminate].
    apply IH in H as (bodies & HF & ->); [|intros k' Hk'; apply Hk; now right].
    exists (body :: bodies). split.
    + cbn [map label_of]. constructor; assumption.
    + unfold sections, lines_append, section_heading. cbn [map label_of combine concat fst snd].
      rewrite <- !app_assoc. reflexivity.
Qed.

Lemma map_nodup {A B : Type} (f : A -> B) (l : list A) :
  (forall x y, In x l -> In y l -> f x = f y -> x = y) ->
  NoDup l -> NoDup (map f l).
Proof.
  induction l as [|a l IH]; cbn [map]; intros Hinj Hnd; [constructor|].
  inversion Hnd as [|? ? Ha Hnd']; subst. constructor.
  - intros Hin. apply in_map_iff in Hin as (b & Hfb & Hb).
    apply Ha. rewrite (Hinj a b); auto; [now left|now right].
  - apply IH; [|exact Hnd']. intros x y Hx Hy. apply Hinj; now right.
Qed.

Lemma sorted_strict (l : list string) :
  StronglySorted le_text l -> NoDup l -> StronglySorted lt_text l.
Proof.
  induction 1 as [|a l Hs IH Ha]; intros Hnd; constructor.
  - apply IH. now inversion Hnd.
  - inversion Hnd as [|? ? Hnin _]; subst.
    rewrite Forall_forall in *. intros b Hb.
    apply leb_neq_ltb; [now apply Ha|]. intros ->. contradiction.
Qed.

(** C8, amended.  For categories that are ASCII text, the lines of the
    markdown catalog are the three opening lines followed by one section
    for each distinct category (the category being [uncategorized] for an
    entry that has none): a heading with the category in title case, then
    the entries of that category in the order of the list.  The sections
    are in strictly ascending order of the raw category text, by code
    point, so upper case comes before lower case.  The labels of the
    headings are ASCII text, on which [Py.title] is [str.title]. *)
Theorem catalog_sections_by_category (skills : list dict) (lines : list string) :
  Forall category_is_text skills ->
  Forall category_is_ascii skills ->
  catalog_lines format_other now_isoformat skills = Ok lines ->
  exists labels bodies,
    lines = (preamble now_isoformat (List.length skills) ++ sections labels bodies)%list /\
    Forall2 (fun c body =>
               entries_loop format_other (filter (in_category c) skills) [] = Ok body)
            labels bodies /\
    StronglySorted lt_text labels /\
    (forall c, In c labels <->
               exists skill, In skill skills /\ category_of skill = PyStr c) /\
    Forall (fun c => ascii_text c = true) labels.
Proof.
  intros Htext Hascii. unfold catalog_lines.
  rewrite (group_loop_text skills [] Htext). cbn [bind].
  set (t := fold_left _ skills []).
  destruct (grouped_fold skills [] [] Htext grouped_nil) as (Ha & Hb & Hc).
  cbn [app] in Ha, Hb, Hc. fold t in Ha, Hb, Hc.
  assert (Hkeys : Forall (fun k => PyAtom k = PyStr (label_of k)) (map fst t)).
  { rewrite Forall_forall in *. intros k Hk.
    apply in_map_iff in Hk as (kv & <- & Hkv).
    destruct (Ha _ Hkv) as (c & -> & _). reflexivity. }
  rewrite (sorted_text label_of PyAtom (map fst t) Hkeys). cbn [bind].
  set (cats := arrange label_of (map fst t)).
  assert (Hperm : Permutation (map fst t) cats) by apply arrange_perm.
  intros H.
  assert (Hcat : forall k, In k cats ->
            exists c, k = SStr c /\ table_get k t = Some (filter (in_category c) skills)).
  { intros k Hk. apply (Permutation_in _ (Permutation_sym Hperm)) in Hk.
    apply in_map_iff in Hk as ([k' ms] & <- & Hkv).
    rewrite Forall_forall in Ha. destruct (Ha _ Hkv) as (c & Hk' & Hms).
    cbn [fst snd] in *. subst k' ms. exists c. split; [reflexivity|].
    now apply table_get_in. }
  apply (sections_loop_spec skills t cats _ _ Hcat) in H as (bodies & HF & ->).
  assert (Hlabels : forall c, In c (map label_of cats) <->
                      exists skill, In skill skills /\ category_of skill = PyStr c).
  { intros c. rewrite <- Hc. split.
    - intros Hin. apply in_map_iff in Hin as (k & <- & Hk).
      destruct (Hcat k Hk) as (c' & -> & _). cbn [label_of].
      now apply (Permutation_in _ (Permutation_sym Hperm)).
    - intros Hin. apply in_map_iff. exists (SStr c). split; [reflexivity|].
      now apply (Permutation_in _ Hperm). }
  exists (map label_of cats), bodies. split; [reflexivity|]. split; [exact HF|].
  split; [|split; [exact Hlabels|]].
  - apply sorted_strict.
    + apply sorted_map. apply arrange_sorted.
    + apply map_nodup; [|eapply Permutation_NoDup; eauto].
      intros x y Hx Hy. destruct (Hcat x Hx) as (cx & -> & _).
      destruct (Hcat y Hy) as (cy & -> & _). cbn. now intros ->.
  - apply Forall_forall. intros c Hin.
    apply Hlabels in Hin as (skill & Hskill & Hcategory).
    rewrite Forall_forall in Hascii. specialize (Hascii skill Hskill).
    unfold category_is_ascii, category_label in Hascii.
    now rewrite Hcategory in Hascii.
Qed.

End MarkdownFacts.

(* ===================================================================== *)
(** ** The theorems on the sample documents *)
(* ===================================================================== *)

Section Examples.
Import Py Re SkillValidator SkillCatalog Spec Samples Cases.

(** C2 on a header that does not parse. *)
Lemma validate_skill_lenient_without_header_witness :
  require_frontmatter (validation lenient_config) = false /\
  one_file malformed_doc "SKILL.md" = File malformed_doc /\
  block_malformed sample_load malformed_doc /\
  validate_skill sample_load lenient_config (one_file malformed_doc) "SKILL.md"
  = Ok (ValidationResult false [] None).
Proof.
  assert (Hblock : block_malformed sample_load malformed_doc).
  { eexists; eexists. split; [vm_compute; reflexivity|]. split; reflexivity. }
  split; [reflexivity|]. split; [reflexivity|]. split; [exact Hblock|].
  apply (validate_skill_lenient_without_header sample_load lenient_config
           (one_file malformed_doc) "SKILL.md" malformed_doc);
    [reflexivity|reflexivity|right; exact Hblock].
Defined.

(** C3 on a document with a bad name, no description and one section. *)
Lemma validate_skill_errors_in_order_witness :
  one_file bad_name_doc "SKILL.md" = File bad_name_doc /\
  validate_skill sample_load default_config (one_file bad_name_doc) "SKILL.md"
  = Ok bad_name_result /\
  errors bad_name_result
  = ordered_errors default_config bad_name_doc (metadata bad_name_result).
Proof.
  assert (Hrun : validate_skill sample_load default_config
                   (one_file bad_name_doc) "SKILL.md" = Ok bad_name_result)
    by (vm_compute; reflexivity).
  split; [reflexivity|]. split; [exact Hrun|].
  exact (proj1 (validate_skill_errors_in_order sample_load default_config
                  (one_file bad_name_doc) "SKILL.md" bad_name_doc eq_refl)
           bad_name_result Hrun).
Defined.

(** C4 on a header that is a list and on a header with a date that does
    not exist: the list comes back, and the exception leaves the function. *)
Lemma extract_frontmatter_lets_through_witness :
  sequence_doc = framed "" "- tag" "" /\
  impossible_date_doc = framed "" "created: 2024-13-45" "" /\
  strict_load "- tag" = Ok (PyList [PyStr "tag"]) /\
  strict_load "created: 2024-13-45" = Raise ValueError /\
  extract_frontmatter strict_load sequence_doc = Ok (PyList [PyStr "tag"]) /\
  extract_frontmatter strict_load impossible_date_doc = Raise ValueError.
Proof.
  split; [reflexivity|]. split; [reflexivity|].
  split; [reflexivity|]. split; [reflexivity|]. split.
  - apply (extract_frontmatter_lets_through strict_load "" "- tag" "");
      [reflexivity|reflexivity|reflexivity|discriminate].
  - apply (extract_frontmatter_lets_through strict_load "" "created: 2024-13-45" "");
      [reflexivity|reflexivity|reflexivity|discriminate].
Defined.

(** The two cases in which nothing is extracted, on a text without header
    block and on a header that does not parse. *)
Lemma extract_frontmatter_absent_witness :
  (block_absent no_frontmatter_doc /\
   extract_frontmatter sample_load no_frontmatter_doc = Ok PyNone) /\
  (block_malformed sample_load malformed_doc /\
   extract_frontmatter sample_load malformed_doc = Ok PyNone).
Proof.
  assert (Habs : block_absent no_frontmatter_doc) by (vm_compute; reflexivity).
  assert (Hmal : block_malformed sample_load malformed_doc).
  { eexists; eexists. split; [vm_compute; reflexivity|]. split; reflexivity. }
  split; (split; [assumption|]).
  - exact (extract_frontmatter_absent sample_load no_frontmatter_doc (or_introl Habs)).
  - exact (extract_frontmatter_absent sample_load malformed_doc (or_intror Hmal)).
Defined.

(** C5, amended, on a header block at the first character. *)
Lemma extract_frontmatter_framed_witness :
  blank_lines "" = true /\
  first_line_has_text "name: demo" = true /\
  no_delimiter_line "name: demo" = true /\
  sample_load "name: demo" = Ok (PyDict [(SStr "name", PyStr "demo")]) /\
  extract_frontmatter sample_load (framed "" "name: demo" ("# Demo" ++ nl))
  = Ok (PyDict [(SStr "name", PyStr "demo")]).
Proof.
  repeat (split; [reflexivity|]).
  apply (extract_frontmatter_framed sample_load "" "name: demo" ("# Demo" ++ nl));
    reflexivity.
Defined.

(** C5, against the claim as stated: a header block after a blank line is
    not found, although the text begins, after white space, with a line of
    three hyphens, the body parses, and the same block at the first
    character is found. *)
Lemma extract_frontmatter_misses_late_header :
  late_header_doc = nl ++ framed "" "name: demo" ("# Demo" ++ nl) /\
  all_space nl = true /\
  sample_load "name: demo" = Ok (PyDict [(SStr "name", PyStr "demo")]) /\
  extract_frontmatter sample_load late_header_doc = Ok PyNone.
Proof. repeat split; vm_compute; reflexivity. Qed.

(** C6 on the document of the repository's test. *)
Lemma validate_skill_raises_on_float_version_witness :
  one_file invalid_version_doc "SKILL.md" = File invalid_version_doc /\
  validate_skill sample_load default_config (one_file invalid_version_doc) "SKILL.md"
  = Raise TypeError.
Proof.
  split; [reflexivity|].
  apply (validate_skill_raises_on_float_version sample_load
           (one_file invalid_version_doc) "SKILL.md" (1 # 1));
    reflexivity.
Defined.

(** C7, amended, on two files found in the order [b-skill], [a-skill]. *)
Lemma discover_skills_sorted_by_name_witness :
  _discover_skills sample_load sample_files = Ok [a_entry; b_entry] /\
  Forall name_is_text [a_entry; b_entry] /\
  StronglySorted (by_name name_of) [a_entry; b_entry] /\
  (forall files', Permutation sample_files files' ->
     exists skills',
       _discover_skills sample_load files' = Ok skills' /\
       map name_of skills' = map name_of [a_entry; b_entry]).
Proof.
  assert (Hrun : _discover_skills sample_load sample_files = Ok [a_entry; b_entry])
    by (vm_compute; reflexivity).
  assert (Htext : Forall name_is_text [a_entry; b_entry])
    by (repeat constructor; eexists; reflexivity).
  split; [exact Hrun|]. split; [exact Htext|].
  exact (discover_skills_sorted_by_name sample_load sample_files
           [a_entry; b_entry] Hrun Htext).
Defined.

(** C7, against the claim as stated: two files whose names are written
    [10] and [9], found in this order, which is the ascending order of the
    raw strings.  YAML reads the names as numbers, the sort compares them
    by value, and the entry of [9] comes first. *)
Lemma discover_skills_numbers_by_value :
  ten_doc = framed "" ("name: " ++ "10") "" /\
  nine_doc = framed "" ("name: " ++ "9") "" /\
  lt_text "10" "9" /\
  _discover_skills case_load [("ten/SKILL.md", ten_doc); ("nine/SKILL.md", nine_doc)]
  = Ok [nine_entry; ten_entry] /\
  map name_key [nine_entry; ten_entry] = [PyInt 9; PyInt 10].
Proof. repeat split; vm_compute; reflexivity. Qed.

(** C8, amended, on two entries of different categories. *)
Lemma catalog_sections_by_category_witness :
  Forall category_is_text [zeta_skill; alpha_skill] /\
  Forall category_is_ascii [zeta_skill; alpha_skill] /\
  catalog_lines sample_format sample_now [zeta_skill; alpha_skill]
  = Ok (preamble sample_now 2 ++ sections ["Zeta"; "alpha"] [zeta_block; alpha_block])%list /\
  exists labels bodies,
    (preamble sample_now 2 ++ sections ["Zeta"; "alpha"] [zeta_block; alpha_block])%list
    = (preamble sample_now (List.length [zeta_skill; alpha_skill]) ++ sections labels bodies)%list /\
    Forall2 (fun c body =>
               entries_loop sample_format
                 (filter (in_category c) [zeta_skill; alpha_skill]) [] = Ok body)
            labels bodies /\
    StronglySorted lt_text labels /\
    (forall c, In c labels <->
               exists skill, In skill [zeta_skill; alpha_skill] /\
                             category_of skill = PyStr c) /\
    Forall (fun c => ascii_text c = true) labels.
Proof.
  assert (Htext : Forall category_is_text [zeta_skill; alpha_skill])
    by (repeat constructor; eexists; reflexivity).
  assert (Hascii : Forall category_is_ascii [zeta_skill; alpha_skill])
    by (repeat constructor; reflexivity).
  assert (Hrun : catalog_lines sample_format sample_now [zeta_skill; alpha_skill]
                 = Ok (preamble sample_now 2 ++ sections ["Zeta"; "alpha"] [zeta_block; alpha_block])%list)
    by (vm_compute; reflexivity).
  split; [exact Htext|]. split; [exact Hascii|]. split; [exact Hrun|].
  exact (catalog_sections_by_category sample_format sample_now
           [zeta_skill; alpha_skill] _ Htext Hascii Hrun).
Defined.

(** C8, against the claim as stated: the section of category [Zeta] comes
    before the section of category [alpha], although [alpha] comes first
    when case is ignored. *)
Lemma catalog_sections_case_sensitive :
  catalog_lines sample_format sample_now [zeta_skill; alpha_skill]
  = Ok (preamble sample_now 2 ++
        [section_heading "Zeta"] ++ zeta_block ++
        [section_heading "alpha"] ++ alpha_block)%list /\
  section_heading "Zeta" = nl ++ "## Zeta" ++ nl /\
  section_heading "alpha" = nl ++ "## Alpha" ++ nl /\
  (lower "alpha" <? lower "Zeta") = true.
Proof. repeat split; vm_compute; reflexivity. Qed.

(** C9 on a header that is the empty mapping. *)
Lemma empty_header_as_no_header_witness :
  block_parses_to sample_load empty_mapping_doc (PyDict []) /\
  (forall fs path,
     fs path = File empty_mapping_doc ->
     validate_skill sample_load (_load_config None) fs path
     = Ok (ValidationResult false ["Missing YAML frontmatter"] None)) /\
  (forall fs path plain,
     fs path = File plain -> block_absent plain ->
     validate_skill sample_load (_load_config None) fs path
     = Ok (ValidationResult false ["Missing YAML frontmatter"] None)) /\
  (forall before relative after,
     _discover_skills sample_load (before ++ (relative, empty_mapping_doc) :: after)%list
     = _discover_skills sample_load (before ++ after)%list).
Proof.
  assert (Hblock : block_parses_to sample_load empty_mapping_doc (PyDict [])).
  { eexists; eexists. split; [vm_compute; reflexivity|]. split; reflexivity. }
  split; [exact Hblock|].
  exact (empty_header_as_no_header sample_load empty_mapping_doc (PyDict [])
           Hblock (or_introl eq_refl)).
Defined.

(** C10 on a file whose header declares a [path] of its own. *)
Lemma discover_skills_path_witness :
  _discover_skills sample_load sample_files = Ok [a_entry; b_entry] /\
  dict_get (SStr "path") a_entry = Some (PyStr "a/SKILL.md") /\
  exists relative content d,
    In (relative, content) sample_files /\
    extract_frontmatter sample_load content = Ok (PyDict d) /\
    dict_get (SStr "path") a_entry = Some (PyStr relative) /\
    (forall k, k <> SStr "path" -> dict_get k a_entry = dict_get k d).
Proof.
  assert (Hrun : _discover_skills sample_load sample_files = Ok [a_entry; b_entry])
    by (vm_compute; reflexivity).
  split; [exact Hrun|]. split; [reflexivity|].
  exact (proj1 (discover_skills_path sample_load sample_files [a_entry; b_entry] Hrun)
           a_entry (or_introl eq_refl)).
Defined.

(** A header body that parses to a sequence or to a scalar is returned as
    it is; the catalog loop then fails on the item assignment. *)
Example extract_frontmatter_sequence :
  extract_frontmatter sample_load sequence_doc = Ok (PyList [PyStr "tag"]) /\
  extract_frontmatter sample_load scalar_doc = Ok (PyStr "note") /\
  _discover_skills sample_load [("SKILL.md", sequence_doc)] = Raise TypeError.
Proof. repeat split; vm_compute; reflexivity. Qed.

(** The patterns on the names and versions of the specification. *)
Example name_pattern_samples :
  map (fun s => match re_match (pattern_re NAME_PATTERN) s with
                | Some _ => true
                | None => false
                end)
      ["Test_Skill_123"; "test-skill"; "a"; "-test"; "test-"]
  = [false; true; true; false; false].
Proof. vm_compute. reflexivity. Qed.

Example version_pattern_samples :
  map (fun s => match re_match (pattern_re VERSION_PATTERN) s with
                | Some _ => true
                | None => false
                end)
      ["1.0"; "1.0.0"; "10.20.30"]
  = [false; true; true].
Proof. vm_compute. reflexivity. Qed.

End Examples.

(* ===================================================================== *)
(** ** The matcher and the matches of an expression *)
(* ===================================================================== *)

Section MatcherSemantics.
Import Py Re SkillValidator SkillCatalog Spec Notions.

Lemma last_of_app (s t : string) : forall b, last_of (s ++ t) b = last_of t (last_of s b).
Proof. induction s as [|c s IH]; intros b; cbn [append last_of]; auto. Qed.

Lemma star_loop_sound (g : bool) (r : regex) :
  sound_at r ->
  forall fuel st k m,
    star_loop (run r) g fuel st k = Some m ->
    exists u t cs,
      after st = u ++ t /\
      Matches (Star g r) (prev st) u t /\
      k (MState (last_of u (prev st)) t cs) = Some m.
Proof.
  intros Hr.
  assert (Hstay : forall (st : mstate) (k : cont) (m : mstate), k st = Some m ->
            exists u t cs, after st = u ++ t /\ Matches (Star g r) (prev st) u t /\
                           k (MState (last_of u (prev st)) t cs) = Some m).
  { intros [b s cs] k m H. exists "", s, cs. repeat split; [constructor|exact H]. }
  induction fuel as [|fuel IH]; intros st k m H; cbn [star_loop] in H.
  - now apply Hstay.
  - assert (Hmore : forall m : mstate,
              run r st (fun st' =>
                 if (String.length (after st') <? String.length (after st))%nat
                 then star_loop (run r) g fuel st' k else None) = Some m ->
              exists u t cs, after st = u ++ t /\ Matches (Star g r) (prev st) u t /\
                             k (MState (last_of u (prev st)) t cs) = Some m).
    { intros m0 H0. apply Hr in H0 as (u1 & t1 & cs1 & Ha & Hm1 & Hk1).
      cbn [after] in Hk1.
      destruct (String.length t1 <? String.length (after st))%nat eqn:El; [|discriminate].
      apply IH in Hk1 as (u2 & t & cs & Ha2 & Hm2 & Hk). cbn [after prev] in *.
      exists (u1 ++ u2), t, cs. split; [|split].
      - rewrite Ha, Ha2. now rewrite app_assoc_s.
      - apply M_StarS; [|now rewrite <- Ha2|exact Hm2].
        intros ->. cbn [append] in Ha. rewrite Ha in El.
        apply Nat.ltb_lt in El. lia.
      - now rewrite last_of_app. }
    destruct g.
    + destruct (run r st _) as [m0|] eqn:E.
      * inversion H; subst. now apply Hmore.
      * now apply Hstay.
    + destruct (k st) as [m0|] eqn:E.
      * inversion H; subst. now apply Hstay.
      * now apply Hmore.
Qed.

(** The matcher reports only what the expression denotes. *)
Lemma run_sound (r : regex) : sound_at r.
Proof.
  induction r as [|p|ml|ml|r1 IH1 r2 IH2|r1 IH1 r2 IH2|g r IH|n r IH];
    intros st k m H; cbn [run] in H.
  - destruct st as [b s cs]. exists "", s, cs. repeat split; [constructor|exact H].
  - destruct st as [b s cs]. cbn [after] in *. destruct s as [|c s]; [discriminate|].
    destruct (p c) eqn:Hp; [|discriminate].
    exists (String c ""), s, cs. repeat split; [now constructor|exact H].
  - destruct st as [b s cs]. destruct (at_bol ml _) eqn:E; [|discriminate].
    exists "", s, cs. repeat split; [now constructor|exact H].
  - destruct st as [b s cs]. destruct (at_eol ml _) eqn:E; [|discriminate].
    exists "", s, cs. repeat split; [now constructor|exact H].
  - apply IH1 in H as (u1 & t1 & cs1 & Ha & Hm1 & Hk1).
    apply IH2 in Hk1 as (u2 & t & cs & Ha2 & Hm2 & Hk). cbn [after prev] in *.
    exists (u1 ++ u2), t, cs. split; [|split].
    + rewrite Ha, Ha2. now rewrite app_assoc_s.
    + apply M_Seq; [now rewrite <- Ha2|exact Hm2].
    + now rewrite last_of_app.
  - destruct (run r1 st k) as [m0|] eqn:E.
    + inversion H; subst. apply IH1 in E as (u & t & cs & Ha & Hm & Hk).
      exists u, t, cs. repeat split; auto. now apply M_AltL.
    + apply IH2 in H as (u & t & cs & Ha & Hm & Hk).
      exists u, t, cs. repeat split; auto. now apply M_AltR.
  - eapply star_loop_sound; eauto.
  - apply IH in H as (u & t & cs & Ha & Hm & Hk). cbn [prev after caps] in Hk.
    exists u, t, ((n, taken st (MState (last_of u (prev st)) t cs)) :: cs).
    repeat split; auto. now apply M_Group.
Qed.

Lemma star_loop_stay (body : mstate -> cont -> option mstate) (g : bool) (fuel : nat)
    (st : mstate) (k : cont) :
  k st <> None -> star_loop body g fuel st k <> None.
Proof.
  intros H. destruct fuel as [|fuel]; cbn [star_loop]; [exact H|].
  destruct g.
  - destruct (body st _); [discriminate|exact H].
  - destruct (k st); [discriminate|congruence].
Qed.

(** One more round of a loop: the body on [u1], then the loop on [u2]. *)
Lemma star_loop_round (g : bool) (r : regex) (b : option ascii) (u1 u2 t : string)
    (k : cont) (cs : list (nat * string)) :
  u1 <> "" ->
  (forall k', (forall cs', k' (MState (last_of u1 b) (u2 ++ t) cs') <> None) ->
     run r (MState b (u1 ++ u2 ++ t) cs) k' <> None) ->
  (forall fuel cs', String.length (u2 ++ t) <= fuel ->
     star_loop (run r) g fuel (MState (last_of u1 b) (u2 ++ t) cs') k <> None) ->
  forall fuel, String.length ((u1 ++ u2) ++ t) <= fuel ->
    star_loop (run r) g fuel (MState b ((u1 ++ u2) ++ t) cs) k <> None.
Proof.
  intros Hne Hbody Hrest fuel Hfuel.
  assert (Hlen : String.length (u2 ++ t) < String.length ((u1 ++ u2) ++ t)).
  { rewrite app_assoc_s, (length_app u1). destruct u1; [congruence|cbn; lia]. }
  destruct fuel as [|fuel]; [lia|]. cbn [star_loop after].
  assert (Hround : run r (MState b ((u1 ++ u2) ++ t) cs)
            (fun st' =>
               if (String.length (after st') <? String.length ((u1 ++ u2) ++ t))%nat
               then star_loop (run r) g fuel st' k else None) <> None).
  { rewrite app_assoc_s. apply Hbody. intros cs'. cbn [after].
    rewrite <- app_assoc_s.
    replace (String.length (u2 ++ t) <? String.length ((u1 ++ u2) ++ t))%nat with true
      by (symmetry; now apply Nat.ltb_lt).
    apply Hrest. lia. }
  destruct g.
  - destruct (run r _ _); [discriminate|contradiction].
  - destruct (k _); [discriminate|exact Hround].
Qed.

(** The matcher finds a match when the expression denotes one: it succeeds
    whenever the continuation succeeds after the match. *)
Lemma run_complete (r : regex) (b : option ascii) (u t : string) :
  Matches r b u t ->
  forall k, (forall cs, k (MState (last_of u b) t cs) <> None) ->
  forall cs,
    run r (MState b (u ++ t) cs) k <> None /\
    (forall g r', r = Star g r' ->
       forall fuel, String.length (u ++ t) <= fuel ->
         star_loop (run r') g fuel (MState b (u ++ t) cs) k <> None).
Proof.
  induction 1 as [b t|p c b t Hp|ml b t Hb|ml b t He
                  |r1 r2 b u1 u2 t H1 IH1 H2 IH2
                  |r1 r2 b u t H1 IH1|r1 r2 b u t H2 IH2
                  |g r b t|g r b u1 u2 t Hne H1 IH1 H2 IH2
                  |n r b u t H1 IH1];
    intros k Hk cs.
  - split; [apply Hk|discriminate].
  - split; [|discriminate]. cbn [run append after]. rewrite Hp.
    unfold step. cbn [after caps]. apply Hk.
  - split; [|discriminate]. cbn [run append]. unfold at_bol in *. cbn [prev] in *.
    rewrite Hb. apply Hk.
  - split; [|discriminate]. cbn [run append]. unfold at_eol in *. cbn [after] in *.
    rewrite He. apply Hk.
  - split; [|discriminate]. cbn [run]. rewrite app_assoc_s.
    apply IH1. intros cs1. apply IH2.
    intros cs2. rewrite <- last_of_app. apply Hk.
  - split; [|discriminate]. cbn [run].
    destruct (IH1 k Hk cs) as [Hrun _]. now destruct (run r1 _ k).
  - split; [|discriminate]. cbn [run].
    destruct (run r1 _ k); [discriminate|]. now apply IH2.
  - split; [apply star_loop_stay, Hk|].
    intros g' r' Heq fuel _. apply star_loop_stay, Hk.
  - assert (G : forall fuel, String.length ((u1 ++ u2) ++ t) <= fuel ->
                  star_loop (run r) g fuel (MState b ((u1 ++ u2) ++ t) cs) k <> None).
    { apply star_loop_round; [exact Hne| |].
      - intros k' Hk'. now apply IH1.
      - intros fuel cs' Hfuel.
        assert (Hk' : forall cs2, k (MState (last_of u2 (last_of u1 b)) t cs2) <> None)
          by (intros cs2; rewrite <- last_of_app; apply Hk).
        now apply (proj2 (IH2 k Hk' cs') g r eq_refl). }
    split; [cbn [run after]; apply G; lia|].
    intros g' r' Heq. inversion Heq; subst g' r'. exact G.
  - split; [|discriminate]. cbn [run].
    apply IH1. intros cs1. cbn [prev after caps]. apply Hk.
Qed.

End MatcherSemantics.

(* ===================================================================== *)
(** ** The texts that the two patterns accept *)
(* ===================================================================== *)

Section PatternLanguage.
Import Py Re SkillValidator SkillCatalog Spec Notions.

Lemma append_empty (s : string) : s ++ "" = s.
Proof. induction s as [|c s IH]; cbn [append]; congruence. Qed.

Lemma chomp_newline (u : string) : chomp (u ++ nl) = u.
Proof.
  induction u as [|c u IH]; [reflexivity|].
  cbn [append chomp]. rewrite IH.
  destruct u; reflexivity.
Qed.

Lemma chomp_single_line (s : string) : single_line s = true -> chomp s = s.
Proof.
  induction s as [|c s IH]; [reflexivity|].
  cbn [single_line chomp]. intros H. apply andb_true_iff in H as [Hc Hs].
  destruct s as [|c' s].
  - apply negb_true_iff in Hc. rewrite Ascii.eqb_sym in Hc. now rewrite Hc.
  - now rewrite (IH Hs).
Qed.

Lemma chomp_split (s : string) : exists t, at_end t /\ s = chomp s ++ t.
Proof.
  induction s as [|c s (t & Ht & IH)]; [exists ""; split; [now left|reflexivity]|].
  cbn [chomp]. destruct s as [|c' s].
  - destruct (Ascii.eqb_spec c newline) as [->|_].
    + exists nl. split; [now right|reflexivity].
    + exists "". split; [now left|reflexivity].
  - exists t. split; [exact Ht|]. cbn [append]. now rewrite <- IH.
Qed.

Lemma kebab_single_line (s : string) : forall inside,
  kebab_from inside s = true -> single_line s = true.
Proof.
  induction s as [|c s IH]; intros inside H; [reflexivity|].
  cbn [kebab_from] in H. cbn [single_line].
  destruct (Ascii.eqb_spec newline c) as [<-|_].
  - change (is_lower_alnum newline) with false in H. cbn in H. discriminate.
  - cbn [negb andb]. destruct (is_lower_alnum c); [eauto|].
    apply andb_true_iff in H as [_ H]. eauto.
Qed.

Lemma dotted_single_line (s : string) : forall inside dots,
  dotted_from inside dots s = true -> single_line s = true.
Proof.
  induction s as [|c s IH]; intros inside dots H; [reflexivity|].
  cbn [dotted_from] in H. cbn [single_line].
  destruct (Ascii.eqb_spec newline c) as [<-|_].
  - change (is_digit newline) with false in H. cbn in H. discriminate.
  - cbn [negb andb]. destruct (is_digit c); [eauto|].
    apply andb_true_iff in H as [_ H]. destruct dots; [discriminate|eauto].
Qed.

Lemma matches_star_class (g : bool) (p : ascii -> bool) (b : option ascii) (u t : string) :
  Matches (Star g (Chr p)) b u t -> every p u = true.
Proof.
  intros H. remember (Star g (Chr p)) as r eqn:Hr.
  induction H as [| | | | | | | |g' r' b u1 u2 t Hne H1 _ H2 IH|]; try discriminate; auto.
  inversion Hr; subst g' r'.
  inversion H1 as [|p0 c b1 t1 Hc| | | | | | | |]; subst.
  cbn [append every]. rewrite IH by reflexivity. now rewrite Hc.
Qed.

Lemma class_star_matches (g : bool) (p : ascii -> bool) (u t : string) :
  every p u = true -> forall b, Matches (Star g (Chr p)) b u t.
Proof.
  induction u as [|c u IH]; intros H b; [constructor|].
  cbn [every] in H. apply andb_prop in H as [Hc Hu].
  change (String c u) with (String c "" ++ u).
  apply M_StarS; [discriminate|now constructor|now apply IH].
Qed.

Lemma matches_plus_class (p : ascii -> bool) (b : option ascii) (u t : string) :
  Matches (Plus (Chr p)) b u t ->
  exists c w, u = String c w /\ p c = true /\ every p w = true.
Proof.
  intros H. inversion H as [| | | |r1 r2 b' u1 u2 t' H1 H2| | | | |]; subst.
  inversion H1; subst. apply matches_star_class in H2.
  eexists _, _. cbn [append]. eauto.
Qed.

Lemma class_plus_matches (p : ascii -> bool) (c : ascii) (w t : string) (b : option ascii) :
  p c = true -> every p w = true -> Matches (Plus (Chr p)) b (String c w) t.
Proof.
  intros Hc Hw. change (String c w) with (String c "" ++ w).
  apply M_Seq; [now constructor|now apply class_star_matches].
Qed.

Lemma at_end_eol (t : string) (b : option ascii) :
  at_end t <-> at_eol false (MState b t []) = true.
Proof.
  unfold at_end, at_eol, nl. cbn [after]. split.
  - intros [-> | ->]; reflexivity.
  - destruct t as [|c [|c' t]]; auto; cbn [andb]; [|discriminate].
    intros H. right. apply Ascii.eqb_eq in H. now subst c.
Qed.

Lemma matches_end (b : option ascii) (u t : string) :
  Matches (Seq (Eol false) Empty) b u t -> u = "" /\ at_end t.
Proof.
  intros H. inversion H as [| | | |r1 r2 b' u1 u2 t' H1 H2| | | | |]; subst.
  inversion H1; subst. inversion H2; subst. split; [reflexivity|].
  cbn [append] in *. eapply at_end_eol; eauto.
Qed.

Lemma end_matches (b : option ascii) (t : string) :
  at_end t -> Matches (Seq (Eol false) Empty) b "" t.
Proof.
  intros H. change "" with ("" ++ ""). apply M_Seq; constructor.
  now apply at_end_eol.
Qed.

Lemma kebab_run (w s : string) :
  every is_lower_alnum w = true ->
  kebab_from true (w ++ s) = kebab_from true s.
Proof.
  induction w as [|c w IH]; intros Hw; [reflexivity|].
  cbn [every] in Hw. apply andb_prop in Hw as [Hc Hw].
  cbn [append kebab_from]. rewrite Hc. now apply IH.
Qed.

Lemma matches_hyphen_runs (b : option ascii) (u t : string) :
  Matches (Star true hyphen_run) b u t ->
  forall s, kebab_from true (u ++ s) = kebab_from true s.
Proof.
  intros H. remember (Star true hyphen_run) as r eqn:Hr.
  induction H as [| | | | | | | |g' r' b u1 u2 t Hne H1 _ H2 IH|]; try discriminate; auto.
  inversion Hr; subst g' r'. intros s.
  inversion H1 as [| | | | | | | | |n r0 b0 u0 t0 H3]; subst.
  inversion H3 as [| | | |r1 r2 b' v1 v2 t' H4 H5| | | | |]; subst.
  inversion H4 as [|p c b1 t1 Hc| | | | | | | |]; subst.
  apply matches_plus_class in H5 as (c' & w & -> & Hc' & Hw).
  apply Ascii.eqb_eq in Hc. subst c.
  rewrite app_assoc_s. cbn [append kebab_from].
  change (is_lower_alnum "-") with false. cbn [Ascii.eqb andb].
  change (Ascii.eqb "-" "-") with true. cbn [andb]. rewrite Hc'.
  rewrite kebab_run by exact Hw. now apply IH.
Qed.

Lemma kebab_matches (t : string) :
  at_end t ->
  forall s,
    (kebab_from true s = true ->
       forall b, Matches (Seq (Star true (Chr is_lower_alnum)) name_tail) b s t) /\
    (kebab_from false s = true ->
       forall b, Matches (Seq (Plus (Chr is_lower_alnum)) name_tail) b s t).
Proof.
  intros Ht. induction s as [|c s [IHt IHf]].
  - split; [|discriminate]. intros _ b.
    change "" with ("" ++ ("" ++ "")). apply M_Seq; [constructor|].
    apply M_Seq; [constructor|now apply end_matches].
  - cbn [kebab_from]. destruct (is_lower_alnum c) eqn:Hc.
    + assert (G : kebab_from true s = true ->
                  forall b, exists w v, String c s = String c w ++ v /\
                    every is_lower_alnum w = true /\
                    Matches name_tail (last_of (String c w) b) v t).
      { intros H b. specialize (IHt H (Some c)).
        inversion IHt as [| | | |r1 r2 b' w v t' H1 H2| | | | |]; subst.
        exists w, v. split; [reflexivity|]. split; [|exact H2].
        eapply matches_star_class; eauto. }
      split; intros H b; destruct (G H b) as (w & v & -> & Hw & Hv).
      * apply M_Seq; [|exact Hv]. apply class_star_matches.
        cbn [every]. now rewrite Hc.
      * apply M_Seq; [|exact Hv]. now apply class_plus_matches.
    + split; [|rewrite andb_false_r; discriminate].
      rewrite andb_true_r. destruct (Ascii.eqb c "-") eqn:Eh; [|discriminate].
      apply Ascii.eqb_eq in Eh. subst c. cbn [andb]. intros H b.
      specialize (IHf H (Some "-"%char)).
      inversion IHf as [| | | |r1 r2 b' w v t' H1 H2| | | | |]; subst.
      inversion H2 as [| | | |r1 r2 b' v1 v2 t' H3 H4| | | | |]; subst.
      rewrite <- (app_assoc_s w v1 v2).
      change (String "-" ((w ++ v1) ++ v2)) with ("" ++ (String "-" w ++ v1) ++ v2).
      apply M_Seq; [constructor|]. cbn [last_of].
      apply M_Seq; [|now rewrite last_of_app in *].
      apply M_StarS; [discriminate| |exact H3].
      apply M_Group. change (String "-" w) with (String "-" "" ++ w).
      apply M_Seq; [constructor; reflexivity|].
      rewrite app_assoc_s in H1. exact H1.
Qed.

(** What the name pattern accepts is such a text. *)
Lemma name_pattern_sound (s : string) :
  re_match (pattern_re NAME_PATTERN) s <> None -> kebab (chomp s) = true.
Proof.
  unfold re_match. destruct (run _ _ _) as [m|] eqn:E; [intros _|congruence].
  apply run_sound in E as (u & t & cs & Hs & Hm & _). cbn [after prev] in *.
  change (pattern_re NAME_PATTERN)
    with (Seq (Bol false) (Seq (Plus (Chr is_lower_alnum)) name_tail)) in Hm.
  inversion Hm as [| | | |r1 r2 b' u0 u1 t' H1 H2| | | | |]; subst.
  inversion H1; subst. cbn [append last_of] in *.
  inversion H2 as [| | | |r1 r2 b' v1 v2 t' H3 H4| | | | |]; subst.
  inversion H4 as [| | | |r1 r2 b' w1 w2 t' H5 H6| | | | |]; subst.
  apply matches_end in H6 as [-> Ht].
  apply matches_plus_class in H3 as (c & w & -> & Hc & Hw).
  assert (K : kebab (String c w ++ w1) = true).
  { unfold kebab. cbn [append kebab_from]. rewrite Hc.
    rewrite <- (append_empty w1), kebab_run by exact Hw.
    now rewrite (matches_hyphen_runs _ _ _ H5). }
  rewrite append_empty. destruct Ht as [-> | ->].
  + rewrite append_empty, chomp_single_line; [exact K|].
    eapply kebab_single_line, K.
  + now rewrite chomp_newline.
Qed.

(** Such a text is accepted. *)
Lemma name_pattern_complete (s : string) :
  kebab (chomp s) = true -> re_match (pattern_re NAME_PATTERN) s <> None.
Proof.
  intros Hk. destruct (chomp_split s) as (t & Ht & Hs).
  assert (Hm : Matches (pattern_re NAME_PATTERN) None (chomp s) t).
  { change (pattern_re NAME_PATTERN)
      with (Seq (Bol false) (Seq (Plus (Chr is_lower_alnum)) name_tail)).
    change (chomp s) with ("" ++ chomp s). apply M_Seq; [now constructor|].
    now apply (kebab_matches t Ht (chomp s)). }
  unfold re_match. rewrite Hs at 1.
  apply (run_complete _ _ _ _ Hm Some); discriminate.
Qed.

(** X10.  The name pattern accepts exactly the runs of lower-case letters
    and digits joined by single hyphens, with or without one line feed at
    the end. *)
Theorem name_pattern_language (s : string) :
  re_match (pattern_re NAME_PATTERN) s <> None <-> kebab (chomp s) = true.
Proof.
  split; [apply name_pattern_sound|apply name_pattern_complete].
Qed.

Lemma dotted_run (w s : string) (dots : nat) :
  every is_digit w = true ->
  dotted_from true dots (w ++ s) = dotted_from true dots s.
Proof.
  induction w as [|c w IH]; intros Hw; [reflexivity|].
  cbn [every] in Hw. apply andb_prop in Hw as [Hc Hw].
  cbn [append dotted_from]. rewrite Hc. now apply IH.
Qed.

Lemma matches_runs (dots : nat) :
  forall b u t, Matches (runs dots) b u t -> dotted_from false dots u = true /\ at_end t.
Proof.
  induction dots as [|d IH]; intros b u t H; cbn [runs] in H;
    inversion H as [| | | |r1 r2 b' u1 u2 t' H1 H2| | | | |]; subst;
    apply matches_plus_class in H1 as (c & w & -> & Hc & Hw);
    cbn [append dotted_from]; rewrite Hc, dotted_run by exact Hw.
  - apply matches_end in H2 as [-> Ht]. split; [reflexivity|exact Ht].
  - inversion H2 as [| | | |r1 r2 b' v1 v2 t' H3 H4| | | | |]; subst.
    inversion H3 as [|p c0 b1 t1 Hd| | | | | | | |]; subst.
    apply Ascii.eqb_eq in Hd. subst c0. apply IH in H4 as [H4 Ht].
    split; [|exact Ht]. cbn [append dotted_from].
    change (is_digit ".") with false. cbn [Ascii.eqb andb].
    change (Ascii.eqb "." ".") with true. cbn [andb]. exact H4.
Qed.

Lemma dotted_matches (t : string) :
  at_end t ->
  forall s dots,
    (dotted_from true dots s = true ->
       forall b, Matches (Seq (Star true (Chr is_digit)) (after_run dots)) b s t) /\
    (dotted_from false dots s = true -> forall b, Matches (runs dots) b s t).
Proof.
  intros Ht. induction s as [|c s IH]; intros dots.
  - split; [|discriminate]. cbn [dotted_from andb]. destruct dots; [|discriminate].
    intros _ b. change "" with ("" ++ ""). apply M_Seq; [constructor|].
    now apply end_matches.
  - cbn [dotted_from]. destruct (is_digit c) eqn:Hc.
    + assert (G : dotted_from true dots s = true ->
                  forall b, exists w v, String c s = String c w ++ v /\
                    every is_digit w = true /\
                    Matches (after_run dots) (last_of (String c w) b) v t).
      { intros H b. pose proof (proj1 (IH dots) H (Some c)) as IHt.
        inversion IHt as [| | | |r1 r2 b' w v t' H1 H2| | | | |]; subst.
        exists w, v. split; [reflexivity|]. split; [|exact H2].
        eapply matches_star_class; eauto. }
      split; intros H b; destruct (G H b) as (w & v & -> & Hw & Hv).
      * apply M_Seq; [|exact Hv]. apply class_star_matches.
        cbn [every]. now rewrite Hc.
      * replace (runs dots) with (Seq (Plus (Chr is_digit)) (after_run dots))
          by (destruct dots; reflexivity).
        apply M_Seq; [|exact Hv]. now apply class_plus_matches.
    + split; [|rewrite andb_false_r; discriminate].
      rewrite andb_true_r. destruct (Ascii.eqb c ".") eqn:Eh; [|discriminate].
      apply Ascii.eqb_eq in Eh. subst c. cbn [andb].
      destruct dots as [|d]; [discriminate|]. intros H b.
      pose proof (proj2 (IH d) H (Some "."%char)) as IHf.
      change (String "." s) with ("" ++ (String "." "" ++ s)).
      apply M_Seq; [constructor|]. cbn [after_run last_of].
      apply M_Seq; [constructor; reflexivity|exact IHf].
Qed.

(** X11.  The version pattern accepts exactly three runs of digits joined
    by dots, with or without one line feed at the end. *)
Theorem version_pattern_language (s : string) :
  re_match (pattern_re VERSION_PATTERN) s <> None <-> three_numbers (chomp s) = true.
Proof.
  unfold re_match. split.
  - destruct (run _ _ _) as [m|] eqn:E; [intros _|congruence].
    apply run_sound in E as (u & t & cs & Hs & Hm & _). cbn [after prev] in *.
    change (pattern_re VERSION_PATTERN) with (Seq (Bol false) (runs 2)) in Hm.
    inversion Hm as [| | | |r1 r2 b' u0 u1 t' H1 H2| | | | |]; subst.
    inversion H1; subst. cbn [append last_of] in *.
    apply (matches_runs 2) in H2 as [Hk [-> | ->]].
    + rewrite append_empty, chomp_single_line; [exact Hk|].
      eapply dotted_single_line, Hk.
    + now rewrite chomp_newline.
  - intros Hk. destruct (chomp_split s) as (t & Ht & Hs).
    assert (Hm : Matches (pattern_re VERSION_PATTERN) None (chomp s) t).
    { change (pattern_re VERSION_PATTERN) with (Seq (Bol false) (runs 2)).
      change (chomp s) with ("" ++ chomp s). apply M_Seq; [now constructor|].
      now apply (dotted_matches t Ht (chomp s) 2). }
    rewrite Hs at 1. apply (run_complete _ _ _ _ Hm Some); discriminate.
Qed.

End PatternLanguage.

(* ===================================================================== *)
(** ** Validity and the checks *)
(* ===================================================================== *)

Section ValidatorMore.
Import Py Re SkillValidator SkillCatalog Spec Notions.

Variable safe_load : string -> result pyval.

Lemma format_check_text (label key : string) (p : pattern) (fm : pyval)
    (errs r : list string) :
  (has <- contains key fm ;;
   if has then
     value <- getitem fm key ;;
     m <- match_value p value ;;
     match m with
     | None => Ok (errors_append errs ("Invalid " ++ label ++ " format. Must match: " ++ pattern_text p))
     | Some _ => Ok errs
     end
   else Ok errs) = Ok r ->
  contains key fm = Ok true ->
  exists s, getitem fm key = Ok (PyStr s).
Proof.
  intros H Hc. rewrite Hc in H. cbn [bind] in H.
  destruct (getitem fm key) as [value|e]; cbn [bind] in H; [|discriminate].
  destruct value as [[| | | |s|]|l|d]; cbn [match_value bind] in H; try discriminate.
  now exists s.
Qed.

(** The two ways in which [validate_skill] returns for a file that exists. *)
Lemma validate_skill_shape (cfg : config) (fs : filesystem) (path content : string)
    (r : validation_result) :
  fs path = File content ->
  validate_skill safe_load cfg fs path = Ok r ->
  exists fm,
    extract_frontmatter safe_load content = Ok fm /\
    ((truthy fm = false /\
      r = ValidationResult false (ordered_errors cfg content None) None) \/
     (truthy fm = true /\
      r = ValidationResult
            (Nat.eqb (List.length (ordered_errors cfg content (Some fm))) 0)
            (ordered_errors cfg content (Some fm)) (Some fm) /\
      (forall field, In field (required_fields (validation cfg)) ->
                     exists b, contains field fm = Ok b) /\
      (contains "name" fm = Ok true -> exists s, getitem fm "name" = Ok (PyStr s)) /\
      (contains "version" fm = Ok true -> exists s, getitem fm "version" = Ok (PyStr s)))).
Proof.
  intros Hfs H. unfold validate_skill, path_exists, read_text in H.
  rewrite Hfs in H. cbn [negb bind] in H.
  destruct (extract_frontmatter safe_load content) as [fm|e];
    cbn [bind] in H; [|discriminate].
  exists fm. split; [reflexivity|].
  destruct (truthy fm); cbn [negb] in H.
  2:{ left. split; [reflexivity|]. inversion H. cbn [ordered_errors].
      now destruct (require_frontmatter (validation cfg)). }
  right. split; [reflexivity|]. revert H.
  destruct (required_fields_loop _ fm []) as [e1|] eqn:E1;
    cbn [bind]; [|discriminate].
  assert (Hfields : forall field, In field (required_fields (validation cfg)) ->
                                  exists b, contains field fm = Ok b).
  { clear - E1. revert E1. generalize (@nil string).
    induction (required_fields (validation cfg)) as [|f fs IH];
      cbn [required_fields_loop]; intros acc E field Hin; [destruct Hin|].
    destruct (contains f fm) as [b|] eqn:C; cbn [bind] in E; [|discriminate].
    destruct Hin as [<-|Hin]; [eauto|]. eapply IH; eauto. }
  apply required_fields_loop_spec in E1. simpl in E1.
  pose proof (format_check_spec "name" "name"
                (naming_pattern (validation cfg)) fm e1) as F1.
  pose proof (format_check_text "name" "name"
                (naming_pattern (validation cfg)) fm e1) as T1.
  destruct (contains "name" fm) as [h1|]; cbn [bind] in *; [|discriminate].
  match goal with
  | |- context [bind ?b _] => destruct b as [e2|] eqn:B2
  end; cbn [bind]; [|discriminate].
  pose proof (T1 _ B2) as T1'. apply F1 in B2. clear F1 T1.
  pose proof (format_check_spec "version" "version"
                (version_pattern (validation cfg)) fm e2) as F2.
  pose proof (format_check_text "version" "version"
                (version_pattern (validation cfg)) fm e2) as T2.
  destruct (contains "version" fm) as [h2|]; cbn [bind] in *; [|discriminate].
  match goal with
  | |- context [bind ?b _] => destruct b as [e3|] eqn:B3
  end; cbn [bind]; [|discriminate].
  pose proof (T2 _ B3) as T2'. apply F2 in B3. clear F2 T2.
  intros H; inversion H; subst.
  assert (Heq : errors_extend
                  ((missing_field_errors (required_fields (validation cfg)) fm ++
                    format_error "name" "name" (naming_pattern (validation cfg)) fm) ++
                   format_error "version" "version" (version_pattern (validation cfg)) fm)
                  (_validate_content content)
                = ordered_errors cfg content (Some fm)).
  { unfold errors_extend, ordered_errors. rewrite validate_content_spec.
    now rewrite <- !app_assoc. }
  rewrite Heq. split; [reflexivity|]. split; [exact Hfields|].
  split; intros Hc; [apply T1'|apply T2']; congruence.
Qed.

Lemma app_nil_inv {A : Type} (l1 l2 : list A) : (l1 ++ l2)%list = [] -> l1 = [] /\ l2 = [].
Proof. destruct l1; [auto|discriminate]. Qed.

Lemma map_filter_nil {A B : Type} (f : A -> B) (p : A -> bool) (l : list A) :
  map f (filter p l) = [] -> forall x, In x l -> p x = false.
Proof.
  induction l as [|a l IH]; cbn [filter]; intros H x Hin; [destruct Hin|].
  destruct (p a) eqn:E; [discriminate|].
  destruct Hin as [<-|Hin]; auto.
Qed.

(** X1.  A result with [valid] true has passed every check: it carries the
    metadata that [extract_frontmatter] gave, it has no error, every
    required field of the configuration is in the metadata, a name and a
    version that are present are text that the configured patterns accept,
    and the text has the three required sections. *)
Theorem valid_means_checked (cfg : config) (fs : filesystem) (path content : string)
    (r : validation_result) :
  fs path = File content ->
  validate_skill safe_load cfg fs path = Ok r ->
  valid r = true ->
  exists fm,
    metadata r = Some fm /\
    extract_frontmatter safe_load content = Ok fm /\
    truthy fm = true /\
    errors r = [] /\
    (forall field, In field (required_fields (validation cfg)) ->
                   contains field fm = Ok true) /\
    (contains "name" fm = Ok true ->
     exists s, getitem fm "name" = Ok (PyStr s) /\
               re_match (pattern_re (naming_pattern (validation cfg))) s <> None) /\
    (contains "version" fm = Ok true ->
     exists s, getitem fm "version" = Ok (PyStr s) /\
               re_match (pattern_re (version_pattern (validation cfg))) s <> None) /\
    (forall section, In section REQUIRED_SECTIONS ->
                     has_section content section = true).
Proof.
  intros Hfs Hrun Hvalid.
  destruct (validate_skill_shape cfg fs path content r Hfs Hrun)
    as (fm & Hex & [[_ ->]|(Ht & -> & Hfields & Hname & Hversion)]);
    [discriminate Hvalid|].
  cbn [valid] in Hvalid. apply Nat.eqb_eq, length_zero_iff_nil in Hvalid.
  exists fm. cbn [metadata errors]. repeat (split; [assumption||reflexivity|]).
  cbn [ordered_errors] in Hvalid.
  apply app_nil_inv in Hvalid as [Hf Hvalid].
  apply app_nil_inv in Hvalid as [Hn Hvalid].
  apply app_nil_inv in Hvalid as [Hv Hs].
  split; [|split; [|split]].
  - intros field Hin. destruct (Hfields field Hin) as [b Hb].
    pose proof (map_filter_nil _ _ _ Hf field Hin) as Hp.
    unfold has_field in Hp. rewrite Hb in Hp |- *. now destruct b.
  - intros Hc. destruct (Hname Hc) as [s Hs']. exists s. split; [exact Hs'|].
    unfold format_error in Hn. rewrite Hs' in Hn. cbn in Hn.
    now destruct (re_match (pattern_re (naming_pattern (validation cfg))) s).
  - intros Hc. destruct (Hversion Hc) as [s Hs']. exists s. split; [exact Hs'|].
    unfold format_error in Hv. rewrite Hs' in Hv. cbn in Hv.
    now destruct (re_match (pattern_re (version_pattern (validation cfg))) s).
  - intros section Hin.
    pose proof (map_filter_nil _ _ _ Hs section Hin) as Hp.
    now apply negb_false_iff in Hp.
Qed.


Lemma required_fields_loop_present (fm : pyval) : forall fields errs,
  (forall field, In field fields -> contains field fm = Ok true) ->
  required_fields_loop fields fm errs = Ok errs.
Proof.
  induction fields as [|f fields IH]; cbn [required_fields_loop]; intros errs H;
    [reflexivity|].
  rewrite (H f) by now left. cbn [bind negb]. apply IH.
  intros field Hin. apply H. now right.
Qed.

Lemma validate_content_complete (content : string) :
  (forall section, In section REQUIRED_SECTIONS -> has_section content section = true) ->
  _validate_content content = [].
Proof.
  intros H. rewrite validate_content_spec. unfold missing_section_errors.
  rewrite filter_none; [reflexivity|].
  intros section Hin. now rewrite (H section Hin).
Qed.

(** The run of [validate_skill] on a document that passes every check. *)
Lemma validate_skill_checked (cfg : config) (fs : filesystem) (path content : string)
    (d : dict) :
  fs path = File content ->
  extract_frontmatter safe_load content = Ok (PyDict d) ->
  d <> [] ->
  (forall field, In field (required_fields (validation cfg)) ->
                 dict_mem (SStr field) d = true) ->
  accepted_or_absent (naming_pattern (validation cfg)) d "name" ->
  accepted_or_absent (version_pattern (validation cfg)) d "version" ->
  (forall section, In section REQUIRED_SECTIONS -> has_section content section = true) ->
  validate_skill safe_load cfg fs path = Ok (ValidationResult true [] (Some (PyDict d))).
Proof.
  intros Hfs Hex Hd Hfields Hname Hversion Hsections.
  unfold validate_skill, path_exists, read_text. rewrite Hfs. cbn [negb bind].
  rewrite Hex. cbn [bind].
  assert (Ht : truthy (PyDict d) = true) by (destruct d; [congruence|reflexivity]).
  rewrite Ht. cbn [negb].
  rewrite required_fields_loop_present
    by (intros field Hin; cbn [contains]; now rewrite (Hfields field Hin)).
  cbn [bind contains getitem]. unfold dict_mem.
  unfold accepted_or_absent in Hname, Hversion.
  destruct (dict_get (SStr "name") d) as [vn|].
  - destruct Hname as (sn & -> & Hn). cbn [bind match_value PyStr].
    destruct (re_match (pattern_re (naming_pattern (validation cfg))) sn);
      [|congruence]. cbn [bind].
    destruct (dict_get (SStr "version") d) as [vv|].
    + destruct Hversion as (sv & -> & Hv). cbn [bind match_value PyStr].
      destruct (re_match (pattern_re (version_pattern (validation cfg))) sv);
        [|congruence]. cbn [bind].
      now rewrite (validate_content_complete content Hsections).
    + cbn [bind]. now rewrite (validate_content_complete content Hsections).
  - cbn [bind].
    destruct (dict_get (SStr "version") d) as [vv|].
    + destruct Hversion as (sv & -> & Hv). cbn [bind match_value PyStr].
      destruct (re_match (pattern_re (version_pattern (validation cfg))) sv);
        [|congruence]. cbn [bind].
      now rewrite (validate_content_complete content Hsections).
    + cbn [bind]. now rewrite (validate_content_complete content Hsections).
Qed.

(** X2.  The converse for a header that is a mapping: when every required
    field is present, the name and the version are absent or text that the
    patterns accept, and the three sections are there, [validate_skill]
    returns [valid] true, no error, and the mapping as metadata. *)
Theorem checked_means_valid (cfg : config) (fs : filesystem) (path content : string)
    (d : dict) :
  fs path = File content ->
  extract_frontmatter safe_load content = Ok (PyDict d) ->
  d <> [] ->
  (forall field, In field (required_fields (validation cfg)) ->
                 dict_mem (SStr field) d = true) ->
  accepted_or_absent (naming_pattern (validation cfg)) d "name" ->
  accepted_or_absent (version_pattern (validation cfg)) d "version" ->
  (forall section, In section REQUIRED_SECTIONS -> has_section content section = true) ->
  validate_skill safe_load cfg fs path = Ok (ValidationResult true [] (Some (PyDict d))).
Proof. apply validate_skill_checked. Qed.

Lemma match_value_not_text (p : pattern) (v : pyval) :
  not_text v -> match_value p v = Raise TypeError.
Proof.
  intros H. destruct v as [[| | | |s|]|l|d]; try reflexivity.
  exfalso. now apply (H s).
Qed.

(** The run of [validate_skill] on a name or a version that is not text. *)
Lemma validate_skill_not_text (cfg : config) (fs : filesystem) (path content : string)
    (d : dict) (v : pyval) :
  fs path = File content ->
  extract_frontmatter safe_load content = Ok (PyDict d) ->
  not_text v ->
  dict_get (SStr "name") d = Some v \/
  (text_or_absent d "name" /\ dict_get (SStr "version") d = Some v) ->
  validate_skill safe_load cfg fs path = Raise TypeError.
Proof.
  intros Hfs Hex Hv Hcase.
  unfold validate_skill, path_exists, read_text. rewrite Hfs. cbn [negb bind].
  rewrite Hex. cbn [bind].
  assert (Ht : truthy (PyDict d) = true).
  { destruct d; [|reflexivity]. destruct Hcase as [H|[_ H]]; discriminate H. }
  rewrite Ht. cbn [negb].
  destruct (required_fields_loop_dict (required_fields (validation cfg)) d [])
    as [e1 ->]. cbn [bind contains getitem]. unfold dict_mem.
  destruct Hcase as [Hn|[Hn Hver]].
  - rewrite Hn. cbn [bind]. now rewrite (match_value_not_text _ v Hv).
  - unfold text_or_absent in Hn.
    destruct (dict_get (SStr "name") d) as [vn|].
    + destruct Hn as [s ->]. cbn [bind match_value PyStr].
      destruct (re_match _ s); cbn [bind]; rewrite Hver; cbn [bind];
        now rewrite (match_value_not_text _ v Hv).
    + cbn [bind]. rewrite Hver. cbn [bind].
      now rewrite (match_value_not_text _ v Hv).
Qed.

(** X3.  A name that is not text (a number, a truth value, a date, a list),
    or a version that is not text beside a name that is text or absent,
    makes [validate_skill] raise [TypeError]: [re.match] is called on the
    value as it is.  This holds under the default configuration and under
    every configuration that holds the four options, which are the
    configurations of [config]. *)
Theorem non_text_format_raises (cfg : config) (fs : filesystem) (path content : string)
    (d : dict) (v : pyval) :
  fs path = File content ->
  extract_frontmatter safe_load content = Ok (PyDict d) ->
  not_text v ->
  dict_get (SStr "name") d = Some v \/
  (text_or_absent d "name" /\ dict_get (SStr "version") d = Some v) ->
  validate_skill safe_load cfg fs path = Raise TypeError.
Proof. apply validate_skill_not_text. Qed.

(** X4.  A header block that parses to a number, a truth value or a date
    that is not falsy makes [validate_skill] raise [TypeError], at the
    first membership test on it.  This holds under the default
    configuration and under every configuration that holds the four
    options, which are the configurations of [config]. *)
Theorem scalar_header_raises (cfg : config) (fs : filesystem) (path content : string)
    (a : scalar) :
  fs path = File content ->
  extract_frontmatter safe_load content = Ok (PyAtom a) ->
  scalar_truthy a = true ->
  (forall s, a <> SStr s) ->
  validate_skill safe_load cfg fs path = Raise TypeError.
Proof.
  intros Hfs Hex Ht Ha.
  unfold validate_skill, path_exists, read_text. rewrite Hfs. cbn [negb bind].
  rewrite Hex. cbn [bind truthy]. rewrite Ht. cbn [negb].
  assert (Hc : forall field, contains field (PyAtom a) = Raise TypeError).
  { intros field. destruct a; try reflexivity. exfalso. now apply (Ha s). }
  destruct (required_fields (validation cfg)) as [|f fields];
    cbn [required_fields_loop bind]; now rewrite Hc.
Qed.

End ValidatorMore.

(* ===================================================================== *)
(** ** The required sections *)
(* ===================================================================== *)

Section SectionFacts.
Import Py Re SkillValidator SkillCatalog Spec Notions.

Lemma search_found (r : regex) (post : string) (m : mstate) : forall pre b,
  run r (MState (last_of pre b) post []) Some = Some m ->
  exists m', search_from r b (pre ++ post) = Some m'.
Proof.
  induction pre as [|c pre IH]; cbn [append last_of]; intros b H.
  - destruct post; cbn [search_from]; rewrite H; eauto.
  - cbn [search_from]. destruct (run r (MState b (String c (pre ++ post)) []) Some); eauto.
Qed.

Lemma at_line_start (pre : string) :
  line_start pre -> at_bol true (MState (last_of pre None) "" []) = true.
Proof.
  intros [->|[p ->]]; [reflexivity|].
  rewrite last_of_app. unfold at_bol, nl. cbn [prev last_of]. now rewrite Ascii.eqb_refl.
Qed.

Lemma heading_found (pre ws section rest : string) (w : ascii) :
  line_start pre ->
  is_space w = true ->
  all_space ws = true ->
  has_section (pre ++ "##" ++ String w ws ++ section ++ rest) section = true.
Proof.
  intros Hpre Hw Hws. unfold has_section, re_search.
  set (k3 := fun st : mstate => run (Lit section) st (fun st' => run Empty st' Some)).
  assert (Hk : exists m, star is_space true
                 (MState (last_of ws (Some w)) (section ++ rest) []) k3 = Some m).
  { eapply star_greedy_some. unfold k3. rewrite run_Lit_app. reflexivity. }
  destruct Hk as [m Hm].
  destruct (search_found (section_re section)
              ("##" ++ String w ws ++ section ++ rest) m pre None) as [m' Hm'].
  - unfold section_re, cat, Plus. cbn [fold_right].
    change (run (Seq (Bol true) ?r) ?st ?k) with (if at_bol true st then run r st k else None).
    assert (Hb : at_bol true (MState (last_of pre None) ("##" ++ String w ws ++ section ++ rest) []) = true).
    { pose proof (at_line_start pre Hpre) as H. unfold at_bol in *. exact H. }
    rewrite Hb.
    change (run (Seq (Lit "##") ?r) ?st ?k) with (run (Lit "##") st (fun st' => run r st' k)).
    rewrite run_Lit_app.
    cbn [run append after]. rewrite Hw. unfold step. cbn [after caps].
    change (star_loop (run (Chr is_space)) true (String.length ?s) ?st ?k)
      with (star is_space true st k).
    apply star_greedy_skip; [now apply all_space_forallb|exact Hm].
  - now rewrite Hm'.
Qed.

Lemma section_message_absent (content section : string) :
  has_section content section = true ->
  ~ In ("Missing required section: " ++ section) (_validate_content content).
Proof.
  intros H Hin. rewrite validate_content_spec in Hin. unfold missing_section_errors in Hin.
  apply in_map_iff in Hin as (s & Heq & Hs).
  apply filter_In in Hs as [_ Hs].
  cbn [append] in Heq. inversion Heq; subst s.
  now rewrite H in Hs.
Qed.

(** X5.  A line that begins with two hash marks, white space and the name
    of a section satisfies the check of [_validate_content] for that
    section, whatever follows the name on the line. *)
Theorem heading_satisfies_section (pre ws section rest : string) (w : ascii) :
  line_start pre ->
  is_space w = true ->
  all_space ws = true ->
  ~ In ("Missing required section: " ++ section)
       (_validate_content (pre ++ "##" ++ String w ws ++ section ++ rest)).
Proof.
  intros Hpre Hw Hws. apply section_message_absent. now apply heading_found.
Qed.

Lemma no_heading_search (section : string) : forall s b,
  (b = None \/ b = Some newline -> String.prefix "##" s = false) ->
  str_contains (nl ++ "##") s = false ->
  search_from (section_re section) b s = None.
Proof.
  assert (Hrun : forall s b,
            (b = None \/ b = Some newline -> String.prefix "##" s = false) ->
            run (section_re section) (MState b s []) Some = None).
  { intros s b H. unfold section_re, cat. cbn [fold_right].
    change (run (Seq (Bol true) ?r) ?st ?k) with (if at_bol true st then run r st k else None).
    unfold at_bol. cbn [prev].
    destruct b as [c|].
    - destruct (Ascii.eqb_spec c newline) as [->|_]; [|reflexivity]. cbn [andb].
      change (run (Seq (Lit "##") ?r) ?st ?k) with (run (Lit "##") st (fun st' => run r st' k)).
      apply run_Lit_fail. cbn [after]. apply H. now right.
    - change (run (Seq (Lit "##") ?r) ?st ?k) with (run (Lit "##") st (fun st' => run r st' k)).
      apply run_Lit_fail. cbn [after]. apply H. now left. }
  induction s as [|c s IH]; intros b Hb Hc; cbn [search_from]; rewrite (Hrun _ b Hb);
    [reflexivity|].
  apply IH.
  - intros Hline. cbn [str_contains] in Hc. apply orb_false_iff in Hc as [Hp _].
    destruct Hline as [Habs|Heq]; [discriminate|]. inversion Heq; subst c.
    unfold nl in Hp. cbn [append] in Hp. rewrite prefix_cons in Hp.
    now rewrite Ascii.eqb_refl in Hp.
  - cbn [str_contains] in Hc. now apply orb_false_iff in Hc as [_ Hc].
Qed.

(** X6.  When no line of the text begins with two hash marks,
    [_validate_content] reports the three sections as missing, in the order
    Overview, Instructions, Examples. *)
Theorem no_heading_all_sections_missing (content : string) :
  String.prefix "##" content = false ->
  str_contains (nl ++ "##") content = false ->
  _validate_content content =
  ["Missing required section: Overview";
   "Missing required section: Instructions";
   "Missing required section: Examples"].
Proof.
  intros Hp Hc. unfold _validate_content, re_search.
  cbn [fold_left]. rewrite !no_heading_search by auto. reflexivity.
Qed.

End SectionFacts.

(* ===================================================================== *)
(** ** Header blocks that are found and that are not *)
(* ===================================================================== *)

Section ExtractorMore.
Import Py Re SkillValidator SkillCatalog Spec Notions.

Variable safe_load : string -> result pyval.

(** X7.  A text that does not begin with three hyphens has no metadata:
    [extract_frontmatter] returns [None], whatever the parser makes of the
    text. *)
Theorem no_leading_delimiter (content : string) :
  String.prefix "---" content = false ->
  extract_frontmatter safe_load content = Ok PyNone.
Proof.
  intros H. apply extract_frontmatter_no_block.
  unfold block_absent, re_match, FRONTMATTER_RE, cat. cbn [fold_right].
  change (run (Seq (Bol false) ?r) ?st ?k) with (if at_bol false st then run r st k else None).
  cbn [at_bol prev].
  change (run (Seq (Lit "---") ?r) ?st ?k) with (run (Lit "---") st (fun st' => run r st' k)).
  now apply run_Lit_fail.
Qed.

Lemma extract_framed (blank text rest : string) :
  blank_lines blank = true ->
  first_line_has_text text = true ->
  no_delimiter_line text = true ->
  extract_frontmatter safe_load (framed blank text rest) = swallow (safe_load text).
Proof.
  intros Hb Ht Hd.
  destruct (frontmatter_match blank text rest Hb Ht Hd) as (m & Hm & Hg).
  unfold extract_frontmatter, swallow. now rewrite Hm, Hg.
Qed.

(** X8.  What [extract_frontmatter] returns for a framed document does not
    depend on the text after the closing line of the header block. *)
Theorem extraction_ignores_rest (blank text rest rest' : string) :
  blank_lines blank = true ->
  first_line_has_text text = true ->
  no_delimiter_line text = true ->
  extract_frontmatter safe_load (framed blank text rest)
  = extract_frontmatter safe_load (framed blank text rest').
Proof.
  intros Hb Ht Hd. now rewrite !extract_framed.
Qed.

Lemma star_none (p : ascii -> bool) (g : bool) (k : cont) (cs : list (nat * string)) :
  forall s b,
    (forall u1 u2 b', s = u1 ++ u2 -> k (MState b' u2 cs) = None) ->
    star p g (MState b s cs) k = None.
Proof.
  induction s as [|c s IH]; intros b H.
  - rewrite star_nil. apply (H "" "" b). reflexivity.
  - rewrite star_cons. cbn zeta.
    assert (Hk : k (MState b (String c s) cs) = None) by (apply (H "" _ b); reflexivity).
    assert (Hs : star p g (MState (Some c) s cs) k = None).
    { apply IH. intros u1 u2 b' ->. apply (H (String c u1) u2 b'). reflexivity. }
    rewrite Hk, Hs. now destruct g, (p c).
Qed.

Lemma app_split (a b : string) : forall u1 u2,
  a ++ b = u1 ++ u2 ->
  (exists t, a = u1 ++ t /\ u2 = t ++ b) \/ (exists t, u1 = a ++ t /\ b = t ++ u2).
Proof.
  induction a as [|c a IH]; intros u1 u2 H; cbn [append] in H.
  - right. exists u1. split; [reflexivity|exact H].
  - destruct u1 as [|c' u1]; cbn [append] in H.
    + left. exists (String c a). split; [reflexivity|]. now rewrite <- H.
    + inversion H; subst c'. destruct (IH _ _ H2) as [(t & -> & ->)|(t & -> & ->)].
      * left. exists t. now split.
      * right. exists t. now split.
Qed.

Lemma single_line_suffix (u1 u2 : string) :
  single_line (u1 ++ u2) = true -> single_line u2 = true.
Proof.
  induction u1 as [|c u1 IH]; cbn [append single_line]; [trivial|].
  intros H. apply andb_true_iff in H as [_ H]. auto.
Qed.

Lemma single_line_start (s : string) :
  single_line s = true -> starts_with_newline s = false.
Proof.
  destruct s as [|c s]; cbn [single_line starts_with_newline]; [reflexivity|].
  intros H. apply andb_true_iff in H as [H _]. now apply negb_true_iff in H.
Qed.

Lemma prefix_needs_newline (d s : string) :
  starts_with_newline s = false -> String.prefix (nl ++ d) s = false.
Proof.
  destruct s as [|c s]; [reflexivity|]. cbn [starts_with_newline]. intros H.
  unfold nl. cbn [append]. rewrite prefix_cons. now rewrite H.
Qed.

Lemma no_early_delimiter_gen (u2 x : string) :
  String.prefix (nl ++ "---") u2 = false ->
  u2 <> "" ->
  String.prefix (nl ++ "---") (u2 ++ nl ++ x) = false.
Proof.
  intros H Hne. unfold nl in *. cbn [append] in *.
  destruct u2 as [|c1 u2]; [congruence|]. cbn [append].
  rewrite prefix_cons in *.
  destruct (Ascii.eqb newline c1); [|reflexivity]. cbn [andb] in *.
  destruct u2 as [|c2 u2]; cbn [append]; [reflexivity|].
  rewrite prefix_cons in *.
  destruct (Ascii.eqb "-" c2); [|reflexivity]. cbn [andb] in *.
  destruct u2 as [|c3 u2]; cbn [append]; [reflexivity|].
  rewrite prefix_cons in *.
  destruct (Ascii.eqb "-" c3); [|reflexivity]. cbn [andb] in *.
  destruct u2 as [|c4 u2]; cbn [append]; [reflexivity|].
  rewrite prefix_cons in *.
  destruct (Ascii.eqb "-" c4); [|reflexivity]. cbn [andb] in *.
  now rewrite prefix_nil_l in H.
Qed.

(** Behind an open header, the closing line of the pattern matches at no
    position. *)
Lemma no_closing_line (text tail before rest : string) (b : option ascii)
    (cs : list (nat * string)) :
  no_delimiter_line text = true ->
  open_end tail ->
  text ++ tail = before ++ rest ->
  run (Lit (nl ++ "---")) (MState b rest cs)
    (fun st => run (Star true (Chr is_space)) st
       (fun st' => run (Lit nl) st' (fun st'' => run Empty st'' Some)))
  = None.
Proof.
  intros Hdelim Htail Hsplit. apply negb_true_iff in Hdelim.
  set (K3 := fun st : mstate => run (Lit nl) st (fun st' => run Empty st' Some)).
  assert (Hk3 : forall s b0 cs0, single_line s = true ->
                  star is_space true (MState b0 s cs0) K3 = None).
  { intros s b0 cs0 Hs. apply star_none. intros u1 u2 b' ->.
    unfold K3. apply run_Lit_fail. cbn [after].
    replace nl with (nl ++ "") by reflexivity.
    apply prefix_needs_newline, single_line_start.
    eapply single_line_suffix; eauto. }
  apply app_split in Hsplit as [(t2 & Ht & ->)|(t1 & -> & Ht)].
  - (* the position is inside the body *)
    destruct t2 as [|c2 t2].
    + cbn [append]. destruct Htail as [->|(trail & -> & Htrail)].
      * now apply run_Lit_fail.
      * rewrite <- (app_assoc_s nl "---" trail). rewrite run_Lit_app.
        rewrite run_star. now apply Hk3.
    + apply run_Lit_fail. cbn [after].
      assert (Hp : String.prefix (nl ++ "---") (String c2 t2) = false).
      { apply contains_prefix. apply (contains_suffix _ before). now rewrite <- Ht. }
      destruct Htail as [->|(trail & -> & Htrail)].
      * cbn [append]. now rewrite append_empty.
      * apply no_early_delimiter_gen; [exact Hp|discriminate].
  - (* the position is behind the body *)
    destruct Htail as [->|(trail & -> & Htrail)].
    + destruct t1; [|discriminate]. cbn [append] in Ht. subst rest.
      now apply run_Lit_fail.
    + destruct t1 as [|c1 t1].
      * change ("" ++ rest) with rest in Ht. subst rest.
        rewrite <- (app_assoc_s nl "---" trail). rewrite run_Lit_app.
        rewrite run_star. now apply Hk3.
      * apply run_Lit_fail. cbn [after].
        apply prefix_needs_newline, single_line_start.
        unfold nl in Ht. cbn [append] in Ht. inversion Ht as [[Hc1 Hrest]].
        apply (single_line_suffix t1). rewrite <- Hrest.
        cbn [single_line append]. exact Htrail.
Qed.

(** X9.  A header block that is not closed gives no metadata: when the
    text after the opening line has no later line that begins with three
    hyphens, or only a last line that begins with three hyphens and has no
    line feed after it, [extract_frontmatter] returns [None], whatever the
    lines after the opening line are, blank lines included. *)
Theorem unclosed_header_absent (text tail : string) :
  no_delimiter_line text = true ->
  open_end tail ->
  extract_frontmatter safe_load ("---" ++ nl ++ text ++ tail) = Ok PyNone.
Proof.
  intros Hdelim Htail. apply extract_frontmatter_no_block.
  set (K3 := fun st : mstate => run (Lit nl) st (fun st' => run Empty st' Some)).
  set (K2 := fun st : mstate =>
               run (Lit (nl ++ "---")) st (fun st' => run (Star true (Chr is_space)) st' K3)).
  set (K1 := fun st : mstate =>
               run (Lit nl) st (fun st' => run (Group 1 (Star false (Chr any_char))) st' K2)).
  assert (Hgroup : forall before rest b cs,
            text ++ tail = before ++ rest ->
            run (Group 1 (Star false (Chr any_char))) (MState b rest cs) K2 = None).
  { intros before rest b cs Hsplit. cbn [run after].
    change (star_loop (run (Chr any_char)) false (String.length rest) ?st ?k)
      with (star any_char false st k).
    apply star_none. intros u1 u2 b' ->. cbn [prev after caps].
    apply (no_closing_line text tail (before ++ u1) u2); [exact Hdelim|exact Htail|].
    now rewrite app_assoc_s. }
  unfold block_absent, re_match, FRONTMATTER_RE, cat. cbn [fold_right].
  change (run (Seq (Bol false) ?r) ?st ?k) with (if at_bol false st then run r st k else None).
  cbn [at_bol prev].
  change (run (Seq (Lit "---") ?r) ?st ?k) with (run (Lit "---") st (fun st' => run r st' k)).
  rewrite run_Lit_app.
  change (run (Seq (Star true (Chr is_space)) ?r) ?st ?k)
    with (star is_space true st (fun st' => run r st' k)).
  change (star is_space true ?st _) with (star is_space true st K1).
  apply star_none. intros u1 u2 b' Hsplit.
  unfold K1. destruct u2 as [|c u2]; [reflexivity|].
  destruct (Ascii.eqb_spec newline c) as [<-|Hc].
  - change (String newline u2) with (nl ++ u2). rewrite run_Lit_app.
    destruct u1 as [|c1 u1].
    + unfold nl in Hsplit. cbn [append] in Hsplit. injection Hsplit as Hrest.
      apply (Hgroup "" u2). exact Hrest.
    + unfold nl in Hsplit. cbn [append] in Hsplit. injection Hsplit as Hc1 Hrest.
      apply (Hgroup (u1 ++ nl) u2). rewrite Hrest. now rewrite app_assoc_s.
  - apply run_Lit_fail. unfold nl. cbn [after]. rewrite prefix_cons.
    apply Ascii.eqb_neq in Hc. now rewrite Hc.
Qed.

End ExtractorMore.

(* ===================================================================== *)
(** ** The entries of the catalog *)
(* ===================================================================== *)

Section CatalogMore.
Import Py Re SkillValidator SkillCatalog Spec Notions.

Variable safe_load : string -> result pyval.

Lemma discovered_entries : forall files entries,
  Discovered safe_load files entries ->
  entries = flat_map (entry_for safe_load) files.
Proof.
  induction 1 as [|rel content fm files entries E T HD IH
                  |rel content d files entries E T HD IH]; cbn [flat_map].
  - reflexivity.
  - unfold entry_for at 1. cbn [fst snd]. rewrite E.
    destruct fm as [a|l|d]; [exact IH|exact IH|]. rewrite T. exact IH.
  - unfold entry_for at 1. cbn [fst snd]. rewrite E, T. cbn [app]. now rewrite IH.
Qed.

(** X12.  The list that [_discover_skills] returns is a rearrangement of
    the entries of the files: one entry, the header with its path, for each
    file whose header is a mapping that is not empty, and none for the
    other files. *)
Theorem discover_skills_entries (files : skill_files) (skills : list dict) :
  _discover_skills safe_load files = Ok skills ->
  Permutation skills (flat_map (entry_for safe_load) files) /\
  List.length skills = List.length (flat_map (entry_for safe_load) files).
Proof.
  intros H.
  destruct (discover_skills_inv safe_load files skills H) as (entries & HD & _ & Hp).
  rewrite <- (discovered_entries files entries HD).
  split; [now apply Permutation_sym|].
  apply Permutation_length. now apply Permutation_sym.
Qed.

(** X14.  One file whose header parses to a list, a text or a number that
    is not falsy makes [_discover_skills] raise [TypeError] when the files
    before it are read without error, whatever the files after it are. *)
Theorem discover_skills_not_mapping (before after : skill_files)
    (relative content : string) (v : pyval) (skills : list dict) :
  discover_loop safe_load before [] = Ok skills ->
  extract_frontmatter safe_load content = Ok v ->
  not_mapping v ->
  _discover_skills safe_load (before ++ (relative, content) :: after)%list
  = Raise TypeError.
Proof.
  intros Hb Hex [Ht Hv]. unfold _discover_skills.
  rewrite discover_loop_app, Hb. cbn [bind discover_loop]. rewrite Hex. cbn [bind].
  rewrite Ht. destruct v as [a|l|d]; try reflexivity. exfalso. now apply (Hv d).
Qed.

(** The stable order of the sort. *)
Lemma place_filter {A : Type} (name : A -> string) (n : string) (x : A) : forall l,
  StronglySorted (by_name name) l ->
  filter (fun y => name y =? n) (place name x l)
  = (filter (fun y => name y =? n) l ++ (if name x =? n then [x] else []))%list.
Proof.
  induction 1 as [|y l Hs IH Hy]; cbn [place filter].
  - now rewrite app_nil_r || reflexivity.
  - destruct (name x <? name y) eqn:E.
    + cbn [filter]. destruct (name x =? n) eqn:Ex; [|now rewrite app_nil_r].
      apply String.eqb_eq in Ex.
      assert (Hnone : filter (fun y0 => name y0 =? n) (y :: l) = []).
      { apply filter_none. intros z Hz.
        assert (Hle : (name y <=? name z) = true).
        { destruct Hz as [<-|Hz]; [apply leb_refl|].
          rewrite Forall_forall in Hy. apply Hy, Hz. }
        destruct (name z =? n) eqn:Ez; [|reflexivity].
        apply String.eqb_eq in Ez. exfalso.
        assert (Hxy : (name y <=? name x) = true) by (rewrite Ex, <- Ez; exact Hle).
        apply ltb_leb in E as Hxy'.
        pose proof (String.leb_antisym _ _ Hxy' Hxy) as Heq.
        rewrite Heq, ltb_irrefl in E. discriminate. }
      cbn [filter] in Hnone. rewrite Hnone. reflexivity.
    + cbn [filter]. rewrite IH. now destruct (name y =? n).
Qed.

Lemma arrange_filter {A : Type} (name : A -> string) (n : string) (l : list A) :
  filter (fun y => name y =? n) (arrange name l) = filter (fun y => name y =? n) l.
Proof.
  unfold arrange.
  assert (G : forall acc, StronglySorted (by_name name) acc ->
     filter (fun y => name y =? n) (fold_left (fun acc x => place name x acc) l acc)
     = (filter (fun y => name y =? n) acc ++ filter (fun y => name y =? n) l)%list).
  { induction l as [|x l IH]; cbn [fold_left filter]; intros acc Hacc.
    - now rewrite app_nil_r.
    - rewrite IH by now apply place_sorted. rewrite place_filter by assumption.
      rewrite <- app_assoc. now destruct (name x =? n). }
  rewrite G by constructor. reflexivity.
Qed.

(** X13.  The sort of [_discover_skills] is stable: the entries of one
    name come in the order in which their files were found. *)
Theorem discover_skills_stable (files : skill_files) (skills : list dict) (n : string) :
  _discover_skills safe_load files = Ok skills ->
  Forall name_is_text skills ->
  filter (fun d => name_of d =? n) skills
  = filter (fun d => name_of d =? n) (flat_map (entry_for safe_load) files).
Proof.
  intros H Ht.
  destruct (discover_skills_inv safe_load files skills H) as (entries & HD & Hs & Hp).
  assert (Hte : Forall name_is_text entries)
    by (eapply Permutation_Forall; [apply Permutation_sym; exact Hp|exact Ht]).
  rewrite (discover_skills_text safe_load files entries HD Hte) in H.
  inversion H; subst skills.
  rewrite arrange_filter. now rewrite (discovered_entries files entries HD).
Qed.

Lemma py_lt_not_text (v : pyval) (s : string) :
  not_text v -> py_lt v (PyStr s) = Raise TypeError.
Proof.
  intros H. destruct v as [a|l|d]; [|reflexivity|reflexivity].
  destruct a as [| | | |t|]; try reflexivity.
  exfalso. now apply (H t).
Qed.

(** X24.  Names that do not compare stop the catalog: when the entries
    found so far have names that are text and the next entry has a name
    that is not text (a number, a date, a list), the sort of
    [_discover_skills] raises [TypeError]. *)
Theorem discover_skills_mixed_names (files : skill_files) (before after : list dict)
    (entry : dict) :
  discover_loop safe_load files [] = Ok (before ++ entry :: after)%list ->
  before <> [] ->
  Forall name_is_text before ->
  not_text (name_key entry) ->
  _discover_skills safe_load files = Raise TypeError.
Proof.
  intros Hloop Hne Htext Hentry. unfold _discover_skills. rewrite Hloop. cbn [bind].
  fold name_key. unfold sorted. rewrite fold_left_app.
  change (fold_left (fun acc x => bind acc (insert name_key x)) before (Ok []))
    with (sorted name_key before).
  rewrite (sorted_text name_of name_key)
    by (eapply Forall_impl; [|exact Htext]; intros d; apply name_text_key).
  pose proof (arrange_perm name_of before) as Hperm.
  destruct (arrange name_of before) as [|first rest] eqn:Ha.
  - apply Permutation_sym, Permutation_nil in Hperm. contradiction.
  - assert (Hfirst : name_is_text first).
    { rewrite Forall_forall in Htext. apply Htext.
      eapply Permutation_in; [apply Permutation_sym; exact Hperm|now left]. }
    destruct Hfirst as [s Hs].
    cbn [fold_left bind insert]. rewrite Hs, (py_lt_not_text _ s Hentry). cbn [bind].
    apply fold_raise.
Qed.

End CatalogMore.

(* ===================================================================== *)
(** ** The lines of the markdown catalog *)
(* ===================================================================== *)

Section MarkdownMore.
Import Py Re SkillValidator SkillCatalog Spec Notions.

Variable format_other : pyval -> string.
Variable now_isoformat : string.

(** What [catalog_lines] runs when every category is text. *)
Lemma catalog_lines_run (skills : list dict) :
  Forall category_is_text skills ->
  exists t cats,
    catalog_lines format_other now_isoformat skills
    = sections_loop format_other cats t (preamble now_isoformat (List.length skills)) /\
    (forall k, In k cats ->
       exists c, k = SStr c /\ table_get k t = Some (filter (in_category c) skills)) /\
    NoDup (map label_of cats) /\
    (forall c, In c (map label_of cats) <->
               exists skill, In skill skills /\ category_of skill = PyStr c).
Proof.
  intros Htext. unfold catalog_lines.
  rewrite (group_loop_text skills [] Htext). cbn [bind].
  set (t := fold_left _ skills []).
  destruct (grouped_fold skills [] [] Htext grouped_nil) as (Ha & Hb & Hc).
  cbn [app] in Ha, Hb, Hc. fold t in Ha, Hb, Hc.
  assert (Hkeys : Forall (fun k => PyAtom k = PyStr (label_of k)) (map fst t)).
  { rewrite Forall_forall in *. intros k Hk.
    apply in_map_iff in Hk as (kv & <- & Hkv).
    destruct (Ha _ Hkv) as (c & -> & _). reflexivity. }
  rewrite (sorted_text label_of PyAtom (map fst t) Hkeys). cbn [bind].
  set (cats := arrange label_of (map fst t)).
  assert (Hperm : Permutation (map fst t) cats) by apply arrange_perm.
  assert (Hcat : forall k, In k cats ->
            exists c, k = SStr c /\ table_get k t = Some (filter (in_category c) skills)).
  { intros k Hk. apply (Permutation_in _ (Permutation_sym Hperm)) in Hk.
    apply in_map_iff in Hk as ([k' ms] & <- & Hkv).
    rewrite Forall_forall in Ha. destruct (Ha _ Hkv) as (c & Hk' & Hms).
    cbn [fst snd] in *. subst k' ms. exists c. split; [reflexivity|].
    now apply table_get_in. }
  exists t, cats. split; [reflexivity|]. split; [exact Hcat|]. split.
  - apply map_nodup; [|eapply Permutation_NoDup; eauto].
    intros x y Hx Hy. destruct (Hcat x Hx) as (cx & -> & _).
    destruct (Hcat y Hy) as (cy & -> & _). cbn. now intros ->.
  - intros c. rewrite <- Hc. split.
    + intros Hin. apply in_map_iff in Hin as (k & <- & Hk).
      destruct (Hcat k Hk) as (c' & -> & _). cbn [label_of].
      now apply (Permutation_in _ (Permutation_sym Hperm)).
    + intros Hin. apply in_map_iff. exists (SStr c). split; [reflexivity|].
      now apply (Permutation_in _ Hperm).
Qed.

Lemma flat_map_nil {A B : Type} (l : list A) : flat_map (fun _ : A => @nil B) l = [].
Proof. induction l; cbn; auto. Qed.

Lemma filed_cons_other (skill : dict) (rest : list dict) (labels : list string) (c : string) :
  category_of skill = PyStr c ->
  ~ In c labels ->
  filed (skill :: rest) labels = filed rest labels.
Proof.
  intros Hc Hn. unfold filed.
  induction labels as [|c' labels IH]; cbn [flat_map]; [reflexivity|].
  rewrite IH by (intros Hin; apply Hn; now right). f_equal.
  cbn [filter]. destruct (in_category c' skill) eqn:E; [|reflexivity].
  apply in_category_iff in E. rewrite Hc in E. inversion E; subst.
  exfalso. apply Hn. now left.
Qed.

(** Every skill is filed under exactly one of the categories. *)
Lemma filed_partition (labels : list string) : forall skills,
  NoDup labels ->
  (forall skill, In skill skills ->
     exists c, category_of skill = PyStr c /\ In c labels) ->
  Permutation (filed skills labels) skills.
Proof.
  induction skills as [|skill skills IH]; intros Hnd Hcov.
  - unfold filed. cbn [filter]. now rewrite flat_map_nil.
  - destruct (Hcov skill (or_introl eq_refl)) as (c & Hc & Hin).
    apply in_split in Hin as (l1 & l2 & ->).
    apply NoDup_remove_2 in Hnd as Hnot.
    assert (Hn1 : ~ In c l1) by (intros H; apply Hnot, in_or_app; now left).
    assert (Hn2 : ~ In c l2) by (intros H; apply Hnot, in_or_app; now right).
    assert (IH' : Permutation (filed skills (l1 ++ c :: l2)) skills).
    { apply IH; [exact Hnd|]. intros s Hs. apply Hcov. now right. }
    unfold filed in *. rewrite flat_map_app in *. cbn [flat_map] in *.
    fold (filed (skill :: skills) l1). fold (filed (skill :: skills) l2).
    fold (filed skills l1) in IH'. fold (filed skills l2) in IH'.
    rewrite (filed_cons_other skill skills l1 c Hc Hn1).
    rewrite (filed_cons_other skill skills l2 c Hc Hn2).
    cbn [filter]. rewrite (proj2 (in_category_iff c skill) Hc).
    cbn [app]. rewrite <- Permutation_middle. now apply perm_skip.
Qed.

Lemma entry_lines_length (skill : dict) (block : list string) :
  entry_lines format_other skill = Ok block -> List.length block = 4.
Proof.
  unfold entry_lines.
  destruct (join ", " (get skill "tags" (PyList []))); cbn [bind]; [|discriminate].
  intros H; inversion H. reflexivity.
Qed.

Lemma entries_loop_length : forall members body,
  entries_loop format_other members [] = Ok body ->
  List.length body = 4 * List.length members /\
  Forall (fun skill => exists block, entry_lines format_other skill = Ok block) members.
Proof.
  induction members as [|skill members IH]; cbn [entries_loop]; intros body H.
  - inversion H. split; [reflexivity|constructor].
  - destruct (entry_lines format_other skill) as [block|] eqn:E; cbn [bind] in H;
      [|discriminate].
    rewrite entries_loop_shift in H.
    destruct (entries_loop format_other members []) as [b|]; cbn [bind] in H;
      [|discriminate].
    inversion H; subst body. destruct (IH b eq_refl) as [Hl Hf].
    split.
    + cbn [app]. rewrite List.length_app, (entry_lines_length skill block E), Hl.
      cbn [List.length]. lia.
    + constructor; [eauto|exact Hf].
Qed.

Lemma sections_length : forall labels bodies (members : string -> list dict),
  Forall2 (fun c body => entries_loop format_other (members c) [] = Ok body) labels bodies ->
  List.length (sections labels bodies)
  = List.length labels + 4 * List.length (flat_map members labels).
Proof.
  induction 1 as [|c body labels bodies Hb HF IH]; [reflexivity|].
  unfold sections in *. cbn [combine map concat fst snd flat_map List.length].
  rewrite !List.length_app, IH. cbn [List.length].
  destruct (entries_loop_length _ _ Hb) as [-> _]. lia.
Qed.

(** X15.  The markdown catalog renders every skill once, under its
    category: the lines are the preamble followed by the sections, the
    sections hold the skills of their category, all sections together hold
    the skills, and there are 3 lines of preamble, one heading for each
    category and 4 lines for each skill. *)
Theorem catalog_lists_each_skill_once (skills : list dict) (lines : list string) :
  Forall category_is_text skills ->
  catalog_lines format_other now_isoformat skills = Ok lines ->
  exists labels bodies,
    lines = (preamble now_isoformat (List.length skills) ++ sections labels bodies)%list /\
    Forall2 (fun c body =>
               entries_loop format_other (filter (in_category c) skills) [] = Ok body)
            labels bodies /\
    Permutation (filed skills labels) skills /\
    List.length lines = 3 + List.length labels + 4 * List.length skills.
Proof.
  intros Htext Hrun.
  destruct (catalog_lines_run skills Htext) as (t & cats & Heq & Hcat & Hnd & Hcov).
  rewrite Heq in Hrun.
  apply (sections_loop_spec format_other skills t cats _ _ Hcat) in Hrun
    as (bodies & HF & ->).
  assert (Hp : Permutation (filed skills (map label_of cats)) skills).
  { apply filed_partition; [exact Hnd|]. intros skill Hin.
    rewrite Forall_forall in Htext. destruct (Htext skill Hin) as [c Hc].
    exists c. split; [exact Hc|]. apply Hcov. eauto. }
  exists (map label_of cats), bodies. repeat (split; [assumption||reflexivity|]).
  rewrite List.length_app. rewrite (sections_length _ _ _ HF).
  fold (filed skills (map label_of cats)).
  rewrite (Permutation_length Hp). cbn [preamble List.length]. lia.
Qed.

Lemma join_raises (sep : string) (x : pyval) (e : exn) :
  join sep x = Raise e -> e = TypeError.
Proof.
  assert (G : forall l e, all_strings l = Raise e -> e = TypeError).
  { induction l as [|v l IH]; cbn [all_strings]; intros e0 H; [discriminate|].
    destruct v as [[| | | |s|]|?|?]; try (now inversion H).
    destruct (all_strings l) as [r|e1]; cbn [bind] in H; [discriminate|].
    inversion H; subst. now apply IH. }
  destruct x as [[| | | |s|]|l|d]; cbn [join]; intros H;
    first [ discriminate
          | now inversion H
          | match type of H with
            | bind ?a _ = _ =>
                destruct a as [r|e1] eqn:E; cbn [bind] in H;
                [discriminate|inversion H; subst; eapply G; eauto]
            end ].
Qed.

Lemma entries_loop_raises : forall members acc e,
  entries_loop format_other members acc = Raise e -> e = TypeError.
Proof.
  induction members as [|skill members IH]; cbn [entries_loop]; intros acc e H;
    [discriminate|].
  unfold entry_lines in H.
  destruct (join ", " (get skill "tags" (PyList []))) as [tags|e1] eqn:E;
    cbn [bind] in H.
  - eapply IH; eauto.
  - inversion H; subst. eapply join_raises; eauto.
Qed.

Lemma sections_loop_raises (skills : list dict) (t : list (scalar * list dict)) :
  forall cats lines0 e,
    (forall k, In k cats ->
       exists c, k = SStr c /\ table_get k t = Some (filter (in_category c) skills)) ->
    sections_loop format_other cats t lines0 = Raise e -> e = TypeError.
Proof.
  induction cats as [|k cats IH]; cbn [sections_loop]; intros lines0 e Hk H;
    [discriminate|].
  destruct (Hk k (or_introl eq_refl)) as (c & -> & Hget).
  cbn [title_method bind] in H. rewrite Hget in H. cbn [bind] in H.
  destruct (entries_loop format_other _ _) as [ls|e1] eqn:E; cbn [bind] in H.
  - eapply IH; [|exact H]. intros k' Hk'. apply Hk. now right.
  - inversion H; subst. eapply entries_loop_raises; eauto.
Qed.

(** X16.  One skill whose tags cannot be joined (a number, a list with an
    item that is not text) makes the markdown catalog raise [TypeError]. *)
Theorem catalog_bad_tags (skills : list dict) (skill : dict) (e : exn) :
  Forall category_is_text skills ->
  In skill skills ->
  join ", " (get skill "tags" (PyList [])) = Raise e ->
  catalog_lines format_other now_isoformat skills = Raise TypeError.
Proof.
  intros Htext Hin Hjoin.
  destruct (catalog_lines_run skills Htext) as (t & cats & Heq & Hcat & Hnd & Hcov).
  rewrite Heq.
  destruct (sections_loop format_other cats t _) as [lines|e1] eqn:Hrun.
  - exfalso.
    apply (sections_loop_spec format_other skills t cats _ _ Hcat) in Hrun
      as (bodies & HF & _).
    rewrite Forall_forall in Htext. destruct (Htext skill Hin) as [c Hc].
    assert (Hl : In c (map label_of cats)) by (apply Hcov; eauto).
    assert (Hbody : exists body,
              entries_loop format_other (filter (in_category c) skills) [] = Ok body).
    { clear - HF Hl. induction HF as [|c' b ls bs Hb HF IH]; [destruct Hl|].
      destruct Hl as [->|Hl]; eauto. }
    destruct Hbody as [body Hbody].
    apply entries_loop_length in Hbody as [_ Hall].
    rewrite Forall_forall in Hall.
    destruct (Hall skill) as [block Hblock].
    { apply filter_In. split; [exact Hin|]. now apply in_category_iff. }
    unfold entry_lines in Hblock. rewrite Hjoin in Hblock. discriminate.
  - f_equal. eapply sections_loop_raises; eauto.
Qed.

Lemma group_loop_raises : forall skills t e,
  group_loop skills t = Raise e -> e = TypeError.
Proof.
  induction skills as [|skill skills IH]; cbn [group_loop]; intros t e H; [discriminate|].
  destruct (hashable _) as [category|e1] eqn:E; cbn [bind] in H.
  - eapply IH; eauto.
  - inversion H; subst. unfold hashable in E.
    destruct (get skill "category" (PyStr "uncategorized")); now inversion E.
Qed.

Lemma group_loop_hashable : forall skills t r,
  group_loop skills t = Ok r ->
  Forall (fun skill => exists a, category_of skill = PyAtom a) skills.
Proof.
  induction skills as [|skill skills IH]; cbn [group_loop]; intros t r H; [constructor|].
  fold (category_of skill) in H.
  destruct (category_of skill) as [a|l|d] eqn:E; cbn [hashable bind] in H;
    try discriminate.
  constructor; [eauto|]. eapply IH; eauto.
Qed.

(** X17.  One skill whose category is a list or a mapping makes the
    markdown catalog raise [TypeError]: the category is used as a
    dictionary key. *)
Theorem catalog_unhashable_category (skills : list dict) (skill : dict) :
  In skill skills ->
  unhashable_category skill ->
  catalog_lines format_other now_isoformat skills = Raise TypeError.
Proof.
  intros Hin Hun. unfold catalog_lines.
  destruct (group_loop skills []) as [t|e] eqn:G; cbn [bind].
  - exfalso. apply group_loop_hashable in G. rewrite Forall_forall in G.
    destruct (G skill Hin) as [a Ha]. now apply (Hun a).
  - f_equal. eapply group_loop_raises; eauto.
Qed.

End MarkdownMore.

(* ===================================================================== *)
(** ** The module-level functions: reports and templates *)
(* ===================================================================== *)

Section CliFacts.
Import Py Re SkillValidator SkillCatalog Spec Notions.
Import Cli.

Variable safe_load : string -> result pyval.
Variable format_other : pyval -> string.
Variable path_join : string -> string -> string.
Variable created_on : string.
Variable updated_on : string.
















(** X21.  For a name that is not made of runs of lower-case letters and
    digits joined by single hyphens (one line feed at the end apart),
    [create_skill_template] prints one message and creates nothing. *)
Theorem create_skill_template_rejects (name output_dir author category : string) :
  kebab (chomp name) = false ->
  create_skill_template path_join created_on updated_on name output_dir author category
  = [Print "Error: Invalid skill name. Use lowercase with hyphens."].
Proof.
  intros H. unfold create_skill_template.
  destruct (re_match (pattern_re NAME_PATTERN) name) as [m|] eqn:E; [|reflexivity].
  assert (Hk : kebab (chomp name) = true) by (apply name_pattern_sound; congruence).
  congruence.
Qed.



(** X18.  For a document that passes every check, [validate_skill_file]
    prints three lines: the verdict, the name and the version. *)
Theorem validate_skill_file_reports_valid (loaded : option config) (fs : filesystem)
    (path content : string) (d : dict) :
  fs path = File content ->
  extract_frontmatter safe_load content = Ok (PyDict d) ->
  d <> [] ->
  (forall field, In field (required_fields (validation (_load_config loaded))) ->
                 dict_mem (SStr field) d = true) ->
  accepted_or_absent (naming_pattern (validation (_load_config loaded))) d "name" ->
  accepted_or_absent (version_pattern (validation (_load_config loaded))) d "version" ->
  (forall section, In section REQUIRED_SECTIONS -> has_section content section = true) ->
  validate_skill_file safe_load format_other fs path loaded
  = Printed [ check_mark ++ " " ++ path ++ " is valid";
              "  Name: " ++ SkillCatalog.format format_other (get d "name" PyNone);
              "  Version: " ++ SkillCatalog.format format_other (get d "version" PyNone) ]
            None.
Proof.
  intros Hfs Hex Hd Hfields Hname Hversion Hsections. unfold validate_skill_file.
  now rewrite (validate_skill_checked safe_load _ fs path content d Hfs Hex Hd Hfields
                 Hname Hversion Hsections).
Qed.

(** X19.  Under a configuration that does not require a header, a
    document without a header block that parses is reported as having
    errors, and no error is listed: [validate_skill_file] prints the one
    line that announces them. *)
Theorem validate_skill_file_empty_report (cfg : config) (fs : filesystem)
    (path content : string) :
  require_frontmatter (validation cfg) = false ->
  fs path = File content ->
  block_absent content \/ block_malformed safe_load content ->
  validate_skill_file safe_load format_other fs path (Some cfg)
  = Printed [cross_mark ++ " " ++ path ++ " has errors:"] None.
Proof.
  intros Hreq Hfs Hblock. unfold validate_skill_file. cbn [_load_config].
  rewrite (validate_skill_no_metadata safe_load cfg fs path content PyNone Hfs).
  - now rewrite Hreq.
  - destruct Hblock as [Habs | Hmal];
      [now apply extract_frontmatter_no_block
      |now apply extract_frontmatter_rejected].
  - reflexivity.
Qed.

(** X20.  Under a configuration without required fields, a header that is
    a list without the items [name] and [version] is valid; then
    [validate_skill_file] prints the verdict and raises [AttributeError] at
    the lookup of the name. *)
Theorem validate_skill_file_list_header (cfg : config) (fs : filesystem)
    (path content : string) (l : list pyval) :
  required_fields (validation cfg) = [] ->
  fs path = File content ->
  extract_frontmatter safe_load content = Ok (PyList l) ->
  l <> [] ->
  contains "name" (PyList l) = Ok false ->
  contains "version" (PyList l) = Ok false ->
  (forall section, In section REQUIRED_SECTIONS -> has_section content section = true) ->
  validate_skill_file safe_load format_other fs path (Some cfg)
  = Printed [check_mark ++ " " ++ path ++ " is valid"] (Some AttributeError).
Proof.
  intros Hreq Hfs Hex Hl Hn Hv Hsections.
  unfold validate_skill_file, validate_skill, path_exists, read_text. cbn [_load_config].
  rewrite Hfs. cbn [negb bind]. rewrite Hex. cbn [bind].
  assert (Ht : truthy (PyList l) = true) by (destruct l; [congruence|reflexivity]).
  rewrite Ht, Hreq. cbn [negb required_fields_loop bind].
  rewrite Hn. cbn [bind]. rewrite Hv. cbn [bind].
  rewrite (validate_content_complete content Hsections). reflexivity.
Qed.

End CliFacts.

(* ===================================================================== *)
(** ** The further properties on the sample documents *)
(* ===================================================================== *)

Section FurtherExamples.
Import Py Re SkillValidator SkillCatalog Cli Spec Samples Notions Cases.

(** X1 on the document of the test [test_validate_skill_valid]. *)
Lemma valid_means_checked_witness :
  one_file valid_doc "SKILL.md" = File valid_doc /\
  validate_skill case_load default_config (one_file valid_doc) "SKILL.md"
  = Ok (ValidationResult true [] (Some (PyDict valid_metadata))) /\
  (forall section, In section REQUIRED_SECTIONS ->
                   has_section valid_doc section = true).
Proof.
  assert (Hrun : validate_skill case_load default_config (one_file valid_doc) "SKILL.md"
                 = Ok (ValidationResult true [] (Some (PyDict valid_metadata))))
    by (vm_compute; reflexivity).
  split; [reflexivity|]. split; [exact Hrun|].
  destruct (valid_means_checked case_load default_config (one_file valid_doc)
              "SKILL.md" valid_doc _ eq_refl Hrun eq_refl)
    as (fm & _ & _ & _ & _ & _ & _ & _ & Hsections).
  exact Hsections.
Defined.

(** X2 on the same document. *)
Lemma checked_means_valid_witness :
  one_file valid_doc "SKILL.md" = File valid_doc /\
  extract_frontmatter case_load valid_doc = Ok (PyDict valid_metadata) /\
  validate_skill case_load default_config (one_file valid_doc) "SKILL.md"
  = Ok (ValidationResult true [] (Some (PyDict valid_metadata))).
Proof.
  assert (Hex : extract_frontmatter case_load valid_doc = Ok (PyDict valid_metadata))
    by (vm_compute; reflexivity).
  split; [reflexivity|]. split; [exact Hex|].
  apply (checked_means_valid case_load default_config (one_file valid_doc)
           "SKILL.md" valid_doc valid_metadata eq_refl Hex).
  - discriminate.
  - intros field [<- | [<- | [<- | []]]]; reflexivity.
  - exists "test-skill". split; [reflexivity|vm_compute; discriminate].
  - exists "1.0.0". split; [reflexivity|vm_compute; discriminate].
  - intros section [<- | [<- | [<- | []]]]; vm_compute; reflexivity.
Defined.

(** X3 on the document of the test [test_validate_skill_invalid_version],
    under a configuration of its own. *)
Lemma non_text_format_raises_witness :
  one_file invalid_version_doc "SKILL.md" = File invalid_version_doc /\
  not_text (PyFloat (1 # 1)) /\
  validate_skill sample_load lenient_config (one_file invalid_version_doc) "SKILL.md"
  = Raise TypeError.
Proof.
  assert (Hv : not_text (PyFloat (1 # 1))) by (intros s; discriminate).
  split; [reflexivity|]. split; [exact Hv|].
  apply (non_text_format_raises sample_load lenient_config (one_file invalid_version_doc)
           "SKILL.md" invalid_version_doc
           [(SStr "name", PyStr "test-skill");
            (SStr "version", PyFloat (1 # 1));
            (SStr "description", PyStr "Test skill")]
           (PyFloat (1 # 1)) eq_refl).
  - vm_compute; reflexivity.
  - exact Hv.
  - right. split; [exists "test-skill"; reflexivity|reflexivity].
Defined.

(** X4 on a header that is the number 42. *)
Lemma scalar_header_raises_witness :
  extract_frontmatter case_load number_doc = Ok (PyInt 42) /\
  validate_skill case_load default_config (one_file number_doc) "SKILL.md"
  = Raise TypeError.
Proof.
  assert (Hex : extract_frontmatter case_load number_doc = Ok (PyInt 42))
    by (vm_compute; reflexivity).
  split; [exact Hex|].
  apply (scalar_header_raises case_load default_config (one_file number_doc)
           "SKILL.md" number_doc (SInt 42) eq_refl Hex);
    [reflexivity|intros s; discriminate].
Defined.

(** X5 on a heading in the second line, with text after the name. *)
Lemma heading_satisfies_section_witness :
  line_start ("# Title" ++ nl) /\
  ~ In "Missing required section: Overview"
       (_validate_content (("# Title" ++ nl) ++ "##" ++ "  " ++ "Overview" ++ " of it")).
Proof.
  assert (Hstart : line_start ("# Title" ++ nl)) by (right; exists "# Title"; reflexivity).
  split; [exact Hstart|].
  apply (heading_satisfies_section ("# Title" ++ nl) " " "Overview" " of it" " "%char Hstart);
    reflexivity.
Defined.

(** X6 on the document of the test [test_extract_frontmatter_missing]. *)
Lemma no_heading_all_sections_missing_witness :
  String.prefix "##" no_frontmatter_doc = false /\
  str_contains (nl ++ "##") no_frontmatter_doc = false /\
  _validate_content no_frontmatter_doc =
  ["Missing required section: Overview";
   "Missing required section: Instructions";
   "Missing required section: Examples"].
Proof.
  split; [reflexivity|]. split; [reflexivity|].
  apply (no_heading_all_sections_missing no_frontmatter_doc); reflexivity.
Defined.

(** X7 on the same document. *)
Lemma no_leading_delimiter_witness :
  String.prefix "---" no_frontmatter_doc = false /\
  extract_frontmatter sample_load no_frontmatter_doc = Ok PyNone.
Proof.
  split; [reflexivity|].
  apply (no_leading_delimiter sample_load no_frontmatter_doc); reflexivity.
Defined.

(** X8 on one header above two bodies. *)
Lemma extraction_ignores_rest_witness :
  blank_lines "" = true /\
  first_line_has_text "name: demo" = true /\
  no_delimiter_line "name: demo" = true /\
  extract_frontmatter sample_load (framed "" "name: demo" ("# Demo" ++ nl))
  = extract_frontmatter sample_load (framed "" "name: demo" "").
Proof.
  repeat (split; [reflexivity|]).
  apply (extraction_ignores_rest sample_load "" "name: demo" ("# Demo" ++ nl) "");
    reflexivity.
Defined.

(** X9 on a header that begins with a blank line and whose closing line
    has no line feed, and on an opening line alone. *)
Lemma unclosed_header_absent_witness :
  first_line_has_text (nl ++ "name: demo") = false /\
  no_delimiter_line (nl ++ "name: demo") = true /\
  open_end (nl ++ "---") /\
  extract_frontmatter sample_load ("---" ++ nl ++ (nl ++ "name: demo") ++ nl ++ "---")
  = Ok PyNone /\
  no_delimiter_line "" = true /\
  open_end "" /\
  extract_frontmatter sample_load ("---" ++ nl ++ "" ++ "") = Ok PyNone.
Proof.
  assert (Hend : open_end (nl ++ "---")) by (right; exists ""; split; reflexivity).
  assert (Hnone : open_end "") by (left; reflexivity).
  split; [reflexivity|]. split; [reflexivity|]. split; [exact Hend|]. split.
  - apply (unclosed_header_absent sample_load (nl ++ "name: demo") (nl ++ "---"));
      [reflexivity|exact Hend].
  - split; [reflexivity|]. split; [exact Hnone|].
    apply (unclosed_header_absent sample_load "" ""); [reflexivity|exact Hnone].
Defined.

(** X12 on two files found in the order [b-skill], [a-skill]. *)
Lemma discover_skills_entries_witness :
  _discover_skills sample_load sample_files = Ok [a_entry; b_entry] /\
  flat_map (entry_for sample_load) sample_files = [b_entry; a_entry] /\
  Permutation [a_entry; b_entry] (flat_map (entry_for sample_load) sample_files).
Proof.
  assert (Hrun : _discover_skills sample_load sample_files = Ok [a_entry; b_entry])
    by (vm_compute; reflexivity).
  split; [exact Hrun|]. split; [vm_compute; reflexivity|].
  exact (proj1 (discover_skills_entries sample_load sample_files [a_entry; b_entry] Hrun)).
Defined.

(** X13 on three files, of which the first and the last have the name
    [b-skill]: their entries come after the entry of [a-skill], the entry
    of the file found first before the entry of the file found last. *)
Lemma discover_skills_stable_witness :
  flat_map (entry_for sample_load) twin_files = [first_twin; a_entry; second_twin] /\
  _discover_skills sample_load twin_files = Ok [a_entry; first_twin; second_twin] /\
  Forall name_is_text [a_entry; first_twin; second_twin] /\
  name_of first_twin = name_of second_twin /\
  filter (fun d => name_of d =? "b-skill") [a_entry; first_twin; second_twin]
  = [first_twin; second_twin] /\
  filter (fun d => name_of d =? "b-skill") [a_entry; first_twin; second_twin]
  = filter (fun d => name_of d =? "b-skill") (flat_map (entry_for sample_load) twin_files).
Proof.
  assert (Hrun : _discover_skills sample_load twin_files
                 = Ok [a_entry; first_twin; second_twin])
    by (vm_compute; reflexivity).
  assert (Htext : Forall name_is_text [a_entry; first_twin; second_twin])
    by (repeat constructor; eexists; reflexivity).
  split; [vm_compute; reflexivity|]. split; [exact Hrun|]. split; [exact Htext|].
  split; [reflexivity|]. split; [reflexivity|].
  exact (discover_skills_stable sample_load twin_files
           [a_entry; first_twin; second_twin] "b-skill" Hrun Htext).
Defined.

(** X14 on a file whose header is a list, found after another file. *)
Lemma discover_skills_not_mapping_witness :
  discover_loop sample_load [("b/SKILL.md", b_doc)] [] = Ok [b_entry] /\
  extract_frontmatter sample_load sequence_doc = Ok (PyList [PyStr "tag"]) /\
  not_mapping (PyList [PyStr "tag"]) /\
  _discover_skills sample_load
    [("b/SKILL.md", b_doc); ("c/SKILL.md", sequence_doc); ("a/SKILL.md", a_doc)]
  = Raise TypeError.
Proof.
  assert (Hb : discover_loop sample_load [("b/SKILL.md", b_doc)] [] = Ok [b_entry])
    by (vm_compute; reflexivity).
  assert (Hex : extract_frontmatter sample_load sequence_doc = Ok (PyList [PyStr "tag"]))
    by (vm_compute; reflexivity).
  assert (Hv : not_mapping (PyList [PyStr "tag"]))
    by (split; [reflexivity|intros d; discriminate]).
  split; [exact Hb|]. split; [exact Hex|]. split; [exact Hv|].
  exact (discover_skills_not_mapping sample_load [("b/SKILL.md", b_doc)]
           [("a/SKILL.md", a_doc)] "c/SKILL.md" sequence_doc (PyList [PyStr "tag"])
           [b_entry] Hb Hex Hv).
Defined.

(** X15 on two skills of two categories. *)
Lemma catalog_lists_each_skill_once_witness :
  Forall category_is_text [zeta_skill; alpha_skill] /\
  exists lines labels bodies,
    catalog_lines sample_format sample_now [zeta_skill; alpha_skill] = Ok lines /\
    lines = (preamble sample_now 2 ++ sections labels bodies)%list /\
    Permutation (filed [zeta_skill; alpha_skill] labels) [zeta_skill; alpha_skill] /\
    List.length lines = 3 + List.length labels + 4 * 2.
Proof.
  assert (Htext : Forall category_is_text [zeta_skill; alpha_skill])
    by (repeat constructor; eexists; reflexivity).
  assert (Hrun : exists lines,
            catalog_lines sample_format sample_now [zeta_skill; alpha_skill] = Ok lines)
    by (eexists; vm_compute; reflexivity).
  destruct Hrun as [lines Hrun].
  split; [exact Htext|].
  destruct (catalog_lists_each_skill_once sample_format sample_now
              [zeta_skill; alpha_skill] lines Htext Hrun)
    as (labels & bodies & Hlines & _ & Hperm & Hlen).
  exists lines, labels, bodies. repeat split; assumption.
Defined.

(** X16 on a skill whose tags are numbers. *)
Lemma catalog_bad_tags_witness :
  Forall category_is_text [alpha_skill; numbered_skill] /\
  join ", " (get numbered_skill "tags" (PyList [])) = Raise TypeError /\
  catalog_lines sample_format sample_now [alpha_skill; numbered_skill] = Raise TypeError.
Proof.
  assert (Htext : Forall category_is_text [alpha_skill; numbered_skill])
    by (repeat constructor; eexists; reflexivity).
  split; [exact Htext|]. split; [reflexivity|].
  apply (catalog_bad_tags sample_format sample_now [alpha_skill; numbered_skill]
           numbered_skill TypeError Htext);
    [right; left; reflexivity|reflexivity].
Defined.

(** X17 on a skill whose category is a list. *)
Lemma catalog_unhashable_category_witness :
  unhashable_category listed_skill /\
  catalog_lines sample_format sample_now [alpha_skill; listed_skill] = Raise TypeError.
Proof.
  assert (Hun : unhashable_category listed_skill) by (intros a; discriminate).
  split; [exact Hun|].
  apply (catalog_unhashable_category sample_format sample_now [alpha_skill; listed_skill]
           listed_skill);
    [right; left; reflexivity|exact Hun].
Defined.

(** X18 on the document of the test [test_validate_skill_valid]. *)
Lemma validate_skill_file_reports_valid_witness :
  extract_frontmatter case_load valid_doc = Ok (PyDict valid_metadata) /\
  validate_skill_file case_load sample_format (one_file valid_doc) "SKILL.md" None
  = Printed [ check_mark ++ " SKILL.md is valid";
              "  Name: test-skill";
              "  Version: 1.0.0" ]
            None.
Proof.
  assert (Hex : extract_frontmatter case_load valid_doc = Ok (PyDict valid_metadata))
    by (vm_compute; reflexivity).
  split; [exact Hex|].
  apply (validate_skill_file_reports_valid case_load sample_format None
           (one_file valid_doc) "SKILL.md" valid_doc valid_metadata eq_refl Hex).
  - discriminate.
  - intros field [<- | [<- | [<- | []]]]; reflexivity.
  - exists "test-skill". split; [reflexivity|vm_compute; discriminate].
  - exists "1.0.0". split; [reflexivity|vm_compute; discriminate].
  - intros section [<- | [<- | [<- | []]]]; vm_compute; reflexivity.
Defined.

(** X19 on the document of the test [test_extract_frontmatter_missing]. *)
Lemma validate_skill_file_empty_report_witness :
  require_frontmatter (validation lenient_config) = false /\
  block_absent no_frontmatter_doc /\
  validate_skill_file sample_load sample_format (one_file no_frontmatter_doc) "SKILL.md"
    (Some lenient_config)
  = Printed [cross_mark ++ " SKILL.md has errors:"] None.
Proof.
  assert (Habs : block_absent no_frontmatter_doc) by (vm_compute; reflexivity).
  split; [reflexivity|]. split; [exact Habs|].
  apply (validate_skill_file_empty_report sample_load sample_format lenient_config
           (one_file no_frontmatter_doc) "SKILL.md" no_frontmatter_doc);
    [reflexivity|reflexivity|left; exact Habs].
Defined.

(** X20 on a header that is a list, above the three sections. *)
Lemma validate_skill_file_list_header_witness :
  required_fields (validation bare_config) = [] /\
  extract_frontmatter sample_load list_doc = Ok (PyList [PyStr "tag"]) /\
  validate_skill_file sample_load sample_format (one_file list_doc) "SKILL.md"
    (Some bare_config)
  = Printed [check_mark ++ " SKILL.md is valid"] (Some AttributeError).
Proof.
  assert (Hex : extract_frontmatter sample_load list_doc = Ok (PyList [PyStr "tag"]))
    by (vm_compute; reflexivity).
  split; [reflexivity|]. split; [exact Hex|].
  apply (validate_skill_file_list_header sample_load sample_format bare_config
           (one_file list_doc) "SKILL.md" list_doc [PyStr "tag"] eq_refl eq_refl Hex).
  - discriminate.
  - reflexivity.
  - reflexivity.
  - intros section [<- | [<- | [<- | []]]]; vm_compute; reflexivity.
Defined.

(** X21 on the name of the test [test_validate_skill_invalid_name]. *)
Lemma create_skill_template_rejects_witness :
  kebab (chomp "Test_Skill_123") = false /\
  create_skill_template join_path today today "Test_Skill_123" "skills" "" "utility"
  = [Print "Error: Invalid skill name. Use lowercase with hyphens."].
Proof.
  split; [reflexivity|].
  apply (create_skill_template_rejects join_path today today "Test_Skill_123"
           "skills" "" "utility");
    reflexivity.
Defined.



(** X24 on a skill named [2048], found after a skill with a name that is
    text. *)
Lemma discover_skills_mixed_names_witness :
  discover_loop case_load [("b/SKILL.md", b_doc); ("n/SKILL.md", number_name_doc)] []
  = Ok ([b_entry] ++ number_entry :: [])%list /\
  Forall name_is_text [b_entry] /\
  not_text (name_key number_entry) /\
  _discover_skills case_load [("b/SKILL.md", b_doc); ("n/SKILL.md", number_name_doc)]
  = Raise TypeError.
Proof.
  assert (Hloop : discover_loop case_load
                    [("b/SKILL.md", b_doc); ("n/SKILL.md", number_name_doc)] []
                  = Ok ([b_entry] ++ number_entry :: [])%list)
    by (vm_compute; reflexivity).
  assert (Htext : Forall name_is_text [b_entry])
    by (repeat constructor; eexists; reflexivity).
  assert (Hname : not_text (name_key number_entry)) by (intros s; discriminate).
  split; [exact Hloop|]. split; [exact Htext|]. split; [exact Hname|].
  apply (discover_skills_mixed_names case_load
           [("b/SKILL.md", b_doc); ("n/SKILL.md", number_name_doc)]
           [b_entry] [] number_entry Hloop);
    [discriminate|exact Htext|exact Hname].
Defined.

End FurtherExamples.
